(** * nlpxcredit: the fetch / aggregate / dedupe / filter / bound pipeline

    A shallow embedding of the scraping pipeline of [ft_scraper.py]
    ([FinancialTimesScraper]) and [extract.py] ([FinancialNewsScraper]):

    - a Python [str] is a [str], a sequence of Unicode code points;
      [str.lower] is [PyStr.lower], with the tables of the Unicode
      character database it reads; [len] is [PyStr.len], [k in s] is
      [PyStr.contains], [s.startswith p] is [PyStr.startswith];
    - Python [int] is [Z]; a slice [l[:m]] is [slice_to], with Python's
      meaning of a negative bound;
    - the [seen_urls] set is a [gset str];
    - exceptions, logging, sleeping and the network are explicit: a
      computation of type [M A] yields the trace of events it performed and
      either a value or the exception it raised. *)

From Stdlib Require Import ZArith NArith Lia.
From Stdlib.Strings Require Import Byte.
From stdpp Require Import base list gmap sets.

Set Warnings "-clear-no-such-hyp".

Local Open Scope list_scope.
Local Open Scope Z_scope.

(** ** Python strings

    A Python [str] is a sequence of Unicode code points.  A literal of this
    file is read as UTF-8 and stands for the sequence of its code points, as
    a literal of the source does. *)

Inductive str :=
  | Empty
  | Cons (c : N) (s : str).

#[global] Instance str_eq_dec : EqDecision str.
Proof. solve_decision. Defined.

(** The code points of a string, and back. *)
Fixpoint code_points (s : str) : list N :=
  match s with
  | Empty => []
  | Cons c s' => c :: code_points s'
  end.

Fixpoint of_code_points (l : list N) : str :=
  match l with
  | [] => Empty
  | c :: l' => Cons c (of_code_points l')
  end.

(** [s + t] *)
Fixpoint append (s t : str) : str :=
  match s with
  | Empty => t
  | Cons c s' => Cons c (append s' t)
  end.

(** Reading and printing literals: UTF-8. *)
Module Utf8.

Local Open Scope N_scope.

Fixpoint of_utf8 (l : list byte) : option str :=
  match l with
  | [] => Some Empty
  | b :: l1 =>
      let n := Byte.to_N b in
      if n <? 128 then option_map (Cons n) (of_utf8 l1)
      else
        match l1 with
        | [] => None
        | b1 :: l2 =>
            let n1 := Byte.to_N b1 - 128 in
            if n <? 224
            then option_map (Cons ((n - 192) * 64 + n1)) (of_utf8 l2)
            else
              match l2 with
              | [] => None
              | b2 :: l3 =>
                  let n2 := Byte.to_N b2 - 128 in
                  if n <? 240
                  then option_map
                         (Cons ((n - 224) * 4096 + n1 * 64 + n2)) (of_utf8 l3)
                  else
                    match l3 with
                    | [] => None
                    | b3 :: l4 =>
                        let n3 := Byte.to_N b3 - 128 in
                        option_map
                          (Cons ((n - 240) * 262144 + n1 * 4096 + n2 * 64 + n3))
                          (of_utf8 l4)
                    end
              end
        end
  end.

Definition byte_of (n : N) : byte := default x00 (Byte.of_N n).

Fixpoint to_utf8 (s : str) : list byte :=
  match s with
  | Empty => []
  | Cons c s' =>
      (if c <? 128 then [byte_of c]
       else if c <? 2048
       then [byte_of (192 + c / 64); byte_of (128 + c mod 64)]
       else if c <? 65536
       then [byte_of (224 + c / 4096); byte_of (128 + (c / 64) mod 64);
             byte_of (128 + c mod 64)]
       else [byte_of (240 + c / 262144); byte_of (128 + (c / 4096) mod 64);
             byte_of (128 + (c / 64) mod 64); byte_of (128 + c mod 64)])
      ++ to_utf8 s'
  end.

End Utf8.

Declare Scope str_scope.
Delimit Scope str_scope with str.
Bind Scope str_scope with str.
String Notation str Utf8.of_utf8 Utf8.to_utf8 : str_scope.
Infix "+:+" := append (at level 60, right associativity) : str_scope.

Local Open Scope str_scope.

#[global] Instance str_countable : Countable str.
Proof.
  apply (inj_countable' code_points of_code_points).
  intros s. induction s as [|c s IH]; simpl; [done | by rewrite IH].
Defined.

Module PyStr.

Local Open Scope N_scope.

(** *** The tables of [str.lower]

    CPython lower-cases a string code point by code point, with the tables
    of the Unicode character database (here those of Unicode 14.0.0, which
    CPython 3.11 carries):
    - [lower_pairs]: the code points outside ASCII that have a lower-case
      form of one code point other than themselves, with that form;
    - U+0130, the only code point whose lower-case form has two code
      points, U+0069 U+0307;
    - [case_ignorable] and [cased]: the ranges of the code points with the
      properties Case_Ignorable and Cased, which decide whether a capital
      sigma U+03A3 is final (U+03C2) or not (U+03C3). *)
Definition lower_pairs : list (N * N) :=
  [
   (192, 224); (193, 225); (194, 226); (195, 227); (196, 228); (197, 229);
   (198, 230); (199, 231); (200, 232); (201, 233); (202, 234); (203, 235);
   (204, 236); (205, 237); (206, 238); (207, 239); (208, 240); (209, 241);
   (210, 242); (211, 243); (212, 244); (213, 245); (214, 246); (216, 248);
   (217, 249); (218, 250); (219, 251); (220, 252); (221, 253); (222, 254);
   (256, 257); (258, 259); (260, 261); (262, 263); (264, 265); (266, 267);
   (268, 269); (270, 271); (272, 273); (274, 275); (276, 277); (278, 279);
   (280, 281); (282, 283); (284, 285); (286, 287); (288, 289); (290, 291);
   (292, 293); (294, 295); (296, 297); (298, 299); (300, 301); (302, 303);
   (306, 307); (308, 309); (310, 311); (313, 314); (315, 316); (317, 318);
   (319, 320); (321, 322); (323, 324); (325, 326); (327, 328); (330, 331);
   (332, 333); (334, 335); (336, 337); (338, 339); (340, 341); (342, 343);
   (344, 345); (346, 347); (348, 349); (350, 351); (352, 353); (354, 355);
   (356, 357); (358, 359); (360, 361); (362, 363); (364, 365); (366, 367);
   (368, 369); (370, 371); (372, 373); (374, 375); (376, 255); (377, 378);
   (379, 380); (381, 382); (385, 595); (386, 387); (388, 389); (390, 596);
   (391, 392); (393, 598); (394, 599); (395, 396); (398, 477); (399, 601);
   (400, 603); (401, 402); (403, 608); (404, 611); (406, 617); (407, 616);
   (408, 409); (412, 623); (413, 626); (415, 629); (416, 417); (418, 419);
   (420, 421); (422, 640); (423, 424); (425, 643); (428, 429); (430, 648);
   (431, 432); (433, 650); (434, 651); (435, 436); (437, 438); (439, 658);
   (440, 441); (444, 445); (452, 454); (453, 454); (455, 457); (456, 457);
   (458, 460); (459, 460); (461, 462); (463, 464); (465, 466); (467, 468);
   (469, 470); (471, 472); (473, 474); (475, 476); (478, 479); (480, 481);
   (482, 483); (484, 485); (486, 487); (488, 489); (490, 491); (492, 493);
   (494, 495); (497, 499); (498, 499); (500, 501); (502, 405); (503, 447);
   (504, 505); (506, 507); (508, 509); (510, 511); (512, 513); (514, 515);
   (516, 517); (518, 519); (520, 521); (522, 523); (524, 525); (526, 527);
   (528, 529); (530, 531); (532, 533); (534, 535); (536, 537); (538, 539);
   (540, 541); (542, 543); (544, 414); (546, 547); (548, 549); (550, 551);
   (552, 553); (554, 555); (556, 557); (558, 559); (560, 561); (562, 563);
   (570, 11365); (571, 572); (573, 410); (574, 11366); (577, 578);
   (579, 384); (580, 649); (581, 652); (582, 583); (584, 585); (586, 587);
   (588, 589); (590, 591); (880, 881); (882, 883); (886, 887); (895, 1011);
   (902, 940); (904, 941); (905, 942); (906, 943); (908, 972); (910, 973);
   (911, 974); (913, 945); (914, 946); (915, 947); (916, 948); (917, 949);
   (918, 950); (919, 951); (920, 952); (921, 953); (922, 954); (923, 955);
   (924, 956); (925, 957); (926, 958); (927, 959); (928, 960); (929, 961);
   (932, 964); (933, 965); (934, 966); (935, 967); (936, 968); (937, 969);
   (938, 970); (939, 971); (975, 983); (984, 985); (986, 987); (988, 989);
   (990, 991); (992, 993); (994, 995); (996, 997); (998, 999); (1000, 1001);
   (1002, 1003); (1004, 1005); (1006, 1007); (1012, 952); (1015, 1016);
   (1017, 1010); (1018, 1019); (1021, 891); (1022, 892); (1023, 893);
   (1024, 1104); (1025, 1105); (1026, 1106); (1027, 1107); (1028, 1108);
   (1029, 1109); (1030, 1110); (1031, 1111); (1032, 1112); (1033, 1113);
   (1034, 1114); (1035, 1115); (1036, 1116); (1037, 1117); (1038, 1118);
   (1039, 1119); (1040, 1072); (1041, 1073); (1042, 1074); (1043, 1075);
   (1044, 1076); (1045, 1077); (1046, 1078); (1047, 1079); (1048, 1080);
   (1049, 1081); (1050, 1082); (1051, 1083); (1052, 1084); (1053, 1085);
   (1054, 1086); (1055, 1087); (1056, 1088); (1057, 1089); (1058, 1090);
   (1059, 1091); (1060, 1092); (1061, 1093); (1062, 1094); (1063, 1095);
   (1064, 1096); (1065, 1097); (1066, 1098); (1067, 1099); (1068, 1100);
   (1069, 1101); (1070, 1102); (1071, 1103); (1120, 1121); (1122, 1123);
   (1124, 1125); (1126, 1127); (1128, 1129); (1130, 1131); (1132, 1133);
   (1134, 1135); (1136, 1137); (1138, 1139); (1140, 1141); (1142, 1143);
   (1144, 1145); (1146, 1147); (1148, 1149); (1150, 1151); (1152, 1153);
   (1162, 1163); (1164, 1165); (1166, 1167); (1168, 1169); (1170, 1171);
   (1172, 1173); (1174, 1175); (1176, 1177); (1178, 1179); (1180, 1181);
   (1182, 1183); (1184, 1185); (1186, 1187); (1188, 1189); (1190, 1191);
   (1192, 1193); (1194, 1195); (1196, 1197); (1198, 1199); (1200, 1201);
   (1202, 1203); (1204, 1205); (1206, 1207); (1208, 1209); (1210, 1211);
   (1212, 1213); (1214, 1215); (1216, 1231); (1217, 1218); (1219, 1220);
   (1221, 1222); (1223, 1224); (1225, 1226); (1227, 1228); (1229, 1230);
   (1232, 1233); (1234, 1235); (1236, 1237); (1238, 1239); (1240, 1241);
   (1242, 1243); (1244, 1245); (1246, 1247); (1248, 1249); (1250, 1251);
   (1252, 1253); (1254, 1255); (1256, 1257); (1258, 1259); (1260, 1261);
   (1262, 1263); (1264, 1265); (1266, 1267); (1268, 1269); (1270, 1271);
   (1272, 1273); (1274, 1275); (1276, 1277); (1278, 1279); (1280, 1281);
   (1282, 1283); (1284, 1285); (1286, 1287); (1288, 1289); (1290, 1291);
   (1292, 1293); (1294, 1295); (1296, 1297); (1298, 1299); (1300, 1301);
   (1302, 1303); (1304, 1305); (1306, 1307); (1308, 1309); (1310, 1311);
   (1312, 1313); (1314, 1315); (1316, 1317); (1318, 1319); (1320, 1321);
   (1322, 1323); (1324, 1325); (1326, 1327); (1329, 1377); (1330, 1378);
   (1331, 1379); (1332, 1380); (1333, 1381); (1334, 1382); (1335, 1383);
   (1336, 1384); (1337, 1385); (1338, 1386); (1339, 1387); (1340, 1388);
   (1341, 1389); (1342, 1390); (1343, 1391); (1344, 1392); (1345, 1393);
   (1346, 1394); (1347, 1395); (1348, 1396); (1349, 1397); (1350, 1398);
   (1351, 1399); (1352, 1400); (1353, 1401); (1354, 1402); (1355, 1403);
   (1356, 1404); (1357, 1405); (1358, 1406); (1359, 1407); (1360, 1408);
   (1361, 1409); (1362, 1410); (1363, 1411); (1364, 1412); (1365, 1413);
   (1366, 1414); (4256, 11520); (4257, 11521); (4258, 11522); (4259, 11523);
   (4260, 11524); (4261, 11525); (4262, 11526); (4263, 11527); (4264, 11528);
   (4265, 11529); (4266, 11530); (4267, 11531); (4268, 11532); (4269, 11533);
   (4270, 11534); (4271, 11535); (4272, 11536); (4273, 11537); (4274, 11538);
   (4275, 11539); (4276, 11540); (4277, 11541); (4278, 11542); (4279, 11543);
   (4280, 11544); (4281, 11545); (4282, 11546); (4283, 11547); (4284, 11548);
   (4285, 11549); (4286, 11550); (4287, 11551); (4288, 11552); (4289, 11553);
   (4290, 11554); (4291, 11555); (4292, 11556); (4293, 11557); (4295, 11559);
   (4301, 11565); (5024, 43888); (5025, 43889); (5026, 43890); (5027, 43891);
   (5028, 43892); (5029, 43893); (5030, 43894); (5031, 43895); (5032, 43896);
   (5033, 43897); (5034, 43898); (5035, 43899); (5036, 43900); (5037, 43901);
   (5038, 43902); (5039, 43903); (5040, 43904); (5041, 43905); (5042, 43906);
   (5043, 43907); (5044, 43908); (5045, 43909); (5046, 43910); (5047, 43911);
   (5048, 43912); (5049, 43913); (5050, 43914); (5051, 43915); (5052, 43916);
   (5053, 43917); (5054, 43918); (5055, 43919); (5056, 43920); (5057, 43921);
   (5058, 43922); (5059, 43923); (5060, 43924); (5061, 43925); (5062, 43926);
   (5063, 43927); (5064, 43928); (5065, 43929); (5066, 43930); (5067, 43931);
   (5068, 43932); (5069, 43933); (5070, 43934); (5071, 43935); (5072, 43936);
   (5073, 43937); (5074, 43938); (5075, 43939); (5076, 43940); (5077, 43941);
   (5078, 43942); (5079, 43943); (5080, 43944); (5081, 43945); (5082, 43946);
   (5083, 43947); (5084, 43948); (5085, 43949); (5086, 43950); (5087, 43951);
   (5088, 43952); (5089, 43953); (5090, 43954); (5091, 43955); (5092, 43956);
   (5093, 43957); (5094, 43958); (5095, 43959); (5096, 43960); (5097, 43961);
   (5098, 43962); (5099, 43963); (5100, 43964); (5101, 43965); (5102, 43966);
   (5103, 43967); (5104, 5112); (5105, 5113); (5106, 5114); (5107, 5115);
   (5108, 5116); (5109, 5117); (7312, 4304); (7313, 4305); (7314, 4306);
   (7315, 4307); (7316, 4308); (7317, 4309); (7318, 4310); (7319, 4311);
   (7320, 4312); (7321, 4313); (7322, 4314); (7323, 4315); (7324, 4316);
   (7325, 4317); (7326, 4318); (7327, 4319); (7328, 4320); (7329, 4321);
   (7330, 4322); (7331, 4323); (7332, 4324); (7333, 4325); (7334, 4326);
   (7335, 4327); (7336, 4328); (7337, 4329); (7338, 4330); (7339, 4331);
   (7340, 4332); (7341, 4333); (7342, 4334); (7343, 4335); (7344, 4336);
   (7345, 4337); (7346, 4338); (7347, 4339); (7348, 4340); (7349, 4341);
   (7350, 4342); (7351, 4343); (7352, 4344); (7353, 4345); (7354, 4346);
   (7357, 4349); (7358, 4350); (7359, 4351); (7680, 7681); (7682, 7683);
   (7684, 7685); (7686, 7687); (7688, 7689); (7690, 7691); (7692, 7693);
   (7694, 7695); (7696, 7697); (7698, 7699); (7700, 7701); (7702, 7703);
   (7704, 7705); (7706, 7707); (7708, 7709); (7710, 7711); (7712, 7713);
   (7714, 7715); (7716, 7717); (7718, 7719); (7720, 7721); (7722, 7723);
   (7724, 7725); (7726, 7727); (7728, 7729); (7730, 7731); (7732, 7733);
   (7734, 7735); (7736, 7737); (7738, 7739); (7740, 7741); (7742, 7743);
   (7744, 7745); (7746, 7747); (7748, 7749); (7750, 7751); (7752, 7753);
   (7754, 7755); (7756, 7757); (7758, 7759); (7760, 7761); (7762, 7763);
   (7764, 7765); (7766, 7767); (7768, 7769); (7770, 7771); (7772, 7773);
   (7774, 7775); (7776, 7777); (7778, 7779); (7780, 7781); (7782, 7783);
   (7784, 7785); (7786, 7787); (7788, 7789); (7790, 7791); (7792, 7793);
   (7794, 7795); (7796, 7797); (7798, 7799); (7800, 7801); (7802, 7803);
   (7804, 7805); (7806, 7807); (7808, 7809); (7810, 7811); (7812, 7813);
   (7814, 7815); (7816, 7817); (7818, 7819); (7820, 7821); (7822, 7823);
   (7824, 7825); (7826, 7827); (7828, 7829); (7838, 223); (7840, 7841);
   (7842, 7843); (7844, 7845); (7846, 7847); (7848, 7849); (7850, 7851);
   (7852, 7853); (7854, 7855); (7856, 7857); (7858, 7859); (7860, 7861);
   (7862, 7863); (7864, 7865); (7866, 7867); (7868, 7869); (7870, 7871);
   (7872, 7873); (7874, 7875); (7876, 7877); (7878, 7879); (7880, 7881);
   (7882, 7883); (7884, 7885); (7886, 7887); (7888, 7889); (7890, 7891);
   (7892, 7893); (7894, 7895); (7896, 7897); (7898, 7899); (7900, 7901);
   (7902, 7903); (7904, 7905); (7906, 7907); (7908, 7909); (7910, 7911);
   (7912, 7913); (7914, 7915); (7916, 7917); (7918, 7919); (7920, 7921);
   (7922, 7923); (7924, 7925); (7926, 7927); (7928, 7929); (7930, 7931);
   (7932, 7933); (7934, 7935); (7944, 7936); (7945, 7937); (7946, 7938);
   (7947, 7939); (7948, 7940); (7949, 7941); (7950, 7942); (7951, 7943);
   (7960, 7952); (7961, 7953); (7962, 7954); (7963, 7955); (7964, 7956);
   (7965, 7957); (7976, 7968); (7977, 7969); (7978, 7970); (7979, 7971);
   (7980, 7972); (7981, 7973); (7982, 7974); (7983, 7975); (7992, 7984);
   (7993, 7985); (7994, 7986); (7995, 7987); (7996, 7988); (7997, 7989);
   (7998, 7990); (7999, 7991); (8008, 8000); (8009, 8001); (8010, 8002);
   (8011, 8003); (8012, 8004); (8013, 8005); (8025, 8017); (8027, 8019);
   (8029, 8021); (8031, 8023); (8040, 8032); (8041, 8033); (8042, 8034);
   (8043, 8035); (8044, 8036); (8045, 8037); (8046, 8038); (8047, 8039);
   (8072, 8064); (8073, 8065); (8074, 8066); (8075, 8067); (8076, 8068);
   (8077, 8069); (8078, 8070); (8079, 8071); (8088, 8080); (8089, 8081);
   (8090, 8082); (8091, 8083); (8092, 8084); (8093, 8085); (8094, 8086);
   (8095, 8087); (8104, 8096); (8105, 8097); (8106, 8098); (8107, 8099);
   (8108, 8100); (8109, 8101); (8110, 8102); (8111, 8103); (8120, 8112);
   (8121, 8113); (8122, 8048); (8123, 8049); (8124, 8115); (8136, 8050);
   (8137, 8051); (8138, 8052); (8139, 8053); (8140, 8131); (8152, 8144);
   (8153, 8145); (8154, 8054); (8155, 8055); (8168, 8160); (8169, 8161);
   (8170, 8058); (8171, 8059); (8172, 8165); (8184, 8056); (8185, 8057);
   (8186, 8060); (8187, 8061); (8188, 8179); (8486, 969); (8490, 107);
   (8491, 229); (8498, 8526); (8544, 8560); (8545, 8561); (8546, 8562);
   (8547, 8563); (8548, 8564); (8549, 8565); (8550, 8566); (8551, 8567);
   (8552, 8568); (8553, 8569); (8554, 8570); (8555, 8571); (8556, 8572);
   (8557, 8573); (8558, 8574); (8559, 8575); (8579, 8580); (9398, 9424);
   (9399, 9425); (9400, 9426); (9401, 9427); (9402, 9428); (9403, 9429);
   (9404, 9430); (9405, 9431); (9406, 9432); (9407, 9433); (9408, 9434);
   (9409, 9435); (9410, 9436); (9411, 9437); (9412, 9438); (9413, 9439);
   (9414, 9440); (9415, 9441); (9416, 9442); (9417, 9443); (9418, 9444);
   (9419, 9445); (9420, 9446); (9421, 9447); (9422, 9448); (9423, 9449);
   (11264, 11312); (11265, 11313); (11266, 11314); (11267, 11315);
   (11268, 11316); (11269, 11317); (11270, 11318); (11271, 11319);
   (11272, 11320); (11273, 11321); (11274, 11322); (11275, 11323);
   (11276, 11324); (11277, 11325); (11278, 11326); (11279, 11327);
   (11280, 11328); (11281, 11329); (11282, 11330); (11283, 11331);
   (11284, 11332); (11285, 11333); (11286, 11334); (11287, 11335);
   (11288, 11336); (11289, 11337); (11290, 11338); (11291, 11339);
   (11292, 11340); (11293, 11341); (11294, 11342); (11295, 11343);
   (11296, 11344); (11297, 11345); (11298, 11346); (11299, 11347);
   (11300, 11348); (11301, 11349); (11302, 11350); (11303, 11351);
   (11304, 11352); (11305, 11353); (11306, 11354); (11307, 11355);
   (11308, 11356); (11309, 11357); (11310, 11358); (11311, 11359);
   (11360, 11361); (11362, 619); (11363, 7549); (11364, 637); (11367, 11368);
   (11369, 11370); (11371, 11372); (11373, 593); (11374, 625); (11375, 592);
   (11376, 594); (11378, 11379); (11381, 11382); (11390, 575); (11391, 576);
   (11392, 11393); (11394, 11395); (11396, 11397); (11398, 11399);
   (11400, 11401); (11402, 11403); (11404, 11405); (11406, 11407);
   (11408, 11409); (11410, 11411); (11412, 11413); (11414, 11415);
   (11416, 11417); (11418, 11419); (11420, 11421); (11422, 11423);
   (11424, 11425); (11426, 11427); (11428, 11429); (11430, 11431);
   (11432, 11433); (11434, 11435); (11436, 11437); (11438, 11439);
   (11440, 11441); (11442, 11443); (11444, 11445); (11446, 11447);
   (11448, 11449); (11450, 11451); (11452, 11453); (11454, 11455);
   (11456, 11457); (11458, 11459); (11460, 11461); (11462, 11463);
   (11464, 11465); (11466, 11467); (11468, 11469); (11470, 11471);
   (11472, 11473); (11474, 11475); (11476, 11477); (11478, 11479);
   (11480, 11481); (11482, 11483); (11484, 11485); (11486, 11487);
   (11488, 11489); (11490, 11491); (11499, 11500); (11501, 11502);
   (11506, 11507); (42560, 42561); (42562, 42563); (42564, 42565);
   (42566, 42567); (42568, 42569); (42570, 42571); (42572, 42573);
   (42574, 42575); (42576, 42577); (42578, 42579); (42580, 42581);
   (42582, 42583); (42584, 42585); (42586, 42587); (42588, 42589);
   (42590, 42591); (42592, 42593); (42594, 42595); (42596, 42597);
   (42598, 42599); (42600, 42601); (42602, 42603); (42604, 42605);
   (42624, 42625); (42626, 42627); (42628, 42629); (42630, 42631);
   (42632, 42633); (42634, 42635); (42636, 42637); (42638, 42639);
   (42640, 42641); (42642, 42643); (42644, 42645); (42646, 42647);
   (42648, 42649); (42650, 42651); (42786, 42787); (42788, 42789);
   (42790, 42791); (42792, 42793); (42794, 42795); (42796, 42797);
   (42798, 42799); (42802, 42803); (42804, 42805); (42806, 42807);
   (42808, 42809); (42810, 42811); (42812, 42813); (42814, 42815);
   (42816, 42817); (42818, 42819); (42820, 42821); (42822, 42823);
   (42824, 42825); (42826, 42827); (42828, 42829); (42830, 42831);
   (42832, 42833); (42834, 42835); (42836, 42837); (42838, 42839);
   (42840, 42841); (42842, 42843); (42844, 42845); (42846, 42847);
   (42848, 42849); (42850, 42851); (42852, 42853); (42854, 42855);
   (42856, 42857); (42858, 42859); (42860, 42861); (42862, 42863);
   (42873, 42874); (42875, 42876); (42877, 7545); (42878, 42879);
   (42880, 42881); (42882, 42883); (42884, 42885); (42886, 42887);
   (42891, 42892); (42893, 613); (42896, 42897); (42898, 42899);
   (42902, 42903); (42904, 42905); (42906, 42907); (42908, 42909);
   (42910, 42911); (42912, 42913); (42914, 42915); (42916, 42917);
   (42918, 42919); (42920, 42921); (42922, 614); (42923, 604); (42924, 609);
   (42925, 620); (42926, 618); (42928, 670); (42929, 647); (42930, 669);
   (42931, 43859); (42932, 42933); (42934, 42935); (42936, 42937);
   (42938, 42939); (42940, 42941); (42942, 42943); (42944, 42945);
   (42946, 42947); (42948, 42900); (42949, 642); (42950, 7566);
   (42951, 42952); (42953, 42954); (42960, 42961); (42966, 42967);
   (42968, 42969); (42997, 42998); (65313, 65345); (65314, 65346);
   (65315, 65347); (65316, 65348); (65317, 65349); (65318, 65350);
   (65319, 65351); (65320, 65352); (65321, 65353); (65322, 65354);
   (65323, 65355); (65324, 65356); (65325, 65357); (65326, 65358);
   (65327, 65359); (65328, 65360); (65329, 65361); (65330, 65362);
   (65331, 65363); (65332, 65364); (65333, 65365); (65334, 65366);
   (65335, 65367); (65336, 65368); (65337, 65369); (65338, 65370);
   (66560, 66600); (66561, 66601); (66562, 66602); (66563, 66603);
   (66564, 66604); (66565, 66605); (66566, 66606); (66567, 66607);
   (66568, 66608); (66569, 66609); (66570, 66610); (66571, 66611);
   (66572, 66612); (66573, 66613); (66574, 66614); (66575, 66615);
   (66576, 66616); (66577, 66617); (66578, 66618); (66579, 66619);
   (66580, 66620); (66581, 66621); (66582, 66622); (66583, 66623);
   (66584, 66624); (66585, 66625); (66586, 66626); (66587, 66627);
   (66588, 66628); (66589, 66629); (66590, 66630); (66591, 66631);
   (66592, 66632); (66593, 66633); (66594, 66634); (66595, 66635);
   (66596, 66636); (66597, 66637); (66598, 66638); (66599, 66639);
   (66736, 66776); (66737, 66777); (66738, 66778); (66739, 66779);
   (66740, 66780); (66741, 66781); (66742, 66782); (66743, 66783);
   (66744, 66784); (66745, 66785); (66746, 66786); (66747, 66787);
   (66748, 66788); (66749, 66789); (66750, 66790); (66751, 66791);
   (66752, 66792); (66753, 66793); (66754, 66794); (66755, 66795);
   (66756, 66796); (66757, 66797); (66758, 66798); (66759, 66799);
   (66760, 66800); (66761, 66801); (66762, 66802); (66763, 66803);
   (66764, 66804); (66765, 66805); (66766, 66806); (66767, 66807);
   (66768, 66808); (66769, 66809); (66770, 66810); (66771, 66811);
   (66928, 66967); (66929, 66968); (66930, 66969); (66931, 66970);
   (66932, 66971); (66933, 66972); (66934, 66973); (66935, 66974);
   (66936, 66975); (66937, 66976); (66938, 66977); (66940, 66979);
   (66941, 66980); (66942, 66981); (66943, 66982); (66944, 66983);
   (66945, 66984); (66946, 66985); (66947, 66986); (66948, 66987);
   (66949, 66988); (66950, 66989); (66951, 66990); (66952, 66991);
   (66953, 66992); (66954, 66993); (66956, 66995); (66957, 66996);
   (66958, 66997); (66959, 66998); (66960, 66999); (66961, 67000);
   (66962, 67001); (66964, 67003); (66965, 67004); (68736, 68800);
   (68737, 68801); (68738, 68802); (68739, 68803); (68740, 68804);
   (68741, 68805); (68742, 68806); (68743, 68807); (68744, 68808);
   (68745, 68809); (68746, 68810); (68747, 68811); (68748, 68812);
   (68749, 68813); (68750, 68814); (68751, 68815); (68752, 68816);
   (68753, 68817); (68754, 68818); (68755, 68819); (68756, 68820);
   (68757, 68821); (68758, 68822); (68759, 68823); (68760, 68824);
   (68761, 68825); (68762, 68826); (68763, 68827); (68764, 68828);
   (68765, 68829); (68766, 68830); (68767, 68831); (68768, 68832);
   (68769, 68833); (68770, 68834); (68771, 68835); (68772, 68836);
   (68773, 68837); (68774, 68838); (68775, 68839); (68776, 68840);
   (68777, 68841); (68778, 68842); (68779, 68843); (68780, 68844);
   (68781, 68845); (68782, 68846); (68783, 68847); (68784, 68848);
   (68785, 68849); (68786, 68850); (71840, 71872); (71841, 71873);
   (71842, 71874); (71843, 71875); (71844, 71876); (71845, 71877);
   (71846, 71878); (71847, 71879); (71848, 71880); (71849, 71881);
   (71850, 71882); (71851, 71883); (71852, 71884); (71853, 71885);
   (71854, 71886); (71855, 71887); (71856, 71888); (71857, 71889);
   (71858, 71890); (71859, 71891); (71860, 71892); (71861, 71893);
   (71862, 71894); (71863, 71895); (71864, 71896); (71865, 71897);
   (71866, 71898); (71867, 71899); (71868, 71900); (71869, 71901);
   (71870, 71902); (71871, 71903); (93760, 93792); (93761, 93793);
   (93762, 93794); (93763, 93795); (93764, 93796); (93765, 93797);
   (93766, 93798); (93767, 93799); (93768, 93800); (93769, 93801);
   (93770, 93802); (93771, 93803); (93772, 93804); (93773, 93805);
   (93774, 93806); (93775, 93807); (93776, 93808); (93777, 93809);
   (93778, 93810); (93779, 93811); (93780, 93812); (93781, 93813);
   (93782, 93814); (93783, 93815); (93784, 93816); (93785, 93817);
   (93786, 93818); (93787, 93819); (93788, 93820); (93789, 93821);
   (93790, 93822); (93791, 93823); (125184, 125218); (125185, 125219);
   (125186, 125220); (125187, 125221); (125188, 125222); (125189, 125223);
   (125190, 125224); (125191, 125225); (125192, 125226); (125193, 125227);
   (125194, 125228); (125195, 125229); (125196, 125230); (125197, 125231);
   (125198, 125232); (125199, 125233); (125200, 125234); (125201, 125235);
   (125202, 125236); (125203, 125237); (125204, 125238); (125205, 125239);
   (125206, 125240); (125207, 125241); (125208, 125242); (125209, 125243);
   (125210, 125244); (125211, 125245); (125212, 125246); (125213, 125247);
   (125214, 125248); (125215, 125249); (125216, 125250); (125217, 125251)
  ].

Definition case_ignorable : list (N * N) :=
  [
   (39, 39); (46, 46); (58, 58); (94, 94); (96, 96); (168, 168); (173, 173);
   (175, 175); (180, 180); (183, 184); (688, 879); (884, 885); (890, 890);
   (900, 901); (903, 903); (1155, 1161); (1369, 1369); (1375, 1375);
   (1425, 1469); (1471, 1471); (1473, 1474); (1476, 1477); (1479, 1479);
   (1524, 1524); (1536, 1541); (1552, 1562); (1564, 1564); (1600, 1600);
   (1611, 1631); (1648, 1648); (1750, 1757); (1759, 1768); (1770, 1773);
   (1807, 1807); (1809, 1809); (1840, 1866); (1958, 1968); (2027, 2037);
   (2042, 2042); (2045, 2045); (2070, 2093); (2137, 2139); (2184, 2184);
   (2192, 2193); (2200, 2207); (2249, 2306); (2362, 2362); (2364, 2364);
   (2369, 2376); (2381, 2381); (2385, 2391); (2402, 2403); (2417, 2417);
   (2433, 2433); (2492, 2492); (2497, 2500); (2509, 2509); (2530, 2531);
   (2558, 2558); (2561, 2562); (2620, 2620); (2625, 2626); (2631, 2632);
   (2635, 2637); (2641, 2641); (2672, 2673); (2677, 2677); (2689, 2690);
   (2748, 2748); (2753, 2757); (2759, 2760); (2765, 2765); (2786, 2787);
   (2810, 2815); (2817, 2817); (2876, 2876); (2879, 2879); (2881, 2884);
   (2893, 2893); (2901, 2902); (2914, 2915); (2946, 2946); (3008, 3008);
   (3021, 3021); (3072, 3072); (3076, 3076); (3132, 3132); (3134, 3136);
   (3142, 3144); (3146, 3149); (3157, 3158); (3170, 3171); (3201, 3201);
   (3260, 3260); (3263, 3263); (3270, 3270); (3276, 3277); (3298, 3299);
   (3328, 3329); (3387, 3388); (3393, 3396); (3405, 3405); (3426, 3427);
   (3457, 3457); (3530, 3530); (3538, 3540); (3542, 3542); (3633, 3633);
   (3636, 3642); (3654, 3662); (3761, 3761); (3764, 3772); (3782, 3782);
   (3784, 3789); (3864, 3865); (3893, 3893); (3895, 3895); (3897, 3897);
   (3953, 3966); (3968, 3972); (3974, 3975); (3981, 3991); (3993, 4028);
   (4038, 4038); (4141, 4144); (4146, 4151); (4153, 4154); (4157, 4158);
   (4184, 4185); (4190, 4192); (4209, 4212); (4226, 4226); (4229, 4230);
   (4237, 4237); (4253, 4253); (4348, 4348); (4957, 4959); (5906, 5908);
   (5938, 5939); (5970, 5971); (6002, 6003); (6068, 6069); (6071, 6077);
   (6086, 6086); (6089, 6099); (6103, 6103); (6109, 6109); (6155, 6159);
   (6211, 6211); (6277, 6278); (6313, 6313); (6432, 6434); (6439, 6440);
   (6450, 6450); (6457, 6459); (6679, 6680); (6683, 6683); (6742, 6742);
   (6744, 6750); (6752, 6752); (6754, 6754); (6757, 6764); (6771, 6780);
   (6783, 6783); (6823, 6823); (6832, 6862); (6912, 6915); (6964, 6964);
   (6966, 6970); (6972, 6972); (6978, 6978); (7019, 7027); (7040, 7041);
   (7074, 7077); (7080, 7081); (7083, 7085); (7142, 7142); (7144, 7145);
   (7149, 7149); (7151, 7153); (7212, 7219); (7222, 7223); (7288, 7293);
   (7376, 7378); (7380, 7392); (7394, 7400); (7405, 7405); (7412, 7412);
   (7416, 7417); (7468, 7530); (7544, 7544); (7579, 7679); (8125, 8125);
   (8127, 8129); (8141, 8143); (8157, 8159); (8173, 8175); (8189, 8190);
   (8203, 8207); (8216, 8217); (8228, 8228); (8231, 8231); (8234, 8238);
   (8288, 8292); (8294, 8303); (8305, 8305); (8319, 8319); (8336, 8348);
   (8400, 8432); (11388, 11389); (11503, 11505); (11631, 11631);
   (11647, 11647); (11744, 11775); (11823, 11823); (12293, 12293);
   (12330, 12333); (12337, 12341); (12347, 12347); (12441, 12446);
   (12540, 12542); (40981, 40981); (42232, 42237); (42508, 42508);
   (42607, 42610); (42612, 42621); (42623, 42623); (42652, 42655);
   (42736, 42737); (42752, 42785); (42864, 42864); (42888, 42890);
   (42994, 42996); (43000, 43001); (43010, 43010); (43014, 43014);
   (43019, 43019); (43045, 43046); (43052, 43052); (43204, 43205);
   (43232, 43249); (43263, 43263); (43302, 43309); (43335, 43345);
   (43392, 43394); (43443, 43443); (43446, 43449); (43452, 43453);
   (43471, 43471); (43493, 43494); (43561, 43566); (43569, 43570);
   (43573, 43574); (43587, 43587); (43596, 43596); (43632, 43632);
   (43644, 43644); (43696, 43696); (43698, 43700); (43703, 43704);
   (43710, 43711); (43713, 43713); (43741, 43741); (43756, 43757);
   (43763, 43764); (43766, 43766); (43867, 43871); (43881, 43883);
   (44005, 44005); (44008, 44008); (44013, 44013); (64286, 64286);
   (64434, 64450); (65024, 65039); (65043, 65043); (65056, 65071);
   (65106, 65106); (65109, 65109); (65279, 65279); (65287, 65287);
   (65294, 65294); (65306, 65306); (65342, 65342); (65344, 65344);
   (65392, 65392); (65438, 65439); (65507, 65507); (65529, 65531);
   (66045, 66045); (66272, 66272); (66422, 66426); (67456, 67461);
   (67463, 67504); (67506, 67514); (68097, 68099); (68101, 68102);
   (68108, 68111); (68152, 68154); (68159, 68159); (68325, 68326);
   (68900, 68903); (69291, 69292); (69446, 69456); (69506, 69509);
   (69633, 69633); (69688, 69702); (69744, 69744); (69747, 69748);
   (69759, 69761); (69811, 69814); (69817, 69818); (69821, 69821);
   (69826, 69826); (69837, 69837); (69888, 69890); (69927, 69931);
   (69933, 69940); (70003, 70003); (70016, 70017); (70070, 70078);
   (70089, 70092); (70095, 70095); (70191, 70193); (70196, 70196);
   (70198, 70199); (70206, 70206); (70367, 70367); (70371, 70378);
   (70400, 70401); (70459, 70460); (70464, 70464); (70502, 70508);
   (70512, 70516); (70712, 70719); (70722, 70724); (70726, 70726);
   (70750, 70750); (70835, 70840); (70842, 70842); (70847, 70848);
   (70850, 70851); (71090, 71093); (71100, 71101); (71103, 71104);
   (71132, 71133); (71219, 71226); (71229, 71229); (71231, 71232);
   (71339, 71339); (71341, 71341); (71344, 71349); (71351, 71351);
   (71453, 71455); (71458, 71461); (71463, 71467); (71727, 71735);
   (71737, 71738); (71995, 71996); (71998, 71998); (72003, 72003);
   (72148, 72151); (72154, 72155); (72160, 72160); (72193, 72202);
   (72243, 72248); (72251, 72254); (72263, 72263); (72273, 72278);
   (72281, 72283); (72330, 72342); (72344, 72345); (72752, 72758);
   (72760, 72765); (72767, 72767); (72850, 72871); (72874, 72880);
   (72882, 72883); (72885, 72886); (73009, 73014); (73018, 73018);
   (73020, 73021); (73023, 73029); (73031, 73031); (73104, 73105);
   (73109, 73109); (73111, 73111); (73459, 73460); (78896, 78904);
   (92912, 92916); (92976, 92982); (92992, 92995); (94031, 94031);
   (94095, 94111); (94176, 94177); (94179, 94180); (110576, 110579);
   (110581, 110587); (110589, 110590); (113821, 113822); (113824, 113827);
   (118528, 118573); (118576, 118598); (119143, 119145); (119155, 119170);
   (119173, 119179); (119210, 119213); (119362, 119364); (121344, 121398);
   (121403, 121452); (121461, 121461); (121476, 121476); (121499, 121503);
   (121505, 121519); (122880, 122886); (122888, 122904); (122907, 122913);
   (122915, 122916); (122918, 122922); (123184, 123197); (123566, 123566);
   (123628, 123631); (125136, 125142); (125252, 125259); (127995, 127999);
   (917505, 917505); (917536, 917631); (917760, 917999)
  ].

Definition cased : list (N * N) :=
  [
   (65, 90); (97, 122); (170, 170); (181, 181); (186, 186); (192, 214);
   (216, 246); (248, 442); (444, 447); (452, 659); (661, 696); (704, 705);
   (736, 740); (837, 837); (880, 883); (886, 887); (890, 893); (895, 895);
   (902, 902); (904, 906); (908, 908); (910, 929); (931, 1013); (1015, 1153);
   (1162, 1327); (1329, 1366); (1376, 1416); (4256, 4293); (4295, 4295);
   (4301, 4301); (4304, 4346); (4349, 4351); (5024, 5109); (5112, 5117);
   (7296, 7304); (7312, 7354); (7357, 7359); (7424, 7615); (7680, 7957);
   (7960, 7965); (7968, 8005); (8008, 8013); (8016, 8023); (8025, 8025);
   (8027, 8027); (8029, 8029); (8031, 8061); (8064, 8116); (8118, 8124);
   (8126, 8126); (8130, 8132); (8134, 8140); (8144, 8147); (8150, 8155);
   (8160, 8172); (8178, 8180); (8182, 8188); (8305, 8305); (8319, 8319);
   (8336, 8348); (8450, 8450); (8455, 8455); (8458, 8467); (8469, 8469);
   (8473, 8477); (8484, 8484); (8486, 8486); (8488, 8488); (8490, 8493);
   (8495, 8500); (8505, 8505); (8508, 8511); (8517, 8521); (8526, 8526);
   (8544, 8575); (8579, 8580); (9398, 9449); (11264, 11492); (11499, 11502);
   (11506, 11507); (11520, 11557); (11559, 11559); (11565, 11565);
   (42560, 42605); (42624, 42653); (42786, 42887); (42891, 42894);
   (42896, 42954); (42960, 42961); (42963, 42963); (42965, 42969);
   (42997, 42998); (43000, 43002); (43824, 43866); (43868, 43880);
   (43888, 43967); (64256, 64262); (64275, 64279); (65313, 65338);
   (65345, 65370); (66560, 66639); (66736, 66771); (66776, 66811);
   (66928, 66938); (66940, 66954); (66956, 66962); (66964, 66965);
   (66967, 66977); (66979, 66993); (66995, 67001); (67003, 67004);
   (67456, 67456); (67459, 67461); (67463, 67504); (67506, 67514);
   (68736, 68786); (68800, 68850); (71840, 71903); (93760, 93823);
   (119808, 119892); (119894, 119964); (119966, 119967); (119970, 119970);
   (119973, 119974); (119977, 119980); (119982, 119993); (119995, 119995);
   (119997, 120003); (120005, 120069); (120071, 120074); (120077, 120084);
   (120086, 120092); (120094, 120121); (120123, 120126); (120128, 120132);
   (120134, 120134); (120138, 120144); (120146, 120485); (120488, 120512);
   (120514, 120538); (120540, 120570); (120572, 120596); (120598, 120628);
   (120630, 120654); (120656, 120686); (120688, 120712); (120714, 120744);
   (120746, 120770); (120772, 120779); (122624, 122633); (122635, 122654);
   (125184, 125251); (127280, 127305); (127312, 127337); (127344, 127369)
  ].

Fixpoint lookup_pair (c : N) (pairs : list (N * N)) : option N :=
  match pairs with
  | [] => None
  | (x, y) :: pairs' => if x =? c then Some y else lookup_pair c pairs'
  end.

Definition in_ranges (c : N) (ranges : list (N * N)) : bool :=
  existsb (λ '(lo, hi), (lo <=? c) && (c <=? hi)) ranges.

(** The lower-case form of one code point, whatever stands around it
    ([_PyUnicode_ToLowerFull]). *)
Definition to_lower_full (c : N) : str :=
  if c <? 128 then
    if (65 <=? c) && (c <=? 90) then Cons (c + 32) Empty else Cons c Empty
  else if c =? 304 then Cons 105 (Cons 775 Empty)
  else
    match lookup_pair c lower_pairs with
    | Some d => Cons d Empty
    | None => Cons c Empty
    end.

Fixpoint first_not_ignorable (l : list N) : option N :=
  match l with
  | [] => None
  | c :: l' =>
      if in_ranges c case_ignorable then first_not_ignorable l' else Some c
  end.

(** Whether a capital sigma is final: a cased code point stands before it,
    case-ignorable code points apart, and none stands after it
    ([handle_capital_sigma]).  [before] lists the code points before the
    sigma, the nearest first. *)
Definition final_sigma (before after : list N) : bool :=
  match first_not_ignorable before with
  | Some c =>
      in_ranges c cased
      && match first_not_ignorable after with
         | Some d => negb (in_ranges d cased)
         | None => true
         end
  | None => false
  end.

(** The lower-case form of the code point [c] between [before] (the nearest
    code point first) and [after]. *)
Definition lower_at (before : list N) (c : N) (after : str) : str :=
  if c =? 931
  then Cons (if final_sigma before (code_points after) then 962 else 963) Empty
  else to_lower_full c.

Fixpoint lower_from (before : list N) (s : str) : str :=
  match s with
  | Empty => Empty
  | Cons c s' => lower_at before c s' +:+ lower_from (c :: before) s'
  end.

(** [s.lower()] *)
Definition lower (s : str) : str := lower_from [] s.

(** [s.startswith(p)] *)
Fixpoint startswith (s p : str) : bool :=
  match p, s with
  | Empty, _ => true
  | Cons _ _, Empty => false
  | Cons a p', Cons b s' => if a =? b then startswith s' p' else false
  end.

(** [k in s] for two strings: [k] occurs in [s] at some position. *)
Fixpoint contains (k s : str) : bool :=
  startswith s k ||
  match s with
  | Empty => false
  | Cons _ s' => contains k s'
  end.

(** [len(s)]: the number of code points, as a Python integer. *)
Fixpoint len (s : str) : Z :=
  match s with
  | Empty => 0%Z
  | Cons _ s' => (1 + len s')%Z
  end.

(** *** Occurrence whatever the case, in the words of the specification

    Stated without the ways of the code, [lower] and [contains]: two code
    points are the same letter up to case when they are equal or are a
    capital letter A to Z and its small letter; [k] occurs in [s] ignoring
    case when some contiguous piece of [s] agrees with [k] code point by
    code point up to case. *)
Definition same_letter (c d : N) : Prop :=
  c = d
  ∨ (65 ≤ c ∧ c ≤ 90 ∧ d = c + 32)
  ∨ (65 ≤ d ∧ d ≤ 90 ∧ c = d + 32).

Inductive same_ignoring_case : str → str → Prop :=
  | same_Empty : same_ignoring_case Empty Empty
  | same_Cons (c d : N) (s t : str) :
      same_letter c d → same_ignoring_case s t →
      same_ignoring_case (Cons c s) (Cons d t).

Definition ci_occurs (k s : str) : Prop :=
  ∃ pre mid post : str,
    s = pre +:+ mid +:+ post ∧ same_ignoring_case mid k.

(** A word in small ASCII letters and other ASCII characters, as the
    keywords of the two tables are. *)
Definition ascii_lower_word (k : str) : Prop :=
  Forall (λ c, c < 128 ∧ ¬ (65 ≤ c ∧ c ≤ 90)) (code_points k).

(** Text without U+0130 (capital I with dot above) and U+212A (the Kelvin
    sign), the two code points outside ASCII whose lower-case form holds an
    ASCII letter: [str.lower] turns them into "i" with a combining dot and
    into "k". *)
Definition plain_case (s : str) : Prop :=
  (304 ∉ code_points s) ∧ (8490 ∉ code_points s).

(** *** Notions for the proofs about [lower] *)

(** The lower-case form of an ASCII code point. *)
Definition small (c : N) : N :=
  if (65 <=? c) && (c <=? 90) then c + 32 else c.

(** A code point and its lower-case form in text without U+0130 and
    U+212A: ASCII goes to ASCII by [small], the rest stays outside ASCII. *)
Definition plainly (c d : N) : Prop :=
  (c < 128 ∧ d = small c) ∨ (128 ≤ c ∧ 128 ≤ d).

(** [t] is [s] lower-cased code point by code point, each one [plainly]. *)
Inductive lowered_plainly : str → str → Prop :=
  | lowered_Empty : lowered_plainly Empty Empty
  | lowered_Cons (c d : N) (s t : str) :
      plainly c d → lowered_plainly s t →
      lowered_plainly (Cons c s) (Cons d t).

(** Every code point of a lower-cased string is its own lower-case form
    and is no capital sigma. *)
Definition settled (d : N) : Prop :=
  d ≠ 931 ∧ to_lower_full d = Cons d Empty.

End PyStr.

(** ** Records *)

(** The dictionary every extractor builds for one article.  [extract.py]
    has no ['scraped_at'] key; there the field is the empty str. *)
Record article := Article {
  source : str;
  title : str;
  url : str;
  summary : str;
  date : str;
  category : str;
  scraped_at : str
}.

#[global] Instance article_eq_dec : EqDecision article.
Proof. solve_decision. Defined.

(** ** Deduplication by URL

    [scrape_all_sources], both files:
<<
        seen_urls = set()
        unique_articles = []
        for article in all_articles:
            if article['url'] not in seen_urls:
                seen_urls.add(article['url'])
                unique_articles.append(article)
>> *)

(** One iteration of the loop on the pair [(seen_urls, unique_articles)]. *)
Definition dedup_step (st : gset str * list article) (a : article)
  : gset str * list article :=
  if decide (url a ∉ st.1) then ({[ url a ]} ∪ st.1, st.2 ++ [a]) else st.

Definition remove_duplicates (all_articles : list article) : list article :=
  (foldl dedup_step (∅, []) all_articles).2.

(** The same loop, read as a recursion on the remaining input; used only to
    reason about [remove_duplicates]. *)
Fixpoint dedup_from (seen : gset str) (l : list article) : list article :=
  match l with
  | [] => []
  | a :: l' =>
      if decide (url a ∉ seen) then a :: dedup_from ({[ url a ]} ∪ seen) l'
      else dedup_from seen l'
  end.

(** ** The relevance filter

    [filter_articles], both files; they differ in the keyword table and in
    the prefix a URL must start with:
<<
        filtered = []
        for article in articles:
            title_lower = article['title'].lower()
            summary_lower = article['summary'].lower()
            is_relevant = any(keyword in title_lower or keyword in summary_lower
                            for keyword in RELEVANT_KEYWORDS)
            has_minimum_length = len(article['title']) >= 10
            has_valid_url = article['url'].startswith('https://www.ft.com/')
            if is_relevant and has_minimum_length and has_valid_url:
                filtered.append(article)
>> *)

Section RelevanceFilter.

Variable keywords : list str.
Variable required_prefix : str.

Definition is_relevant (a : article) : bool :=
  let title_lower := PyStr.lower (title a) in
  let summary_lower := PyStr.lower (summary a) in
  existsb (λ keyword,
             PyStr.contains keyword title_lower
             || PyStr.contains keyword summary_lower) keywords.

Definition has_minimum_length (a : article) : bool :=
  10 <=? PyStr.len (title a).

Definition has_valid_url (a : article) : bool :=
  PyStr.startswith (url a) required_prefix.

(** [is_relevant and has_minimum_length and has_valid_url] *)
Definition retained (a : article) : bool :=
  is_relevant a && has_minimum_length a && has_valid_url a.

Definition filter_step (filtered : list article) (a : article) : list article :=
  if retained a then filtered ++ [a] else filtered.

Definition filter_articles_with (articles : list article) : list article :=
  foldl filter_step [] articles.

(** The three conditions of the filter, in the words of the
    specification rather than of the code: a keyword occurs in the title
    or in the summary whatever the case of the letters, the title has at
    least 10 characters, the URL starts with one of the required
    prefixes. *)
Definition matches_a_keyword (a : article) : Prop :=
  ∃ k, k ∈ keywords
       ∧ (PyStr.ci_occurs k (title a) ∨ PyStr.ci_occurs k (summary a)).

Definition title_long_enough (a : article) : Prop :=
  (10 ≤ length (code_points (title a)))%nat.

Definition url_has_required_prefix (required : list str) (a : article)
  : Prop :=
  ∃ p, p ∈ required ∧ ∃ rest, url a = p +:+ rest.

End RelevanceFilter.

(** ** Python slices and the bounding stage *)

(** [l[:m]]: the first [m] elements, and for a negative [m] all but the
    last [-m]. *)
Definition slice_to {A} (l : list A) (m : Z) : list A :=
  if 0 <=? m then take (Z.to_nat m) l
  else take (Z.to_nat (Z.of_nat (length l) + m)) l.

(** ** Effects: exceptions, the log, sleeps and the network *)

(** The exceptions a fetch or an extraction raises.  All of them derive from
    [Exception]; the first three derive from
    [requests.exceptions.RequestException]. *)
Inductive exn :=
  | ConnectionError | Timeout | HTTPError
  | ParserRejectedMarkup | RecursionError | KeyError | ValueError
  | WebDriverException.

Definition is_RequestException (e : exn) : bool :=
  match e with
  | ConnectionError | Timeout | HTTPError => true
  | _ => false
  end.

Inductive level := INFO | WARNING | ERROR.

(** The log messages of the two scrapers, with the values they format. *)
Inductive message :=
  | SeleniumError (u : str) (e : exn)
  | AttemptFailed (attempt : Z) (u : str) (e : exn)
  | AllAttemptsFailed (u : str)
  | UnexpectedError (u : str) (e : exn)
  | ErrorFetching (u : str) (e : exn)
  | Scraping (name u : str)
  | FoundFromMain (n : Z)
  | FoundFrom (n : Z) (name : str)
  | FoundFromRss (n : Z)
  | ErrorScraping (name : str) (e : exn)
  | ErrorProcessing (name : str) (e : exn)
  | TotalUnique (n : Z)
  | FilteredDown (n m : Z)
  | OnlyFound (n min_articles : Z)
  | LimitedTo (max_articles : Z).

Inductive event :=
  | Log (lv : level) (msg : message)
  | Sleep (lo hi : Z)            (* time.sleep(random.uniform(lo, hi)) *)
  | SeleniumGet (u : str)     (* self.get_page_with_selenium(u) *)
  | SessionGet (u : str).     (* self.session.get(u, timeout=...) *)

Inductive outcome (A : Type) :=
  | Returned (a : A)
  | Raised (e : exn).
Arguments Returned {A} a.
Arguments Raised {A} e.

(** A computation: the events it performed, in order, and how it ended. *)
Definition M (A : Type) : Type := list event * outcome A.

Definition ret {A} (a : A) : M A := ([], Returned a).
Definition raise {A} (e : exn) : M A := ([], Raised e).
Definition emit (ev : event) : M unit := ([ev], Returned tt).
Definition lift {A} (o : outcome A) : M A := ([], o).

Definition bind {A B} (m : M A) (k : A → M B) : M B :=
  match m.2 with
  | Returned a => (m.1 ++ (k a).1, (k a).2)
  | Raised e => (m.1, Raised e)
  end.

(** [try: m  except Exception as e: h e]; a handler that wants to let an
    exception through raises it again. *)
Definition catch {A} (m : M A) (h : exn → M A) : M A :=
  match m.2 with
  | Returned a => m
  | Raised e => ((m.1 ++ (h e).1), (h e).2)
  end.

#[global] Instance M_ret : MRet M := @ret.
#[global] Instance M_bind : MBind M := λ A B k m, bind m k.

Definition log (lv : level) (msg : message) : M unit := emit (Log lv msg).

(** [len(l)] of a list as a Python integer. *)
Definition llen {A} (l : list A) : Z := Z.of_nat (length l).

(** Python truthiness of an optional str: [None] and [''] are false. *)
Definition truthy (o : option str) : bool :=
  match o with
  | Some (Cons _ _) => true
  | _ => false
  end.

Definition warnings (tr : list event) : list message :=
  omap (λ ev, match ev with Log WARNING msg => Some msg | _ => None end) tr.

Definition is_SessionGet (ev : event) : bool :=
  match ev with SessionGet _ => true | _ => false end.

(** The number of [session.get] calls in a trace. *)
Definition session_gets (tr : list event) : nat :=
  length (filter (λ ev, is_SessionGet ev = true) tr).

(** ** The world outside the core

    What the collaborators answer: the browser layer, the HTTP session and
    the HTML parser.  The answers are indexed by the URL and by the number of
    the attempt, so that a retry can see a different answer. *)
Record env := Env {
  (** [self.driver] is not [None]: [setup_selenium] succeeded *)
  driver : bool;
  (** [self.driver.get(url)] and the wait for the body (in [ft_scraper.py]
      also the scroll to the bottom): returns, or raises *)
  driver_get : str → nat → outcome unit;
  (** [self.driver.page_source] *)
  driver_page_source : str → nat → outcome str;
  (** [update_session_headers()], [session.get(url, timeout=...)],
      [raise_for_status()], [.text]: the text of the response, or the
      exception one of them raised *)
  response : str → nat → outcome str;
  (** [BeautifulSoup(content, 'html.parser')] and [soup.select] over the
      selector table, with the fields read from each element: the link made
      absolute, the title, the summary, the date.  Raises what the parser
      raises. *)
  select_elements : str → outcome (list (str * str * str * str));
  (** [datetime.now().isoformat()] *)
  now : str
}.

(** What [get_page_with_selenium(url)] returns, in both files: the page
    source, or [None] when there is no driver or the browser failed. *)
Definition page_source (E : env) (u : str) (attempt : nat) : option str :=
  if driver E then
    match driver_get E u attempt with
    | Returned _ =>
        match driver_page_source E u attempt with
        | Returned page => Some page
        | Raised _ => None
        end
    | Raised _ => None
    end
  else None.

(** A source descriptor of [config.py]; ['url'] may be missing. *)
Record source_config := SourceConfig {
  sc_url : option str;
  sc_name : str;
  sc_category : str
}.

#[global] Instance source_config_eq_dec : EqDecision source_config.
Proof. solve_decision. Defined.

(** [range(n)] *)
Definition range (n : Z) : list nat := seq 0 (Z.to_nat n).

(** ** ft_scraper.py *)

Module FtScraper.

(** [config.RELEVANT_KEYWORDS] *)
Definition RELEVANT_KEYWORDS : list str :=
 [
  "technology"; "tech"; "ai"; "artificial intelligence";
  "machine learning"; "deep learning"; "neural network"; "algorithm";
  "automation"; "digital"; "software"; "hardware"; "semiconductor";
  "chip"; "processor"; "cloud"; "cloud computing"; "saas"; "platform";
  "api"; "cybersecurity"; "security"; "privacy"; "data protection";
  "blockchain"; "cryptocurrency"; "bitcoin"; "ethereum"; "defi";
  "fintech"; "financial technology"; "digital banking"; "mobile payment";
  "startup"; "venture capital"; "vc"; "investment"; "funding"; "ipo";
  "merger"; "acquisition"; "m&a"; "deal"; "partnership"; "market";
  "trading"; "stock"; "equity"; "bond"; "derivative"; "risk";
  "compliance"; "regulation"; "regulatory"; "compliance"; "banking";
  "finance"; "financial"; "bank"; "lending"; "credit";
  "quantum computing"; "quantum"; "crypto"; "web3"; "metaverse"; "vr";
  "virtual reality"; "ar"; "augmented reality"; "iot";
  "internet of things"; "5g"; "6g"; "telecom"; "telecommunications";
  "biotech"; "biotechnology"; "healthtech"; "medtech"; "clean energy";
  "renewable"; "solar"; "wind"; "battery"; "electric vehicle"; "ev";
  "autonomous"; "self-driving"; "revenue"; "profit"; "earnings";
  "quarterly"; "annual"; "growth"; "expansion"; "global";
  "international"; "emerging market"; "innovation"; "research";
  "development"; "r&d"; "patent"; "competition"; "competitive";
  "market share"; "customer"; "user"; "consumer"; "enterprise"; "b2b";
  "b2c"
 ].

(** [SCRAPING_CONFIG['rate_limit_min']], [['rate_limit_max']] *)
Definition rate_limit_min : Z := 2.
Definition rate_limit_max : Z := 5.

(** [get_page_with_selenium]:
<<
        if not self.driver:
            return None
        try:
            self.driver.get(url)
            WebDriverWait(self.driver, wait_time).until(...)
            self.driver.execute_script("window.scrollTo(...);")
            time.sleep(2)
            return self.driver.page_source
        except Exception as e:
            logger.error(f"Selenium error for {url}: {e}")
            return None
>>
    [SeleniumGet] marks the call; the sleep of two seconds is [Sleep 2 2]. *)
Definition get_page_with_selenium (E : env) (u : str) (attempt : nat)
  : M (option str) :=
  emit (SeleniumGet u) ;;
  if negb (driver E) then mret None
  else
    catch
      (lift (driver_get E u attempt) ;;
       emit (Sleep 2 2) ;;
       page ← lift (driver_page_source E u attempt) ;
       mret (Some page))
      (λ e, log ERROR (SeleniumError u e) ;; mret None).

(** The body of the [try] of [get_page_content]: one attempt. *)
Definition attempt_body (E : env) (u : str) (use_selenium : bool)
    (attempt : nat) : M (option str) :=
  content ← (if use_selenium
             then get_page_with_selenium E u attempt
             else mret None) ;
  if use_selenium && truthy content then mret content
  else
    emit (SessionGet u) ;;
    text ← lift (response E u attempt) ;
    mret (Some text).

(** [get_page_content]: the [for attempt in range(max_retries)] loop.
<<
          except requests.exceptions.RequestException as e:
              logger.warning(...)
              if attempt < max_retries - 1:
                  time.sleep(random.uniform(1, 3))
                  continue
              else:
                  logger.error(...)
                  return None
          except Exception as e:
              logger.error(...)
              return None
      return None
>> *)
Fixpoint get_page_loop (E : env) (u : str) (use_selenium : bool)
    (max_retries : Z) (attempts : list nat) : M (option str) :=
  match attempts with
  | [] => mret None
  | attempt :: rest =>
      catch (attempt_body E u use_selenium attempt)
        (λ e,
           if is_RequestException e then
             log WARNING (AttemptFailed (Z.of_nat attempt + 1) u e) ;;
             if Z.of_nat attempt <? max_retries - 1 then
               emit (Sleep 1 3) ;;
               get_page_loop E u use_selenium max_retries rest
             else
               log ERROR (AllAttemptsFailed u) ;;
               mret None
           else
             log ERROR (UnexpectedError u e) ;;
             mret None)
  end.

Definition get_page_content (E : env) (u : str) (use_selenium : bool)
    (max_retries : Z) : M (option str) :=
  get_page_loop E u use_selenium max_retries (range max_retries).

(** The attempt of number [k] fails with a [RequestException]. *)
Definition raises_RequestException (E : env) (u : str)
    (use_selenium : bool) (k : nat) : Prop :=
  ∃ e, (attempt_body E u use_selenium k).2 = Raised e
       ∧ is_RequestException e = true.

(** [extract_ft_articles]: fetch, parse, keep the FT links with a title of
    at least 10 characters. *)
Definition extract_ft_articles (E : env) (u source_name cat : str)
  : M (list article) :=
  log INFO (Scraping source_name u) ;;
  content ← get_page_content E u true 3 ;
  if negb (truthy content) then mret []
  else
    elements ← lift (select_elements E (default "" content)) ;
    mret (omap (λ '(link, ttl, summ, dt),
                  if PyStr.startswith link "https://www.ft.com/"
                     && negb (PyStr.len ttl <? 10)
                  then Some (Article source_name ttl link summ dt cat (now E))
                  else None) elements).

(** [source_config['url']] for a key that must be there. *)
Definition getitem_url (sc : source_config) : M str :=
  match sc_url sc with
  | Some u => mret u
  | None => raise KeyError
  end.

(** [scrape_source_parallel]: one task of the pool. *)
Definition scrape_source_parallel (E : env) (sc : source_config)
  : M (list article) :=
  catch
    (articles ← (match sc_url sc with
                 | Some u => extract_ft_articles E u (sc_name sc) (sc_category sc)
                 | None => mret []
                 end) ;
     log INFO (FoundFrom (llen articles) (sc_name sc)) ;;
     mret articles)
    (λ e, log ERROR (ErrorScraping (sc_name sc) e) ;; mret []).

(** The [for future in as_completed(...)] loop.  [completed] lists the
    sources in the order in which their tasks complete; the events of a
    task are placed where its result is collected. *)
Fixpoint collect_completed (E : env) (completed : list source_config)
    (all_articles : list article) : M (list article) :=
  match completed with
  | [] => mret all_articles
  | sc :: rest =>
      all' ← catch
               (articles ← scrape_source_parallel E sc ;
                emit (Sleep rate_limit_min rate_limit_max) ;;
                mret (all_articles ++ articles))
               (λ e, log ERROR (ErrorProcessing (sc_name sc) e) ;;
                     mret all_articles) ;
      collect_completed E rest all'
  end.

(** Everything [scrape_all_sources] gathers before it deduplicates:
    the main source first ([scrape_main], called outside any [try]), then
    the pool in completion order. *)
Definition scrape_main (E : env) (main_source : option source_config)
  : M (list article) :=
  match main_source with
  | Some ms =>
      u ← getitem_url ms ;
      articles ← extract_ft_articles E u (sc_name ms) (sc_category ms) ;
      log INFO (FoundFromMain (llen articles)) ;;
      mret articles
  | None => mret []
  end.

Definition gather (E : env) (main_source : option source_config)
    (sources_to_scrape completed : list source_config) : M (list article) :=
  all_articles ← scrape_main E main_source ;
  match sources_to_scrape with
  | [] => mret all_articles
  | _ :: _ => collect_completed E completed all_articles
  end.

(** What the task of a source hands to [future.result()]. *)
Definition task_result (E : env) (sc : source_config) : list article :=
  match (scrape_source_parallel E sc).2 with
  | Returned articles => articles
  | Raised _ => []
  end.

Definition filter_articles (articles : list article) : M (list article) :=
  let filtered :=
    filter_articles_with RELEVANT_KEYWORDS "https://www.ft.com/" articles in
  log INFO (FilteredDown (llen articles) (llen filtered)) ;;
  mret filtered.

(** The end of [scrape_all_sources]: the minimum check, then the cut. *)
Definition bound_articles (min_articles max_articles : Z)
    (filtered_articles : list article) : M (list article) :=
  (if llen filtered_articles <? min_articles
   then log WARNING (OnlyFound (llen filtered_articles) min_articles)
   else mret tt) ;;
  if llen filtered_articles >? max_articles
  then log INFO (LimitedTo max_articles) ;;
       mret (slice_to filtered_articles max_articles)
  else mret filtered_articles.

(** The deduplicated list, as [unique_articles] holds it. *)
Definition unique_articles (E : env) (main_source : option source_config)
    (sources_to_scrape completed : list source_config) : M (list article) :=
  all_articles ← gather E main_source sources_to_scrape completed ;
  mret (remove_duplicates all_articles).

Definition scrape_all_sources (E : env) (min_articles max_articles : Z)
    (main_source : option source_config)
    (sources_to_scrape completed : list source_config) : M (list article) :=
  unique ← unique_articles E main_source sources_to_scrape completed ;
  log INFO (TotalUnique (llen unique)) ;;
  filtered_articles ← filter_articles unique ;
  bound_articles min_articles max_articles filtered_articles.

End FtScraper.

(** ** extract.py *)

Module Extract.

(** The [relevant_keywords] of [filter_articles]. *)
Definition relevant_keywords : list str :=
 [
  "technology"; "tech"; "ai"; "artificial intelligence";
  "machine learning"; "fintech"; "financial technology"; "blockchain";
  "cryptocurrency"; "cybersecurity"; "digital"; "software"; "hardware";
  "semiconductor"; "cloud"; "data"; "analytics"; "automation";
  "innovation"; "startup"; "venture capital"; "investment"; "market";
  "trading"; "risk"; "compliance"; "regulation"; "banking"; "finance"
 ].

(** [get_page_with_selenium]: as in [ft_scraper.py], without the scroll
    and the sleep. *)
Definition get_page_with_selenium (E : env) (u : str) (attempt : nat)
  : M (option str) :=
  emit (SeleniumGet u) ;;
  if negb (driver E) then mret None
  else
    catch
      (lift (driver_get E u attempt) ;;
       page ← lift (driver_page_source E u attempt) ;
       mret (Some page))
      (λ e, log ERROR (SeleniumError u e) ;; mret None).

(** The body of the [try] of [get_page_content]. *)
Definition attempt_body (E : env) (u : str) (use_selenium : bool)
  : M (option str) :=
  content ← (if use_selenium
             then get_page_with_selenium E u 0
             else mret None) ;
  if use_selenium && truthy content then mret content
  else
    emit (SessionGet u) ;;
    text ← lift (response E u 0) ;
    mret (Some text).

(** [get_page_content]: one attempt, every [Exception] becomes [None]. *)
Definition get_page_content (E : env) (u : str) (use_selenium : bool)
  : M (option str) :=
  catch (attempt_body E u use_selenium)
    (λ e, log ERROR (ErrorFetching u e) ;; mret None).

Definition filter_articles (articles : list article) : list article :=
  filter_articles_with relevant_keywords "http" articles.

(** The [for url, extractor_func in sources] loop; an extractor is given
    by what its call does. *)
Fixpoint scrape_main_sources (sources : list (str * M (list article)))
    (all_articles : list article) : M (list article) :=
  match sources with
  | [] => mret all_articles
  | (u, extractor_call) :: rest =>
      all' ← catch
               (articles ← extractor_call ;
                log INFO (FoundFrom (llen articles) u) ;;
                emit (Sleep 2 5) ;;
                mret (all_articles ++ articles))
               (λ e, log ERROR (ErrorScraping u e) ;; mret all_articles) ;
      scrape_main_sources rest all'
  end.

Definition bound_articles (min_articles max_articles : Z)
    (filtered_articles : list article) : M (list article) :=
  (if llen filtered_articles <? min_articles
   then log WARNING (OnlyFound (llen filtered_articles) min_articles)
   else mret tt) ;;
  if llen filtered_articles >? max_articles
  then log INFO (LimitedTo max_articles) ;;
       mret (slice_to filtered_articles max_articles)
  else mret filtered_articles.

(** [scrape_all_sources]; [rss_articles] is what [scrape_rss_feeds]
    returns (it catches the errors of each feed itself). *)
Definition scrape_all_sources (min_articles max_articles : Z)
    (sources : list (str * M (list article)))
    (rss_articles : list article) : M (list article) :=
  all_articles ← scrape_main_sources sources [] ;
  let all_articles := all_articles ++ rss_articles in
  log INFO (FoundFromRss (llen rss_articles)) ;;
  let unique_articles := remove_duplicates all_articles in
  let filtered_articles := filter_articles unique_articles in
  bound_articles min_articles max_articles filtered_articles.

End Extract.

(** ** Sample data for the examples *)

Module Sample.

Definition r1 : article :=
  Article "Financial Times AI" "AI models reshape banking"
    "https://www.ft.com/content/a" "" "" "Artificial Intelligence" "".
Definition r2 : article :=
  Article "Financial Times AI" "Chip makers race for capacity"
    "https://www.ft.com/content/b" "" "" "Artificial Intelligence" "".
Definition r3 : article :=
  Article "Financial Times AI" "Cloud spending keeps growing"
    "https://www.ft.com/content/c" "" "" "Artificial Intelligence" "".
Definition r4 : article :=
  Article "Financial Times AI" "Banks test quantum security"
    "https://www.ft.com/content/d" "" "" "Artificial Intelligence" "".
Definition r5 : article :=
  Article "Financial Times AI" "Venture capital returns to fintech"
    "https://www.ft.com/content/e" "" "" "Artificial Intelligence" "".

(** A title with a typographic apostrophe, U+2019: one character, three
    bytes in UTF-8. *)
Definition ai_rise : article :=
  Article "Financial Times AI" "AI’s rise reshapes banking"
    "https://www.ft.com/content/f" "" "" "Artificial Intelligence" "".

(** The same in short: nine characters, eleven bytes. *)
Definition ai_rise_short : article :=
  Article "Financial Times AI" "AI’s rise"
    "https://www.ft.com/content/g" "" "" "Artificial Intelligence" "".

(** A title whose only keyword is spelt with the Kelvin sign, U+212A. *)
Definition kelvin : article :=
  Article "Financial Times AI" "The BanKing sector grows"
    "https://www.ft.com/content/k" "" "" "Artificial Intelligence" "".

(** The same URL as [r1], seen by another source under another title. *)
Definition r1' : article :=
  Article "Financial Times Tech Sector" "Lenders turn to AI models"
    "https://www.ft.com/content/a" "" "" "Tech Sector" "".

Definition ft_technology : source_config :=
  SourceConfig (Some "https://www.ft.com/technology")
    "Financial Times Technology" "Technology".
Definition ft_ai : source_config :=
  SourceConfig (Some "https://www.ft.com/artificial-intelligence")
    "Financial Times AI" "Artificial Intelligence".
Definition ft_tech_sector : source_config :=
  SourceConfig (Some "https://www.ft.com/tech-sector")
    "Financial Times Tech Sector" "Tech Sector".

(** A world in which a request answers with a page that is named after
    its URL, and the AI page and the tech-sector page both link to the
    same article, under two titles. *)
Definition two_views : env :=
  Env false (λ _ _, Returned tt) (λ _ _, Returned "") (λ u _, Returned u)
      (λ content,
         if bool_decide (content = "https://www.ft.com/artificial-intelligence")
         then Returned [("https://www.ft.com/content/a",
                         "AI models reshape banking", "", "")]
         else if bool_decide (content = "https://www.ft.com/tech-sector")
         then Returned [("https://www.ft.com/content/a",
                         "Lenders turn to AI models", "", "")]
         else Returned [])
      "".

(** A world in which every page is fetched and the parser rejects the
    markup of every page. *)
Definition rejected_markup : env :=
  Env false (λ _ _, Returned tt) (λ _ _, Returned "") (λ u _, Returned "<![x[")
      (λ _, Raised ParserRejectedMarkup) "".

(** A world in which the browser gives nothing and every request ends in
    a connection error. *)
Definition unreachable : env :=
  Env false (λ _ _, Returned tt) (λ _ _, Returned "") (λ _ _, Raised ConnectionError) (λ _, Returned []) "".

(** A world in which the first request times out and the second one
    fails with an error that is no [RequestException]. *)
Definition broken_after_timeout : env :=
  Env false (λ _ _, Returned tt) (λ _ _, Returned "")
      (λ _ k, match k with O => Raised Timeout | _ => Raised ValueError end)
      (λ _, Returned []) "".

End Sample.

(** ** Observations on a trace *)

Definition is_Sleep (ev : event) : bool :=
  match ev with Sleep _ _ => true | _ => false end.

(** The number of [time.sleep] calls in a trace. *)
Definition sleeps (tr : list event) : nat :=
  length (filter (λ ev, is_Sleep ev = true) tr).

Definition is_SeleniumGet (ev : event) : bool :=
  match ev with SeleniumGet _ => true | _ => false end.

(** The number of [get_page_with_selenium] calls in a trace. *)
Definition selenium_gets (tr : list event) : nat :=
  length (filter (λ ev, is_SeleniumGet ev = true) tr).

(** The number of back-off sleeps, [time.sleep(random.uniform(1, 3))]. *)
Definition is_backoff (ev : event) : bool :=
  match ev with Sleep lo hi => (lo =? 1) && (hi =? 3) | _ => false end.

Definition backoffs (tr : list event) : nat :=
  length (filter (λ ev, is_backoff ev = true) tr).

Definition is_SeleniumError (msg : message) : bool :=
  match msg with SeleniumError _ _ => true | _ => false end.

(** The messages logged at level ERROR. *)
Definition errors (tr : list event) : list message :=
  omap (λ ev, match ev with Log ERROR msg => Some msg | _ => None end) tr.

(** The errors logged by the fetch itself, those of the browser apart. *)
Definition fetch_errors (tr : list event) : list message :=
  filter (λ msg, is_SeleniumError msg = false) (errors tr).

(** What the bounding stage returns, as a function of its input:
    [filtered_articles[:max_articles]] when there are more than
    [max_articles] records, the input otherwise. *)
Definition limited (max_articles : Z) (filtered_articles : list article)
  : list article :=
  if llen filtered_articles >? max_articles
  then slice_to filtered_articles max_articles
  else filtered_articles.

(** What the call of an extractor adds to [all_articles] in the loop of
    [extract.py]: its articles, or nothing when it raised. *)
Definition extractor_result (call : M (list article)) : list article :=
  match call.2 with
  | Returned articles => articles
  | Raised _ => []
  end.

(** ** extract.py: the RSS feeds *)

Module Rss.

(** An entry of a parsed feed.  [entry.title] and [entry.link] are read
    without a guard, so each is its value or the exception the read raises;
    [summary] and [published] are read under [hasattr]. *)
Record rss_entry := RssEntry {
  entry_title : outcome str;
  entry_link : outcome str;
  entry_summary : option str;
  entry_published : option str
}.

Definition rss_feeds : list str :=
  ["https://www.ft.com/rss/home"; "https://www.ft.com/rss/technology";
   "https://www.ft.com/rss/companies"; "https://www.ft.com/rss/markets"].

(** The dictionary built from an entry; the fields are read in the order
    of the dictionary display, title first. *)
Definition entry_article (en : rss_entry) : outcome article :=
  match entry_title en with
  | Raised e => Raised e
  | Returned ttl =>
      match entry_link en with
      | Raised e => Raised e
      | Returned link =>
          Returned (Article "Financial Times (RSS)" ttl link
                      (default "" (entry_summary en))
                      (default "" (entry_published en)) "Technology" "")
      end
  end.

(** [for entry in feed.entries: articles.append({...})].  The list
    [articles] is shared with the rest of [scrape_rss_feeds], so what was
    appended before an entry raised stays appended: the loop yields the list
    as it stands and the exception that ended it, if any. *)
Fixpoint append_entries (entries : list rss_entry) (articles : list article)
  : list article * option exn :=
  match entries with
  | [] => (articles, None)
  | en :: rest =>
      match entry_article en with
      | Raised e => (articles, Some e)
      | Returned a => append_entries rest (articles ++ [a])
      end
  end.

(** [scrape_rss_feeds]: the loop over the feeds, each turn in a [try] whose
    handler logs and goes on.  [parse] is [feedparser.parse]. *)
Fixpoint scrape_feeds (parse : str → outcome (list rss_entry))
    (feeds : list str) (articles : list article) : M (list article) :=
  match feeds with
  | [] => mret articles
  | feed_url :: rest =>
      log INFO (Scraping "RSS feed" feed_url) ;;
      match parse feed_url with
      | Raised e =>
          log ERROR (ErrorScraping ("RSS feed " +:+ feed_url) e) ;;
          scrape_feeds parse rest articles
      | Returned entries =>
          match append_entries entries articles with
          | (articles', Some e) =>
              log ERROR (ErrorScraping ("RSS feed " +:+ feed_url) e) ;;
              scrape_feeds parse rest articles'
          | (articles', None) => scrape_feeds parse rest articles'
          end
      end
  end.

Definition scrape_rss_feeds (parse : str → outcome (list rss_entry))
  : M (list article) :=
  scrape_feeds parse rss_feeds [].

(** The articles of the entries that come before the first entry that
    cannot be read. *)
Fixpoint entries_until_error (entries : list rss_entry) : list article :=
  match entries with
  | [] => []
  | en :: rest =>
      match entry_article en with
      | Raised _ => []
      | Returned a => a :: entries_until_error rest
      end
  end.

(** The turn of a feed ends in its handler: the feed cannot be parsed, or
    one of its entries cannot be read. *)
Definition feed_failed (parse : str → outcome (list rss_entry))
    (feed_url : str) : bool :=
  match parse feed_url with
  | Raised _ => true
  | Returned entries =>
      existsb (λ en, match entry_article en with
                     | Raised _ => true
                     | Returned _ => false
                     end) entries
  end.

(** What one feed contributes. *)
Definition feed_articles (parse : str → outcome (list rss_entry))
    (feed_url : str) : list article :=
  match parse feed_url with
  | Raised _ => []
  | Returned entries => entries_until_error entries
  end.

End Rss.

(** ** print_summary: the counts by source and by category *)

Module Summary.

(** [d[k] = d.get(k, 0) + 1] on a dictionary, which keeps its keys in the
    order of their insertion. *)
Fixpoint incr (d : list (str * Z)) (k : str) : list (str * Z) :=
  match d with
  | [] => [(k, 0 + 1)]
  | (k', v) :: d' =>
      if decide (k' = k) then (k', v + 1) :: d' else (k', v) :: incr d' k
  end.

(** [d.get(k, 0)] *)
Fixpoint get (d : list (str * Z)) (k : str) : Z :=
  match d with
  | [] => 0
  | (k', v) :: d' => if decide (k' = k) then v else get d' k
  end.

(** The loop of [print_summary] on one of its two dictionaries. *)
Definition counts (key : article → str) (articles : list article)
  : list (str * Z) :=
  foldl (λ d a, incr d (key a)) [] articles.

Definition source_counts : list article → list (str * Z) := counts source.
Definition category_counts : list article → list (str * Z) :=
  counts category.

(** [sum(d.values())] *)
Definition total (d : list (str * Z)) : Z := foldr Z.add 0 (d.*2).

End Summary.

(** ** More sample data *)

Module Fixture.

(** A world in which the browser renders every page. *)
Definition rendered : env :=
  Env true (λ _ _, Returned tt) (λ u _, Returned ("<html>" +:+ u))
      (λ _ _, Raised ConnectionError)
      (λ _, Returned []) "".

(** A world in which a request succeeds at the third attempt. *)
Definition third_time_lucky : env :=
  Env false (λ _ _, Returned tt) (λ _ _, Returned "")
      (λ _ k, match k with
              | 0%nat | 1%nat => Raised Timeout
              | _ => Returned "<html>"
              end)
      (λ _, Returned [("https://www.ft.com/content/a",
                       "AI models reshape banking", "", "");
                      ("https://www.example.com/x",
                       "Cloud spending keeps growing", "", "");
                      ("https://www.ft.com/content/s", "Short", "", "")])
      "".

(** A world in which the browser is there and fails on every page, and
    a request succeeds at the third attempt. *)
Definition failing_browser : env :=
  Env true (λ _ _, Raised WebDriverException) (λ _ _, Returned "")
      (λ _ k, match k with
              | 0%nat | 1%nat => Raised Timeout
              | _ => Returned "<html>"
              end)
      (λ _, Returned []) "".

(** A world in which the browser is there and fails, and so do the
    requests. *)
Definition nothing_works : env :=
  Env true (λ _ _, Raised WebDriverException) (λ _ _, Returned "")
      (λ _ _, Raised ConnectionError) (λ _, Returned []) "".

(** A world in which the browser renders every page as the empty string,
    and every request ends in a connection error. *)
Definition blank_browser : env :=
  Env true (λ _ _, Returned tt) (λ _ _, Returned "")
      (λ _ _, Raised ConnectionError) (λ _, Returned []) "".

(** The AI page and the tech-sector page, each with an article of its
    own. *)
Definition two_pages : env :=
  Env false (λ _ _, Returned tt) (λ _ _, Returned "") (λ u _, Returned u)
      (λ content,
         if bool_decide (content = "https://www.ft.com/artificial-intelligence")
         then Returned [("https://www.ft.com/content/a",
                         "AI models reshape banking", "", "")]
         else if bool_decide (content = "https://www.ft.com/tech-sector")
         then Returned [("https://www.ft.com/content/b",
                         "Chip makers race for capacity", "", "")]
         else Returned [])
      "".

Definition no_url : source_config :=
  SourceConfig None "Financial Times Nowhere" "Technology".

(** A feed whose second entry has no title. *)
Definition feed_with_gap : list Rss.rss_entry :=
  [Rss.RssEntry (Returned "Markets rally on chip demand")
     (Returned "https://www.ft.com/content/m") None None;
   Rss.RssEntry (Raised KeyError)
     (Returned "https://www.ft.com/content/n") None None;
   Rss.RssEntry (Returned "Banks test quantum security")
     (Returned "https://www.ft.com/content/d") None None].

End Fixture.

(** * Properties *)

(** ** Strings *)

Module PyStrFacts.
Import PyStr.

Lemma app_Cons (c : N) (s t : str) : Cons c s +:+ t = Cons c (s +:+ t).
Proof. reflexivity. Qed.

Lemma app_Empty (t : str) : "" +:+ t = t.
Proof. reflexivity. Qed.

Lemma app_Empty_r (s : str) : s +:+ "" = s.
Proof. induction s as [|c s IH]; [done|]. by rewrite app_Cons, IH. Qed.

Lemma app_assoc (a b c : str) : (a +:+ b) +:+ c = a +:+ (b +:+ c).
Proof. induction a as [|x a IH]; [done|]. by rewrite !app_Cons, IH. Qed.

Lemma code_points_app (s t : str) :
  code_points (s +:+ t) = code_points s ++ code_points t.
Proof. induction s as [|c s IH]; [done|]. simpl. by rewrite IH. Qed.

Lemma len_code_points (s : str) : len s = Z.of_nat (length (code_points s)).
Proof. induction s as [|c s IH]; [done|]. cbn [len code_points length]. lia. Qed.

Lemma startswith_spec (p : str) :
  ∀ s, startswith s p = true ↔ ∃ rest, s = p +:+ rest.
Proof.
  induction p as [|a p IH]; intros s.
  - destruct s; simpl; split; eauto.
  - destruct s as [|b s]; simpl.
    + split; [discriminate | intros [rest Hr]; discriminate].
    + destruct (N.eqb_spec a b) as [->|Hne]; split.
      * intros [rest Hr]%IH. exists rest. by rewrite Hr.
      * intros [rest Hr]. apply IH. exists rest. congruence.
      * discriminate.
      * intros [rest Hr]. congruence.
Qed.

Lemma contains_Empty (k : str) : contains k "" = startswith "" k || false.
Proof. reflexivity. Qed.

Lemma contains_Cons (k : str) (c : N) (s : str) :
  contains k (Cons c s) = startswith (Cons c s) k || contains k s.
Proof. reflexivity. Qed.

Lemma contains_spec (k s : str) :
  contains k s = true ↔ ∃ pre post, s = pre +:+ k +:+ post.
Proof.
  induction s as [|c s IH]; [rewrite contains_Empty | rewrite contains_Cons].
  - rewrite orb_false_r, startswith_spec. split.
    + intros [rest Hr]. by exists "", rest.
    + intros (pre & post & Hs).
      destruct pre; [by exists post | discriminate].
  - rewrite orb_true_iff, startswith_spec, IH. split.
    + intros [[rest Hr] | (pre & post & Hs)].
      * by exists "", rest.
      * exists (Cons c pre), post. by rewrite app_Cons, Hs.
    + intros (pre & post & Hs). destruct pre as [|c' pre].
      * left. by exists post.
      * right. rewrite app_Cons in Hs. exists pre, post. congruence.
Qed.

End PyStrFacts.

(** ** Lower-casing *)

Module CaseFacts.
Import PyStr.

Local Open Scope N_scope.

Lemma lookup_pair_forallb (f : N * N → bool) (pairs : list (N * N))
    (c d : N) :
  forallb f pairs = true → lookup_pair c pairs = Some d → f (c, d) = true.
Proof.
  induction pairs as [|[x y] pairs IH]; simpl; [discriminate|].
  intros [Hxy Hrest]%andb_true_iff.
  destruct (N.eqb_spec x c) as [->|_]; [by intros [= <-] | by apply IH].
Qed.

(** What the table holds: code points outside ASCII, with lower-case forms
    outside ASCII, the Kelvin sign apart; and lower-case forms that are
    their own lower-case form and are no capital sigma. *)
Lemma lower_pairs_outside_ascii :
  forallb (λ '(x, y), (128 <=? x) && ((128 <=? y) || (x =? 8490)))
    lower_pairs = true.
Proof. by vm_compute. Qed.

Lemma lower_pairs_fixed :
  forallb (λ '(x, y),
             negb (y =? 931)
             && bool_decide (to_lower_full y = Cons y Empty))
    lower_pairs = true.
Proof. by vm_compute. Qed.

Lemma lower_at_plain (before : list N) (c : N) (after : str) :
  c ≠ 304 → c ≠ 8490 →
  ∃ d, lower_at before c after = Cons d Empty ∧ plainly c d.
Proof.
  intros H304 H8490. unfold lower_at.
  destruct (N.eqb_spec c 931) as [->|H931].
  { eexists. split; [reflexivity|]. right.
    destruct (final_sigma _ _); lia. }
  unfold to_lower_full. destruct (N.ltb_spec c 128) as [Hc|Hc].
  { exists (small c). split; [|by left]. unfold small.
    by destruct ((65 <=? c) && (c <=? 90)). }
  rewrite (proj2 (N.eqb_neq c 304)) by done.
  destruct (lookup_pair c lower_pairs) as [d|] eqn:Hd.
  - exists d. split; [done|]. right. split; [done|].
    pose proof (lookup_pair_forallb _ _ _ _ lower_pairs_outside_ascii Hd)
      as Hf.
    simpl in Hf. apply andb_true_iff in Hf as [_ Hf].
    apply orb_true_iff in Hf as [Hf|Hf]; [by apply N.leb_le|].
    by apply N.eqb_eq in Hf.
  - exists c. split; [done|]. by right.
Qed.

Lemma lower_from_plain (s : str) :
  ∀ before, plain_case s → lowered_plainly s (lower_from before s).
Proof.
  induction s as [|c s IH]; intros before [H1 H2]; [constructor|].
  simpl in H1, H2. apply not_elem_of_cons in H1 as [Hc1 H1].
  apply not_elem_of_cons in H2 as [Hc2 H2].
  destruct (lower_at_plain before c s) as (d & Hd & Hp); [done | done |].
  cbn [lower_from]. rewrite Hd. simpl. constructor; [done|].
  by apply IH.
Qed.

Lemma lowered_plainly_app_r (t1 : str) :
  ∀ s t2, lowered_plainly s (t1 +:+ t2) →
          ∃ s1 s2, s = s1 +:+ s2
                   ∧ lowered_plainly s1 t1 ∧ lowered_plainly s2 t2.
Proof.
  induction t1 as [|d t1 IH]; intros s t2 Hs; simpl in Hs.
  - exists Empty, s. split; [done|]. split; [constructor | done].
  - inversion Hs as [|c d' s' t' Hp Hrest]; subst.
    destruct (IH _ _ Hrest) as (s1 & s2 & -> & H1 & H2).
    exists (Cons c s1), s2. split; [done|]. split; [by constructor | done].
Qed.

Lemma lowered_plainly_app_l (s1 : str) :
  ∀ s2 t, lowered_plainly (s1 +:+ s2) t →
          ∃ t1 t2, t = t1 +:+ t2
                   ∧ lowered_plainly s1 t1 ∧ lowered_plainly s2 t2.
Proof.
  induction s1 as [|c s1 IH]; intros s2 t Ht; simpl in Ht.
  - exists Empty, t. split; [done|]. split; [constructor | done].
  - inversion Ht as [|c' d s' t' Hp Hrest]; subst.
    destruct (IH _ _ Hrest) as (t1 & t2 & -> & H1 & H2).
    exists (Cons d t1), t2. split; [done|]. split; [by constructor | done].
Qed.

Lemma small_same_letter (c : N) : same_letter c (small c).
Proof.
  unfold small, same_letter.
  destruct (N.leb_spec 65 c), (N.leb_spec c 90); simpl; auto.
Qed.

(** A piece that lower-cases to a word in small letters is the word up to
    case, and the other way round. *)
Lemma lowered_plainly_same (mid : str) :
  ∀ k, ascii_lower_word k → lowered_plainly mid k → same_ignoring_case mid k.
Proof.
  induction mid as [|c mid IH]; intros k Hk Hl; inversion Hl; subst;
    [constructor|].
  unfold ascii_lower_word in Hk. simpl in Hk.
  apply Forall_cons in Hk as [[Hd _] Hk].
  constructor; [|by apply IH].
  match goal with H : plainly _ _ |- _ => destruct H as [[_ ->]|[_ ?]] end;
    [apply small_same_letter | lia].
Qed.

Lemma same_lowered_plainly (mid : str) :
  ∀ k t, ascii_lower_word k → same_ignoring_case mid k →
         lowered_plainly mid t → t = k.
Proof.
  induction mid as [|c mid IH]; intros k t Hk Hs Hl;
    inversion Hs; inversion Hl; subst; [done|].
  unfold ascii_lower_word in Hk. simpl in Hk.
  apply Forall_cons in Hk as [[Hd Hup] Hk].
  f_equal; [|by apply IH].
  match goal with
  | Hsl : same_letter _ _, Hp : plainly _ _ |- _ =>
      unfold same_letter in Hsl; unfold plainly, small in Hp;
      destruct Hp as [[Hc ->]|[Hc _]];
      [destruct (N.leb_spec 65 c), (N.leb_spec c 90); simpl; lia | lia]
  end.
Qed.

(** For a keyword in small letters and text without U+0130 and U+212A, the
    test of the code, [keyword in text.lower()], is occurrence whatever the
    case. *)
Lemma contains_lower_ci (k s : str) :
  ascii_lower_word k → plain_case s →
  (contains k (lower s) = true ↔ ci_occurs k s).
Proof.
  intros Hk Hs. pose proof (lower_from_plain s [] Hs) as Hl.
  fold (lower s) in Hl.
  rewrite PyStrFacts.contains_spec. unfold ci_occurs. split.
  - intros (pre & post & Hlow). rewrite Hlow in Hl.
    destruct (lowered_plainly_app_r _ _ _ Hl) as (s1 & s23 & -> & _ & H23).
    destruct (lowered_plainly_app_r _ _ _ H23) as (s2 & s3 & -> & H2 & _).
    exists s1, s2, s3. split; [done|]. by apply lowered_plainly_same.
  - intros (pre & mid & post & -> & Hmid).
    destruct (lowered_plainly_app_l _ _ _ Hl) as (t1 & t23 & -> & _ & H23).
    destruct (lowered_plainly_app_l _ _ _ H23) as (t2 & t3 & -> & H2 & _).
    exists t1, t3. by rewrite (same_lowered_plainly mid k t2).
Qed.

Lemma lower_at_settled (before : list N) (c : N) (after : str) :
  Forall settled (code_points (lower_at before c after)).
Proof.
  unfold lower_at. destruct (N.eqb_spec c 931) as [->|H931].
  { destruct (final_sigma _ _); by repeat constructor. }
  unfold to_lower_full. destruct (N.ltb_spec c 128) as [Hc|Hc].
  { destruct (N.leb_spec 65 c), (N.leb_spec c 90); simpl;
      repeat constructor; try lia; unfold to_lower_full;
      rewrite (proj2 (N.ltb_lt _ 128)) by lia;
      rewrite ?(proj2 (N.leb_gt _ 90)), ?(proj2 (N.leb_gt 65 _)),
        ?andb_false_r by lia; done. }
  destruct (N.eqb_spec c 304) as [->|H304]; [by repeat constructor|].
  destruct (lookup_pair c lower_pairs) as [d|] eqn:Hd.
  - pose proof (lookup_pair_forallb _ _ _ _ lower_pairs_fixed Hd) as Hf.
    simpl in Hf. apply andb_true_iff in Hf as [Hn Hf].
    apply bool_decide_eq_true in Hf. apply negb_true_iff, N.eqb_neq in Hn.
    by repeat constructor.
  - repeat constructor; [done|]. unfold to_lower_full.
    rewrite (proj2 (N.ltb_ge c 128)), (proj2 (N.eqb_neq c 304)) by done.
    by rewrite Hd.
Qed.

Lemma lower_from_settled (s : str) :
  ∀ before, Forall settled (code_points (lower_from before s)).
Proof.
  induction s as [|c s IH]; intros before; [constructor|].
  cbn [lower_from]. rewrite PyStrFacts.code_points_app.
  apply Forall_app. split; [apply lower_at_settled | apply IH].
Qed.

Lemma lower_from_of_settled (k : str) :
  ∀ before, Forall settled (code_points k) → lower_from before k = k.
Proof.
  induction k as [|d k IH]; intros before Hk; [done|].
  simpl in Hk. apply Forall_cons in Hk as [[Hd Hfix] Hk].
  cbn [lower_from]. unfold lower_at.
  rewrite (proj2 (N.eqb_neq d 931)), Hfix by done. simpl.
  by rewrite IH.
Qed.

(** What occurs in a lower-cased string is its own lower-case form. *)
Lemma contains_lower_is_lower (k s : str) :
  contains k (lower s) = true → lower k = k.
Proof.
  rewrite PyStrFacts.contains_spec. intros (pre & post & Hs).
  apply lower_from_of_settled.
  pose proof (lower_from_settled s []) as Hall. fold (lower s) in Hall.
  rewrite Hs, !PyStrFacts.code_points_app in Hall.
  by apply Forall_app in Hall as [_ [Hk _]%Forall_app].
Qed.

End CaseFacts.

(** ** Deduplication *)

Lemma foldl_dedup_step (l : list article) :
  ∀ (seen : gset str) (acc : list article),
    foldl dedup_step (seen, acc) l
    = (seen ∪ list_to_set (url <$> l), acc ++ dedup_from seen l).
Proof.
  induction l as [|a l IH]; intros seen acc; simpl.
  - f_equal; [set_solver | by rewrite app_nil_r].
  - unfold dedup_step at 2; simpl.
    destruct (decide (url a ∉ seen)) as [Hin|Hin]; rewrite IH; f_equal.
    + set_solver.
    + by rewrite <- app_assoc.
    + apply dec_stable in Hin. set_solver.
Qed.

Lemma remove_duplicates_dedup_from (l : list article) :
  remove_duplicates l = dedup_from ∅ l.
Proof. unfold remove_duplicates. by rewrite foldl_dedup_step. Qed.

Lemma remove_duplicates_snoc (l : list article) (a : article) :
  remove_duplicates (l ++ [a])
  = if decide (url a ∈ url <$> l) then remove_duplicates l
    else remove_duplicates l ++ [a].
Proof.
  unfold remove_duplicates. rewrite foldl_app. simpl.
  rewrite foldl_dedup_step. unfold dedup_step; simpl.
  destruct (decide (url a ∈ url <$> l)) as [Hin|Hin].
  - rewrite decide_False; [done | set_solver].
  - rewrite decide_True; [done | set_solver].
Qed.

Lemma dedup_from_urls (l : list article) :
  ∀ seen, NoDup (url <$> dedup_from seen l)
          ∧ ∀ u, u ∈ url <$> dedup_from seen l ↔ u ∈ url <$> l ∧ u ∉ seen.
Proof.
  induction l as [|a l IH]; intros seen; simpl.
  - split; [constructor | set_solver].
  - destruct (decide (url a ∉ seen)) as [Hin|Hin].
    + destruct (IH ({[url a]} ∪ seen)) as [Hnd Hel]. split.
      * simpl. constructor; [|done]. rewrite Hel. set_solver.
      * intros u. simpl. rewrite !elem_of_cons, Hel.
        destruct (decide (u = url a)); set_solver.
    + apply dec_stable in Hin. destruct (IH seen) as [Hnd Hel]. split; [done|].
      intros u. rewrite Hel, elem_of_cons.
      split; [tauto|]. intros [[->|?] ?]; [done | tauto].
Qed.

Lemma dedup_from_sublist (l : list article) :
  ∀ seen, dedup_from seen l `sublist_of` l.
Proof.
  induction l as [|a l IH]; intros seen; simpl; [done|].
  destruct (decide (url a ∉ seen)).
  - by apply sublist_skip.
  - by apply sublist_cons.
Qed.

Lemma dedup_from_first (l1 : list article) :
  ∀ seen a l2,
    url a ∉ (url <$> l1) → url a ∉ seen →
    a ∈ dedup_from seen (l1 ++ a :: l2).
Proof.
  induction l1 as [|b l1 IH]; intros seen a l2 Hfresh Hseen; simpl.
  - rewrite decide_True by done. by left.
  - rewrite fmap_cons, not_elem_of_cons in Hfresh. destruct Hfresh as [Hne Hfresh].
    destruct (decide (url b ∉ seen)).
    + right. apply IH; [done | set_solver].
    + by apply IH.
Qed.

Lemma dedup_from_idem (l : list article) :
  ∀ seen, dedup_from seen (dedup_from seen l) = dedup_from seen l.
Proof.
  induction l as [|a l IH]; intros seen; simpl; [done|].
  destruct (decide (url a ∉ seen)) as [Hin|Hin]; [|done].
  simpl. rewrite decide_True by done. by rewrite IH.
Qed.

Lemma NoDup_fmap_elem_eq {A B} (f : A → B) (l : list A) (x y : A) :
  NoDup (f <$> l) → x ∈ l → y ∈ l → f x = f y → x = y.
Proof.
  induction l as [|z l IH]; simpl; intros Hnd Hx Hy Hf.
  - by apply elem_of_nil in Hx.
  - apply NoDup_cons in Hnd as [Hz Hnd].
    apply elem_of_cons in Hx as [->|Hx]; apply elem_of_cons in Hy as [->|Hy].
    + done.
    + exfalso. apply Hz. rewrite Hf. by apply list_elem_of_fmap_2.
    + exfalso. apply Hz. rewrite <- Hf. by apply list_elem_of_fmap_2.
    + by apply IH.
Qed.

Lemma dedup_from_app (l1 l2 : list article) :
  ∀ seen, dedup_from seen (l1 ++ l2)
          = dedup_from seen l1
            ++ dedup_from (seen ∪ list_to_set (url <$> l1)) l2.
Proof.
  induction l1 as [|a l1 IH]; intros seen; simpl.
  - f_equal. set_solver.
  - destruct (decide (url a ∉ seen)) as [Hin|Hin]; rewrite IH; simpl.
    + do 3 f_equal. set_solver.
    + apply dec_stable in Hin. do 2 f_equal. set_solver.
Qed.

(** A record whose URL was borne by an earlier record leaves no mark on the
    result: the output is the one of the input without it. *)
Lemma remove_duplicates_later (l1 l2 : list article) (a : article) :
  url a ∈ (url <$> l1) →
  remove_duplicates (l1 ++ a :: l2) = remove_duplicates (l1 ++ l2).
Proof.
  intros Hin. rewrite !remove_duplicates_dedup_from, !dedup_from_app. simpl.
  rewrite decide_False; [done | set_solver].
Qed.

(** C1. Deduplication keeps, for each URL, the first record that bears it
    and discards every later one: the URLs of the output are pairwise
    distinct; the output is the input with records left out, in the input's
    order; the first record bearing a URL is in the output and is the only
    record of the output with that URL; a record whose URL occurred earlier
    is dropped. *)
Theorem remove_duplicates_first_wins (all_articles : list article) :
  NoDup (url <$> remove_duplicates all_articles)
  ∧ remove_duplicates all_articles `sublist_of` all_articles
  ∧ (∀ l1 a l2,
       all_articles = l1 ++ a :: l2 → url a ∉ (url <$> l1) →
       a ∈ remove_duplicates all_articles
       ∧ ∀ b, b ∈ remove_duplicates all_articles → url b = url a → b = a)
  ∧ (∀ l1 a l2,
       all_articles = l1 ++ a :: l2 → url a ∈ (url <$> l1) →
       remove_duplicates all_articles = remove_duplicates (l1 ++ l2)).
Proof.
  assert (Hnd : NoDup (url <$> remove_duplicates all_articles)).
  { rewrite remove_duplicates_dedup_from. apply dedup_from_urls. }
  split; [done|]. split.
  { rewrite remove_duplicates_dedup_from. apply dedup_from_sublist. }
  split.
  - intros l1 a l2 -> Hfresh.
    assert (Ha : a ∈ remove_duplicates (l1 ++ a :: l2)).
    { rewrite remove_duplicates_dedup_from.
      apply dedup_from_first; [done | set_solver]. }
    split; [done|]. intros b Hb Hurl.
    by apply (NoDup_fmap_elem_eq url (remove_duplicates (l1 ++ a :: l2))).
  - intros l1 a l2 -> Hin. by apply remove_duplicates_later.
Qed.

(** C9. Deduplication is idempotent. *)
Theorem remove_duplicates_idempotent (all_articles : list article) :
  remove_duplicates (remove_duplicates all_articles)
  = remove_duplicates all_articles.
Proof.
  rewrite !remove_duplicates_dedup_from. apply dedup_from_idem.
Qed.

Lemma remove_duplicates_urls (l : list article) (u : str) :
  u ∈ (url <$> remove_duplicates l) ↔ u ∈ (url <$> l).
Proof.
  rewrite remove_duplicates_dedup_from.
  destruct (dedup_from_urls l ∅) as [_ Hel]. rewrite Hel. set_solver.
Qed.

(** ** The relevance filter *)

Section RelevanceFilterFacts.

Variable keywords : list str.
Variable required_prefix : str.

Local Abbreviation keep := (retained keywords required_prefix).

Lemma foldl_filter_step (l : list article) :
  ∀ acc, foldl (filter_step keywords required_prefix) acc l
         = acc ++ filter (λ a, keep a = true) l.
Proof.
  induction l as [|a l IH]; intros acc; simpl.
  - by rewrite app_nil_r.
  - rewrite IH. unfold filter_step. destruct (keep a) eqn:Hkeep.
    + rewrite filter_cons_True by done. by rewrite <- app_assoc.
    + rewrite filter_cons_False by (by rewrite Hkeep). done.
Qed.

Lemma filter_articles_with_filter (l : list article) :
  filter_articles_with keywords required_prefix l
  = filter (λ a, keep a = true) l.
Proof. unfold filter_articles_with. by rewrite foldl_filter_step. Qed.

Hypothesis keywords_small : Forall PyStr.ascii_lower_word keywords.

Lemma retained_iff (a : article) :
  PyStr.plain_case (title a) → PyStr.plain_case (summary a) →
  keep a = true
  ↔ matches_a_keyword keywords a ∧ title_long_enough a
    ∧ url_has_required_prefix [required_prefix] a.
Proof.
  intros Htitle Hsummary.
  unfold retained, is_relevant, has_minimum_length, has_valid_url.
  rewrite !andb_true_iff, existsb_exists, Z.leb_le,
    PyStrFacts.startswith_spec, PyStrFacts.len_code_points.
  unfold matches_a_keyword, title_long_enough, url_has_required_prefix.
  rewrite Forall_forall in keywords_small.
  split.
  - intros [[(k & Hk & Hocc) Hlen] Hpre].
    apply list_elem_of_In in Hk. split; [|split; [lia|]].
    + exists k. split; [done|]. apply orb_true_iff in Hocc.
      rewrite <- !CaseFacts.contains_lower_ci by auto. done.
    + exists required_prefix. split; [by left | done].
  - intros ((k & Hk & Hocc) & Hlen & (p & Hp & Hpre)).
    apply list_elem_of_singleton in Hp as ->.
    split; [split; [|lia] | done].
    exists k. split; [by apply list_elem_of_In|].
    apply orb_true_iff.
    rewrite !CaseFacts.contains_lower_ci by auto. done.
Qed.

Lemma filter_articles_with_iff (articles : list article) (a : article) :
  PyStr.plain_case (title a) → PyStr.plain_case (summary a) →
  a ∈ filter_articles_with keywords required_prefix articles
  ↔ a ∈ articles
    ∧ matches_a_keyword keywords a ∧ title_long_enough a
    ∧ url_has_required_prefix [required_prefix] a.
Proof.
  intros Htitle Hsummary.
  rewrite filter_articles_with_filter, list_elem_of_filter, retained_iff
    by done.
  tauto.
Qed.

End RelevanceFilterFacts.

Lemma RELEVANT_KEYWORDS_small :
  Forall PyStr.ascii_lower_word FtScraper.RELEVANT_KEYWORDS.
Proof.
  apply Forall_forall. intros k Hk. unfold PyStr.ascii_lower_word.
  assert (Hb : forallb (λ k, forallb (λ c, (c <? 128)%N
                                          && negb ((65 <=? c)%N && (c <=? 90)%N))
                               (code_points k))
                 FtScraper.RELEVANT_KEYWORDS = true) by (by vm_compute).
  rewrite forallb_forall in Hb. apply list_elem_of_In, Hb in Hk.
  rewrite forallb_forall in Hk. apply Forall_forall. intros c Hc.
  apply list_elem_of_In, Hk in Hc. apply andb_true_iff in Hc as [H1 H2].
  apply N.ltb_lt in H1. apply negb_true_iff, andb_false_iff in H2.
  split; [done|]. intros [? ?].
  destruct H2 as [H2|H2]; apply N.leb_gt in H2; lia.
Qed.

Lemma relevant_keywords_small :
  Forall PyStr.ascii_lower_word Extract.relevant_keywords.
Proof.
  apply Forall_forall. intros k Hk. unfold PyStr.ascii_lower_word.
  assert (Hb : forallb (λ k, forallb (λ c, (c <? 128)%N
                                          && negb ((65 <=? c)%N && (c <=? 90)%N))
                               (code_points k))
                 Extract.relevant_keywords = true) by (by vm_compute).
  rewrite forallb_forall in Hb. apply list_elem_of_In, Hb in Hk.
  rewrite forallb_forall in Hk. apply Forall_forall. intros c Hc.
  apply list_elem_of_In, Hk in Hc. apply andb_true_iff in Hc as [H1 H2].
  apply N.ltb_lt in H1. apply negb_true_iff, andb_false_iff in H2.
  split; [done|]. intros [? ?].
  destruct H2 as [H2|H2]; apply N.leb_gt in H2; lia.
Qed.



(** The length of a title is counted in characters, not in bytes: a title
    of nine characters and eleven bytes is too short, and is dropped. *)
Example filter_counts_characters :
  PyStr.len (title Sample.ai_rise_short) = 9
  ∧ Extract.filter_articles [Sample.ai_rise_short; Sample.ai_rise]
    = [Sample.ai_rise]
  ∧ (FtScraper.filter_articles [Sample.ai_rise_short; Sample.ai_rise]).2
    = Returned [Sample.ai_rise].
Proof. by vm_compute. Qed.

(** [str.lower] beyond ASCII: the Kelvin sign becomes "k", the capital I
    with a dot becomes "i" and a combining dot, a capital sigma at the end
    of a word becomes the final sigma.  So a title that spells "banking"
    with the Kelvin sign is kept by both filters. *)
Example lower_beyond_ascii :
  PyStr.lower (title Sample.kelvin) = "the banking sector grows"
  ∧ code_points (PyStr.lower (of_code_points [304%N])) = [105%N; 775%N]
  ∧ PyStr.lower "ΟΔΟΣ ΣΟΦΙΑΣ" = "οδος σοφιας"
  ∧ PyStr.lower "ÉCOLE Ünited" = "école ünited"
  ∧ Extract.filter_articles [Sample.kelvin] = [Sample.kelvin]
  ∧ (FtScraper.filter_articles [Sample.kelvin]).2 = Returned [Sample.kelvin].
Proof. by vm_compute. Qed.

(** The scenario of the specification: with the keyword "ai", a record
    titled "Short" is dropped and "AI models reshape banking" is kept. *)
Example filter_scenario :
  filter_articles_with ["ai"] "https://www.ft.com/"
    [Article "s" "Short" "https://www.ft.com/content/s" "" "" "c" "";
     Sample.r1]
  = [Sample.r1].
Proof. reflexivity. Qed.

(** C8. The output of the relevance filter is the input restricted to the
    retained records: a sublist of the input, in the input's order, the
    records themselves unchanged. *)
Theorem filter_articles_order_preserving (articles : list article) :
  (∃ tr,
     FtScraper.filter_articles articles
     = (tr, Returned
              (filter (λ a, retained FtScraper.RELEVANT_KEYWORDS
                              "https://www.ft.com/" a = true) articles))
     ∧ filter (λ a, retained FtScraper.RELEVANT_KEYWORDS
                      "https://www.ft.com/" a = true) articles
       `sublist_of` articles)
  ∧ Extract.filter_articles articles
    = filter (λ a, retained Extract.relevant_keywords "http" a = true) articles
  ∧ Extract.filter_articles articles `sublist_of` articles.
Proof.
  split; [eexists; split|split].
  - unfold FtScraper.filter_articles. rewrite filter_articles_with_filter.
    reflexivity.
  - apply sublist_filter.
  - apply filter_articles_with_filter.
  - unfold Extract.filter_articles. rewrite filter_articles_with_filter.
    apply sublist_filter.
Qed.

(** ** The bounding stage *)

Lemma slice_to_nonneg {A} (l : list A) (m : Z) :
  0 ≤ m → slice_to l m = take (Z.to_nat m) l.
Proof. intros Hm. unfold slice_to. by rewrite (proj2 (Z.leb_le 0 m)). Qed.

Lemma bound_articles_unfold (min_articles max_articles : Z) (l : list article) :
  FtScraper.bound_articles min_articles max_articles l
  = ((if llen l <? min_articles
      then [Log WARNING (OnlyFound (llen l) min_articles)] else [])
     ++ (if llen l >? max_articles
         then [Log INFO (LimitedTo max_articles)] else []),
     Returned (if llen l >? max_articles then slice_to l max_articles else l)).
Proof.
  unfold FtScraper.bound_articles.
  by destruct (llen l <? min_articles), (llen l >? max_articles).
Qed.

Lemma bound_articles_same (min_articles max_articles : Z) (l : list article) :
  Extract.bound_articles min_articles max_articles l
  = FtScraper.bound_articles min_articles max_articles l.
Proof. reflexivity. Qed.

(** C4, as the claim states it, fails for a negative maximum: with
    [max_articles = -1] the cut [filtered_articles[:-1]] drops the last
    record only, and two records are more than [-1]. *)
Lemma bound_articles_negative_max :
  FtScraper.bound_articles 0 (-1) [Sample.r1; Sample.r2; Sample.r3]
  = ([Log INFO (LimitedTo (-1))], Returned [Sample.r1; Sample.r2])
  ∧ Extract.bound_articles 0 (-1) [Sample.r1; Sample.r2; Sample.r3]
    = ([Log INFO (LimitedTo (-1))], Returned [Sample.r1; Sample.r2])
  ∧ llen [Sample.r1; Sample.r2] > -1.
Proof. repeat split. Qed.

(** C4, amended: for a maximum that is not negative, the output of the
    bounding stage has at most [max_articles] records; when the input has
    more, the output is its first [max_articles] records, the cut is logged
    at level INFO and the only warning there can be is the one of the
    minimum; when the length of the input lies between the bounds the input
    is returned as it is, and nothing is logged. *)
Theorem bound_articles_within_max (min_articles max_articles : Z)
    (l : list article) :
  0 ≤ max_articles →
  ∃ tr out,
    FtScraper.bound_articles min_articles max_articles l = (tr, Returned out)
    ∧ Extract.bound_articles min_articles max_articles l = (tr, Returned out)
    ∧ llen out ≤ max_articles
    ∧ (llen l > max_articles →
       out = take (Z.to_nat max_articles) l
       ∧ Log INFO (LimitedTo max_articles) ∈ tr
       ∧ warnings tr = (if llen l <? min_articles
                        then [OnlyFound (llen l) min_articles] else []))
    ∧ (min_articles ≤ llen l ≤ max_articles → out = l ∧ tr = []).
Proof.
  intros Hmax. eexists _, _.
  split; [apply bound_articles_unfold|].
  split; [rewrite bound_articles_same; apply bound_articles_unfold|].
  unfold llen in *.
  destruct (Z.gtb_spec (Z.of_nat (length l)) max_articles) as [Hgt|Hle].
  - rewrite slice_to_nonneg by done. split; [|split].
    + rewrite length_take. lia.
    + intros _. split; [done|]. split.
      * apply elem_of_app. right. by left.
      * by destruct (Z.of_nat (length l) <? min_articles).
    + lia.
  - split; [done|]. split; [lia|].
    intros [Hmin _]. split; [done|].
    by rewrite (proj2 (Z.ltb_ge _ _) Hmin).
Qed.

Lemma bound_articles_within_max_witness :
  ∃ tr out,
    FtScraper.bound_articles 1 2 [Sample.r1; Sample.r2; Sample.r3]
    = (tr, Returned out)
    ∧ out = [Sample.r1; Sample.r2].
Proof.
  destruct (bound_articles_within_max 1 2 [Sample.r1; Sample.r2; Sample.r3])
    as (tr & out & Hft & _ & _ & Hcut & _); [lia|].
  exists tr, out. split; [exact Hft|].
  apply Hcut. reflexivity.
Defined.

(** C7, as the claim states it, fails: with a minimum of 10, a maximum of 5
    and exactly 5 records after filtering, the 5 records are returned and
    the warning of the minimum is logged. *)
Lemma bound_articles_min10_max5 :
  FtScraper.bound_articles 10 5
    [Sample.r1; Sample.r2; Sample.r3; Sample.r4; Sample.r5]
  = ([Log WARNING (OnlyFound 5 10)],
     Returned [Sample.r1; Sample.r2; Sample.r3; Sample.r4; Sample.r5])
  ∧ Extract.bound_articles 10 5
      [Sample.r1; Sample.r2; Sample.r3; Sample.r4; Sample.r5]
    = ([Log WARNING (OnlyFound 5 10)],
       Returned [Sample.r1; Sample.r2; Sample.r3; Sample.r4; Sample.r5])
  ∧ warnings [Log WARNING (OnlyFound 5 10)] ≠ [].
Proof. repeat split. discriminate. Qed.

(** C7, amended: the minimum is checked before the cut and without regard
    to the maximum, so the warning of the minimum is logged exactly when
    fewer than [min_articles] records survive the filter; with a minimum of
    10, a maximum of 5 and exactly 5 survivors, the 5 records are returned
    and the warning is logged. *)
Theorem bound_articles_min_warning (min_articles max_articles : Z)
    (l : list article) :
  Extract.bound_articles min_articles max_articles l
  = FtScraper.bound_articles min_articles max_articles l
  ∧ warnings (FtScraper.bound_articles min_articles max_articles l).1
    = (if llen l <? min_articles
       then [OnlyFound (llen l) min_articles] else [])
  ∧ (min_articles = 10 → max_articles = 5 → llen l = 5 →
     FtScraper.bound_articles min_articles max_articles l
     = ([Log WARNING (OnlyFound 5 10)], Returned l)).
Proof.
  split; [apply bound_articles_same|]. rewrite bound_articles_unfold. split.
  - simpl. by destruct (llen l <? min_articles), (llen l >? max_articles).
  - intros -> -> Hl. by rewrite Hl.
Qed.

(** ** The retrying fetch *)

Section Fetch.

Import FtScraper.

Variable E : env.
Variable u : str.
Variable use_selenium : bool.

Lemma emit_bind {A} (ev : event) (k : M A) :
  (emit ev ;; k) = (ev :: k.1, k.2).
Proof. reflexivity. Qed.

Lemma session_gets_app (t1 t2 : list event) :
  session_gets (t1 ++ t2) = (session_gets t1 + session_gets t2)%nat.
Proof. unfold session_gets. by rewrite filter_app, length_app. Qed.

(** The call of the browser, by cases: its trace and what it returns. *)
Lemma get_page_with_selenium_unfold (k : nat) :
  get_page_with_selenium E u k
  = (SeleniumGet u
       :: (if driver E then
             match driver_get E u k with
             | Returned _ =>
                 Sleep 2 2
                   :: match driver_page_source E u k with
                      | Returned _ => []
                      | Raised e => [Log ERROR (SeleniumError u e)]
                      end
             | Raised e => [Log ERROR (SeleniumError u e)]
             end
           else []),
     Returned (page_source E u k)).
Proof.
  unfold get_page_with_selenium, page_source, catch, log,
    mbind, M_bind, bind, mret, M_ret, ret, emit, lift.
  destruct (driver E); simpl; [|done].
  destruct (driver_get E u k) as [[]|e]; simpl; [|done].
  by destruct (driver_page_source E u k).
Qed.

Lemma get_page_with_selenium_quiet (k : nat) :
  session_gets (get_page_with_selenium E u k).1 = 0%nat
  ∧ warnings (get_page_with_selenium E u k).1 = [].
Proof.
  rewrite get_page_with_selenium_unfold. simpl.
  destruct (driver E); [|done].
  destruct (driver_get E u k) as [[]|e]; [|done].
  by destruct (driver_page_source E u k).
Qed.

(** One attempt, by cases: the browser gave a page, or the session was
    asked. *)
Lemma attempt_body_unfold (k : nat) :
  attempt_body E u use_selenium k
  = if use_selenium && truthy (page_source E u k)
    then ((get_page_with_selenium E u k).1, Returned (page_source E u k))
    else ((if use_selenium then (get_page_with_selenium E u k).1 else [])
            ++ [SessionGet u],
          match response E u k with
          | Returned text => Returned (Some text)
          | Raised e => Raised e
          end).
Proof.
  unfold attempt_body. destruct use_selenium.
  - rewrite get_page_with_selenium_unfold.
    unfold mbind, M_bind, bind, mret, M_ret, ret, emit, lift. simpl.
    destruct (truthy (page_source E u k)); simpl; [by rewrite app_nil_r|].
    by destruct (response E u k).
  - unfold mbind, M_bind, bind, mret, M_ret, ret, emit, lift. simpl.
    by destruct (response E u k).
Qed.

Lemma attempt_body_raised (k : nat) (e : exn) :
  (attempt_body E u use_selenium k).2 = Raised e →
  session_gets (attempt_body E u use_selenium k).1 = 1%nat.
Proof.
  rewrite attempt_body_unfold.
  destruct (use_selenium && truthy (page_source E u k)); [discriminate|].
  intros _. cbn [fst]. rewrite session_gets_app.
  destruct use_selenium; [|done].
  by rewrite (proj1 (get_page_with_selenium_quiet k)).
Qed.

Lemma get_page_loop_cons (max_retries : Z) (attempt : nat) (rest : list nat) :
  get_page_loop E u use_selenium max_retries (attempt :: rest)
  = catch (attempt_body E u use_selenium attempt)
      (λ e,
         if is_RequestException e then
           log WARNING (AttemptFailed (Z.of_nat attempt + 1) u e) ;;
           if Z.of_nat attempt <? max_retries - 1 then
             emit (Sleep 1 3) ;;
             get_page_loop E u use_selenium max_retries rest
           else
             log ERROR (AllAttemptsFailed u) ;;
             mret None
         else
           log ERROR (UnexpectedError u e) ;;
           mret None).
Proof. reflexivity. Qed.

(** What one turn of the loop does when the attempt raises. *)
Lemma get_page_loop_raised (max_retries : Z) (attempt : nat)
    (rest : list nat) (e : exn) :
  (attempt_body E u use_selenium attempt).2 = Raised e →
  get_page_loop E u use_selenium max_retries (attempt :: rest)
  = if is_RequestException e then
      if Z.of_nat attempt <? max_retries - 1 then
        ((attempt_body E u use_selenium attempt).1
           ++ Log WARNING (AttemptFailed (Z.of_nat attempt + 1) u e)
           :: Sleep 1 3
           :: (get_page_loop E u use_selenium max_retries rest).1,
         (get_page_loop E u use_selenium max_retries rest).2)
      else
        ((attempt_body E u use_selenium attempt).1
           ++ [Log WARNING (AttemptFailed (Z.of_nat attempt + 1) u e);
               Log ERROR (AllAttemptsFailed u)],
         Returned None)
    else
      ((attempt_body E u use_selenium attempt).1
         ++ [Log ERROR (UnexpectedError u e)],
       Returned None).
Proof.
  intros Hr. rewrite get_page_loop_cons. unfold catch. rewrite Hr.
  destruct (is_RequestException e); [|done].
  by destruct (Z.of_nat attempt <? max_retries - 1).
Qed.

Lemma get_page_loop_returned (max_retries : Z) (attempt : nat)
    (rest : list nat) (r : option str) :
  (attempt_body E u use_selenium attempt).2 = Returned r →
  get_page_loop E u use_selenium max_retries (attempt :: rest)
  = attempt_body E u use_selenium attempt.
Proof. intros Hr. rewrite get_page_loop_cons. unfold catch. by rewrite Hr. Qed.

Lemma get_page_loop_all_fail (max_retries : Z) :
  (∀ k, (k < Z.to_nat max_retries)%nat →
        raises_RequestException E u use_selenium k) →
  ∀ m i, (i + m = Z.to_nat max_retries)%nat →
    (get_page_loop E u use_selenium max_retries (seq i m)).2 = Returned None
    ∧ session_gets (get_page_loop E u use_selenium max_retries (seq i m)).1
      = m.
Proof.
  intros Hfail m. induction m as [|m IH]; intros i Him; [by split|].
  destruct (Hfail i) as (e & He & Hreq); [lia|].
  rewrite <- cons_seq, (get_page_loop_raised _ _ _ _ He), Hreq.
  pose proof (attempt_body_raised _ _ He) as Hone.
  destruct (Z.ltb_spec (Z.of_nat i) (max_retries - 1)) as [Hlt|Hge]; simpl.
  - destruct (IH (S i)) as [Hres Hcount]; [lia|]. split; [done|].
    rewrite session_gets_app, Hone.
    change (session_gets (?a :: ?b :: ?t)) with (session_gets t).
    by rewrite Hcount.
  - split; [done|]. rewrite session_gets_app, Hone.
    change (session_gets [_; _]) with 0%nat. lia.
Qed.

Lemma get_page_loop_stops (max_retries : Z) (k : nat) (e : exn) :
  (attempt_body E u use_selenium k).2 = Raised e →
  is_RequestException e = false →
  (∀ j, (j < k)%nat → raises_RequestException E u use_selenium j) →
  ∀ m i, (i ≤ k < i + m)%nat → (i + m = Z.to_nat max_retries)%nat →
    (get_page_loop E u use_selenium max_retries (seq i m)).2 = Returned None
    ∧ session_gets (get_page_loop E u use_selenium max_retries (seq i m)).1
      = S (k - i).
Proof.
  intros He Hother Hbefore m.
  induction m as [|m IH]; intros i Hik Him; [lia|].
  rewrite <- cons_seq. destruct (decide (i = k)) as [->|Hne].
  - rewrite (get_page_loop_raised _ _ _ _ He), Hother. simpl.
    split; [done|]. rewrite session_gets_app, (attempt_body_raised _ _ He).
    change (session_gets [_]) with 0%nat. lia.
  - destruct (Hbefore i) as (e' & He' & Hreq); [lia|].
    rewrite (get_page_loop_raised _ _ _ _ He'), Hreq.
    rewrite (proj2 (Z.ltb_lt (Z.of_nat i) (max_retries - 1))) by lia.
    simpl. destruct (IH (S i)) as [Hres Hcount]; [lia | lia |].
    split; [done|].
    rewrite session_gets_app, (attempt_body_raised _ _ He').
    change (session_gets (?a :: ?b :: ?t)) with (session_gets t).
    rewrite Hcount. lia.
Qed.

Lemma get_page_loop_result (max_retries : Z) (attempts : list nat) :
  ∃ r, (get_page_loop E u use_selenium max_retries attempts).2 = Returned r
       ∧ (r = None
          ∨ ∃ k, k ∈ attempts
                 ∧ (attempt_body E u use_selenium k).2 = Returned r).
Proof.
  induction attempts as [|i rest IH]; [exists None; by split; [|left]|].
  destruct (attempt_body E u use_selenium i).2 as [r|e] eqn:Hi.
  - rewrite (get_page_loop_returned _ _ _ _ Hi). exists r.
    split; [done|]. right. exists i. split; [by left | done].
  - rewrite (get_page_loop_raised _ _ _ _ Hi).
    destruct (is_RequestException e); [|exists None; by split; [|left]].
    destruct (Z.of_nat i <? max_retries - 1);
      [|exists None; by split; [|left]].
    destruct IH as (r & Hr & Hwhy). exists r. split; [done|].
    destruct Hwhy as [->|(k & Hk & Hret)]; [by left|].
    right. exists k. split; [by right | done].
Qed.

End Fetch.

(** C3, as the claim states it, fails: with [max_retries = 3] and every
    request ending in a connection error, the session is asked 3 times, not
    [1 + 3] times; [max_retries] counts the attempts. *)
Lemma get_page_content_three_attempts :
  (∀ k, (FtScraper.attempt_body Sample.unreachable "https://www.ft.com/technology"
           false k).2 = Raised ConnectionError)
  ∧ (FtScraper.get_page_content Sample.unreachable
       "https://www.ft.com/technology" false 3).2 = Returned None
  ∧ session_gets (FtScraper.get_page_content Sample.unreachable
                    "https://www.ft.com/technology" false 3).1 = 3%nat
  ∧ 3%nat ≠ (1 + Z.to_nat 3)%nat.
Proof. repeat split. discriminate. Qed.

(** C3, amended: when every attempt fails with a [RequestException], the
    retrying fetch makes exactly [max_retries] attempts in all (none when
    [max_retries] is not positive) and then returns [None]; it does not
    raise. *)
Theorem get_page_content_all_attempts_fail (E : env) (u : str)
    (use_selenium : bool) (max_retries : Z) :
  (∀ k, (k < Z.to_nat max_retries)%nat →
        FtScraper.raises_RequestException E u use_selenium k) →
  (FtScraper.get_page_content E u use_selenium max_retries).2 = Returned None
  ∧ session_gets (FtScraper.get_page_content E u use_selenium max_retries).1
    = Z.to_nat max_retries.
Proof.
  intros Hfail. unfold FtScraper.get_page_content, range.
  by apply get_page_loop_all_fail.
Qed.

Lemma get_page_content_all_attempts_fail_witness :
  (FtScraper.get_page_content Sample.unreachable
     "https://www.ft.com/technology" true 3).2 = Returned None
  ∧ session_gets (FtScraper.get_page_content Sample.unreachable
                    "https://www.ft.com/technology" true 3).1 = Z.to_nat 3.
Proof.
  apply (get_page_content_all_attempts_fail Sample.unreachable
           "https://www.ft.com/technology" true 3).
  intros k _. exists ConnectionError. split; reflexivity.
Defined.

(** C10. [get_page_content] never lets an exception through: it returns,
    and what it returns is [None] unless some attempt returned a page.
    Only a [RequestException] is followed by another attempt: when the
    attempts before number [k] failed with one and attempt [k] raises
    anything else, [None] is returned after [k + 1] attempts, whatever
    [max_retries] still allowed. *)
Theorem get_page_content_never_raises (E : env) (u : str)
    (use_selenium : bool) (max_retries : Z) :
  (∃ r, (FtScraper.get_page_content E u use_selenium max_retries).2
        = Returned r
        ∧ (r = None
           ∨ ∃ k, (k < Z.to_nat max_retries)%nat
                  ∧ (FtScraper.attempt_body E u use_selenium k).2
                    = Returned r))
  ∧ (∀ k e,
       (k < Z.to_nat max_retries)%nat →
       (∀ j, (j < k)%nat → FtScraper.raises_RequestException E u use_selenium j) →
       (FtScraper.attempt_body E u use_selenium k).2 = Raised e →
       is_RequestException e = false →
       (FtScraper.get_page_content E u use_selenium max_retries).2
       = Returned None
       ∧ session_gets
           (FtScraper.get_page_content E u use_selenium max_retries).1
         = S k).
Proof.
  unfold FtScraper.get_page_content, range. split.
  - destruct (get_page_loop_result E u use_selenium max_retries
                (seq 0 (Z.to_nat max_retries))) as (r & Hr & Hwhy).
    exists r. split; [done|]. destruct Hwhy as [->|(k & Hk & Hret)]; [by left|].
    right. exists k. split; [|done]. apply elem_of_seq in Hk. lia.
  - intros k e Hk Hbefore He Hother.
    destruct (get_page_loop_stops E u use_selenium max_retries k e
                He Hother Hbefore (Z.to_nat max_retries) 0%nat)
      as [Hres Hcount]; [lia | lia |].
    split; [done|]. rewrite Hcount. lia.
Qed.

(** The first request times out, the second one raises a [ValueError]:
    two attempts out of the three allowed, then [None]. *)
Example get_page_content_gives_up :
  FtScraper.get_page_content Sample.broken_after_timeout "u" false 3
  = ([SessionGet "u"; Log WARNING (AttemptFailed 1 "u" Timeout); Sleep 1 3;
      SessionGet "u"; Log ERROR (UnexpectedError "u" ValueError)],
     Returned None).
Proof. reflexivity. Qed.

(** ** Gathering: the pool and the main source *)

Section Gather.

Import FtScraper.

Variable E : env.

Lemma bind_returned {A B} (m : M A) (k : A → M B) (a : A) :
  m.2 = Returned a → (m ≫= k).2 = (k a).2.
Proof. unfold mbind, M_bind, bind. by intros ->. Qed.

Lemma bind_raised {A B} (m : M A) (k : A → M B) (e : exn) :
  m.2 = Raised e → (m ≫= k).2 = Raised e.
Proof. unfold mbind, M_bind, bind. by intros ->. Qed.

Lemma log_bind {B} (lv : level) (msg : message) (k : unit → M B) :
  (log lv msg ≫= k).2 = (k tt).2.
Proof. reflexivity. Qed.

Lemma catch_returned {A} (m : M A) (h : exn → M A) (a : A) :
  m.2 = Returned a → (catch m h).2 = Returned a.
Proof. unfold catch. intros Hm. by rewrite Hm. Qed.

Lemma catch_raised {A} (m : M A) (h : exn → M A) (e : exn) :
  m.2 = Raised e → (catch m h).2 = (h e).2.
Proof. unfold catch. by intros ->. Qed.

(** A task of the pool always returns a list: the articles of its source,
    or none when the extraction raised. *)
Lemma scrape_source_parallel_returns (sc : source_config) :
  (scrape_source_parallel E sc).2 = Returned (task_result E sc).
Proof.
  unfold task_result.
  destruct (scrape_source_parallel E sc).2 as [l|e] eqn:Hr; [done|].
  exfalso. revert Hr. unfold scrape_source_parallel.
  match goal with
  | |- (catch ?m ?h).2 = _ → _ => destruct (m.2) as [l|e'] eqn:Hm
  end.
  - by rewrite (catch_returned _ _ _ Hm).
  - by rewrite (catch_raised _ _ _ Hm).
Qed.

Lemma scrape_source_parallel_isolated (sc : source_config) (u : str)
    (e : exn) :
  sc_url sc = Some u →
  (extract_ft_articles E u (sc_name sc) (sc_category sc)).2 = Raised e →
  (scrape_source_parallel E sc).2 = Returned [].
Proof.
  intros Hu He. unfold scrape_source_parallel. rewrite Hu.
  erewrite catch_raised; [done|]. by apply bind_raised.
Qed.

(** The loop over the completed tasks never raises and appends the
    results of the tasks in the order of completion. *)
Lemma collect_completed_returns (completed : list source_config) :
  ∀ all_articles,
    (collect_completed E completed all_articles).2
    = Returned (all_articles ++ mjoin (task_result E <$> completed)).
Proof.
  induction completed as [|sc rest IH]; intros all_articles; simpl.
  - by rewrite app_nil_r.
  - erewrite bind_returned.
    + rewrite IH. by rewrite <- app_assoc.
    + apply catch_returned.
      erewrite bind_returned by apply scrape_source_parallel_returns.
      reflexivity.
Qed.

Lemma gather_result (main_source : option source_config)
    (sources_to_scrape completed : list source_config) :
  (gather E main_source sources_to_scrape completed).2
  = match (scrape_main E main_source).2 with
    | Returned main_articles =>
        Returned (main_articles
                  ++ match sources_to_scrape with
                     | [] => []
                     | _ :: _ => mjoin (task_result E <$> completed)
                     end)
    | Raised e => Raised e
    end.
Proof.
  unfold gather.
  destruct (scrape_main E main_source).2 as [m|e] eqn:Hm.
  - rewrite (bind_returned _ _ _ Hm). destruct sources_to_scrape.
    + by rewrite app_nil_r.
    + apply collect_completed_returns.
  - by rewrite (bind_raised _ _ _ Hm).
Qed.

Lemma unique_articles_result (main_source : option source_config)
    (sources_to_scrape completed : list source_config) :
  (unique_articles E main_source sources_to_scrape completed).2
  = match (gather E main_source sources_to_scrape completed).2 with
    | Returned all_articles => Returned (remove_duplicates all_articles)
    | Raised e => Raised e
    end.
Proof.
  unfold unique_articles.
  destruct (gather E main_source sources_to_scrape completed).2
    as [l|e] eqn:Hg.
  - by rewrite (bind_returned _ _ _ Hg).
  - by rewrite (bind_raised _ _ _ Hg).
Qed.

(** When the main source does not raise, the run returns. *)
Lemma scrape_all_sources_returns (min_articles max_articles : Z)
    (main_source : option source_config)
    (sources_to_scrape completed : list source_config)
    (main_articles : list article) :
  (scrape_main E main_source).2 = Returned main_articles →
  ∃ out, (scrape_all_sources E min_articles max_articles main_source
            sources_to_scrape completed).2 = Returned out.
Proof.
  intros Hm. unfold scrape_all_sources.
  pose proof (unique_articles_result main_source sources_to_scrape completed)
    as Hu.
  rewrite gather_result, Hm in Hu.
  rewrite (bind_returned _ _ _ Hu).
  rewrite log_bind.
  erewrite bind_returned by reflexivity.
  rewrite bound_articles_unfold. eexists. reflexivity.
Qed.

(** When the main source raises, so does the run. *)
Lemma scrape_all_sources_raises (min_articles max_articles : Z)
    (main_source : option source_config)
    (sources_to_scrape completed : list source_config) (e : exn) :
  (scrape_main E main_source).2 = Raised e →
  (scrape_all_sources E min_articles max_articles main_source
     sources_to_scrape completed).2 = Raised e.
Proof.
  intros Hm. unfold scrape_all_sources. apply bind_raised.
  by rewrite unique_articles_result, gather_result, Hm.
Qed.

End Gather.

(** The loop of [extract.py] guards every source, so that run returns
    whatever its extractors do. *)
Lemma extract_scrape_main_sources_returns
    (sources : list (str * M (list article))) :
  ∀ all_articles,
    ∃ out, (Extract.scrape_main_sources sources all_articles).2 = Returned out.
Proof.
  induction sources as [|[u call] rest IH]; intros all_articles; simpl.
  - by eexists.
  - match goal with
    | |- ∃ out, (catch ?m ?h ≫= _).2 = _ =>
        destruct (m.2) as [l|e] eqn:Hm;
        [ pose proof (catch_returned m h _ Hm) as Hc
        | pose proof (catch_raised m h _ Hm) as Hc; simpl in Hc ]
    end; rewrite (bind_returned _ _ _ Hc); apply IH.
Qed.

Lemma extract_scrape_all_sources_returns (min_articles max_articles : Z)
    (sources : list (str * M (list article)))
    (rss_articles : list article) :
  ∃ out, (Extract.scrape_all_sources min_articles max_articles sources
            rss_articles).2 = Returned out.
Proof.
  unfold Extract.scrape_all_sources.
  destruct (extract_scrape_main_sources_returns sources []) as [l Hl].
  rewrite (bind_returned _ _ _ Hl).
  rewrite log_bind.
  rewrite bound_articles_same, bound_articles_unfold. eexists. reflexivity.
Qed.

(** ** The order of completion *)

(** C2, as the claim states it, fails: nothing sorts the batches back into
    the order of the descriptors.  Two sources link to the same URL under
    two titles; when the AI page completes first its record survives, when
    the tech-sector page completes first the other one does, and the two
    runs return different results. *)
Lemma completion_order_changes_result :
  (FtScraper.unique_articles Sample.two_views None
     [Sample.ft_ai; Sample.ft_tech_sector]
     [Sample.ft_ai; Sample.ft_tech_sector]).2 = Returned [Sample.r1]
  ∧ (FtScraper.unique_articles Sample.two_views None
       [Sample.ft_ai; Sample.ft_tech_sector]
       [Sample.ft_tech_sector; Sample.ft_ai]).2 = Returned [Sample.r1']
  ∧ (FtScraper.scrape_all_sources Sample.two_views 50 150 None
       [Sample.ft_ai; Sample.ft_tech_sector]
       [Sample.ft_ai; Sample.ft_tech_sector]).2 = Returned [Sample.r1]
  ∧ (FtScraper.scrape_all_sources Sample.two_views 50 150 None
       [Sample.ft_ai; Sample.ft_tech_sector]
       [Sample.ft_tech_sector; Sample.ft_ai]).2 = Returned [Sample.r1']
  ∧ Sample.r1 ≠ Sample.r1'.
Proof. repeat split; by vm_compute. Qed.

(** C2, amended: the batches are merged in the order of completion.  For a
    fixed list of sources and fixed answers of the sources, any two orders
    of completion give deduplicated outputs with the same URLs, each once
    (so with the same number of records); which record stands for a URL and
    where it stands depend on the order of completion.  A failure of the
    main source ends both runs with the same exception. *)
Theorem unique_urls_any_completion_order (E : env)
    (main_source : option source_config)
    (sources_to_scrape completed1 completed2 : list source_config) :
  completed1 ≡ₚ sources_to_scrape →
  completed2 ≡ₚ sources_to_scrape →
  match (FtScraper.unique_articles E main_source sources_to_scrape completed1).2,
        (FtScraper.unique_articles E main_source sources_to_scrape completed2).2
  with
  | Returned l1, Returned l2 =>
      NoDup (url <$> l1) ∧ NoDup (url <$> l2) ∧ url <$> l1 ≡ₚ url <$> l2
  | Raised e1, Raised e2 => e1 = e2
  | _, _ => False
  end.
Proof.
  intros H1 H2. rewrite !unique_articles_result, !gather_result.
  destruct (FtScraper.scrape_main E main_source).2 as [m|e]; [|done].
  assert (Hnd : ∀ l, NoDup (url <$> remove_duplicates l)).
  { intros l. rewrite remove_duplicates_dedup_from. apply dedup_from_urls. }
  split; [apply Hnd|]. split; [apply Hnd|].
  apply NoDup_Permutation; [apply Hnd | apply Hnd |].
  intros x. rewrite !remove_duplicates_urls.
  destruct sources_to_scrape as [|sc rest]; [done|].
  assert (Hp : mjoin (FtScraper.task_result E <$> completed1)
               ≡ₚ mjoin (FtScraper.task_result E <$> completed2)).
  { by rewrite H1, H2. }
  by rewrite Hp.
Qed.

Lemma unique_urls_any_completion_order_witness :
  NoDup (url <$> [Sample.r1]) ∧ NoDup (url <$> [Sample.r1'])
  ∧ url <$> [Sample.r1] ≡ₚ url <$> [Sample.r1'].
Proof.
  pose proof (unique_urls_any_completion_order Sample.two_views None
                [Sample.ft_ai; Sample.ft_tech_sector]
                [Sample.ft_ai; Sample.ft_tech_sector]
                [Sample.ft_tech_sector; Sample.ft_ai]
                (reflexivity _) (perm_swap _ _ _)) as H.
  vm_compute in H. exact H.
Defined.

(** ** Failing sources *)

(** C6 at the failing input: the page of the main source is fetched and the
    parser rejects its markup.  The call for the main source stands outside
    any [try], so the exception leaves [scrape_all_sources]; the same page
    in a task of the pool costs that task its records and nothing else. *)
Theorem main_source_failure_propagates :
  (FtScraper.scrape_all_sources Sample.rejected_markup 50 150
     (Some Sample.ft_technology)
     [Sample.ft_ai; Sample.ft_tech_sector]
     [Sample.ft_tech_sector; Sample.ft_ai]).2 = Raised ParserRejectedMarkup
  ∧ (FtScraper.scrape_source_parallel Sample.rejected_markup Sample.ft_ai).2
    = Returned []
  ∧ (FtScraper.scrape_all_sources Sample.rejected_markup 50 150 None
       [Sample.ft_ai; Sample.ft_tech_sector]
       [Sample.ft_tech_sector; Sample.ft_ai]).2 = Returned [].
Proof. repeat split; by vm_compute. Qed.

(** * Further properties *)

(** ** Deduplication, continued *)

Lemma dedup_from_NoDup (l : list article) :
  ∀ seen, NoDup (url <$> l) → (∀ u, u ∈ url <$> l → u ∉ seen) →
          dedup_from seen l = l.
Proof.
  induction l as [|a l IH]; intros seen Hnd Hfresh; simpl; [done|].
  simpl in Hnd. apply NoDup_cons in Hnd as [Ha Hnd].
  rewrite decide_True by (apply Hfresh; simpl; by left).
  f_equal. apply IH; [done|].
  intros u Hu.
  assert (u ≠ url a) by (intros ->; done).
  assert (u ∉ seen) by (apply Hfresh; simpl; by right).
  set_solver.
Qed.

Lemma dedup_from_filter (l : list article) (old : list str) :
  ∀ seen : gset str,
    dedup_from (list_to_set old ∪ seen) l
    = dedup_from seen (filter (λ a, url a ∉ old) l).
Proof.
  induction l as [|a l IH]; intros seen; simpl; [done|].
  destruct (decide (url a ∈ old)) as [Hold|Hold].
  - rewrite decide_False by set_solver.
    rewrite filter_cons_False by (intros ?; done). apply IH.
  - rewrite filter_cons_True by done. simpl.
    destruct (decide (url a ∉ seen)) as [Hs|Hs].
    + rewrite decide_True by set_solver. f_equal. rewrite <- IH.
      f_equal. set_solver.
    + rewrite decide_False by set_solver. apply IH.
Qed.

Lemma remove_duplicates_app_filter (l1 l2 : list article) :
  remove_duplicates (l1 ++ l2)
  = remove_duplicates l1
    ++ remove_duplicates (filter (λ a, url a ∉ url <$> l1) l2).
Proof.
  rewrite !remove_duplicates_dedup_from, dedup_from_app. f_equal.
  rewrite <- dedup_from_filter. f_equal. set_solver.
Qed.

(** X1. The deduplicated list has as many records as the input has
    distinct URLs. *)
Theorem remove_duplicates_length (all_articles : list article) :
  length (remove_duplicates all_articles)
  = size (list_to_set (url <$> all_articles) : gset str).
Proof.
  assert (Hset : (list_to_set (url <$> all_articles) : gset str)
                 = list_to_set (url <$> remove_duplicates all_articles)).
  { apply set_eq. intros u.
    by rewrite !elem_of_list_to_set, remove_duplicates_urls. }
  rewrite Hset, size_list_to_set, length_fmap; [done|].
  rewrite remove_duplicates_dedup_from. apply dedup_from_urls.
Qed.

(** X2. A list in which no two records share a URL passes deduplication
    unchanged. *)
Theorem remove_duplicates_distinct (all_articles : list article) :
  NoDup (url <$> all_articles) →
  remove_duplicates all_articles = all_articles.
Proof.
  intros Hnd. rewrite remove_duplicates_dedup_from.
  apply dedup_from_NoDup; [done | set_solver].
Qed.

Lemma remove_duplicates_distinct_witness :
  remove_duplicates [Sample.r1; Sample.r2; Sample.r3]
  = [Sample.r1; Sample.r2; Sample.r3].
Proof.
  apply (remove_duplicates_distinct [Sample.r1; Sample.r2; Sample.r3]).
  apply (bool_decide_unpack _). vm_compute. exact I.
Defined.

(** X3. Records gathered earlier take precedence: deduplicating a list
    followed by another gives the deduplicated first list, followed by the
    deduplicated records of the second whose URL the first does not hold. *)
Theorem remove_duplicates_app (l1 l2 : list article) :
  remove_duplicates (l1 ++ l2)
  = remove_duplicates l1
    ++ remove_duplicates (filter (λ a, url a ∉ url <$> l1) l2).
Proof. apply remove_duplicates_app_filter. Qed.

(** ** The relevance filter, continued *)

Lemma contains_trans (k k' s : str) :
  PyStr.contains k k' = true → PyStr.contains k' s = true →
  PyStr.contains k s = true.
Proof.
  rewrite !PyStrFacts.contains_spec.
  intros (p1 & q1 & ->) (p2 & q2 & ->).
  exists (p2 +:+ p1), (q1 +:+ q2).
  by rewrite !PyStrFacts.app_assoc.
Qed.

Section RelevanceFilterMore.

Variable keywords : list str.
Variable required_prefix : str.

(** X4. A record is kept or dropped on its own: the filter of a list
    followed by another is the filter of the first followed by the filter of
    the second, and filtering twice is filtering once. *)
Theorem filter_articles_with_app (l1 l2 : list article) :
  filter_articles_with keywords required_prefix (l1 ++ l2)
  = filter_articles_with keywords required_prefix l1
    ++ filter_articles_with keywords required_prefix l2
  ∧ filter_articles_with keywords required_prefix
      (filter_articles_with keywords required_prefix l1)
    = filter_articles_with keywords required_prefix l1.
Proof.
  rewrite !filter_articles_with_filter. split; [apply filter_app|].
  induction l1 as [|a l IH]; [done|].
  destruct (retained keywords required_prefix a) eqn:Ha.
  - rewrite filter_cons_True by done.
    rewrite filter_cons_True by done. by rewrite IH.
  - rewrite filter_cons_False by (by rewrite Ha). apply IH.
Qed.

(** X5. The keywords are looked for in lower-cased text, so a keyword that
    is not itself lower-case never matches: the table may as well hold its
    lower-case keywords only. *)
Theorem is_relevant_lower_keywords (a : article) :
  is_relevant keywords a
  = is_relevant (filter (λ k, PyStr.lower k = k) keywords) a.
Proof.
  unfold is_relevant. induction keywords as [|k ks IH]; [done|].
  simpl. destruct (decide (PyStr.lower k = k)) as [Hk|Hk].
  - rewrite filter_cons_True by done. simpl. by rewrite IH.
  - rewrite filter_cons_False by done. rewrite IH.
    destruct (PyStr.contains k (PyStr.lower (title a))) eqn:Ht.
    { by apply CaseFacts.contains_lower_is_lower in Ht. }
    destruct (PyStr.contains k (PyStr.lower (summary a))) eqn:Hs.
    { by apply CaseFacts.contains_lower_is_lower in Hs. }
    done.
Qed.

(** X6. A keyword that contains another keyword of the table is redundant:
    the text that holds the longer one holds the shorter one. *)
Theorem is_relevant_redundant_keyword (k k' : str) (a : article) :
  k ∈ keywords → PyStr.contains k k' = true →
  is_relevant (k' :: keywords) a = is_relevant keywords a.
Proof.
  intros Hk Hsub. unfold is_relevant. simpl.
  destruct (existsb _ keywords) eqn:Hex; [by rewrite orb_true_r|].
  rewrite orb_false_r. apply not_true_is_false. intros Hk'.
  apply not_true_iff_false in Hex. apply Hex.
  apply existsb_exists. exists k. split; [by apply list_elem_of_In|].
  apply orb_true_iff in Hk' as [Ht|Hs]; apply orb_true_iff.
  - left. by apply (contains_trans k k').
  - right. by apply (contains_trans k k').
Qed.

End RelevanceFilterMore.

Lemma is_relevant_redundant_keyword_witness :
  is_relevant ("technology" :: ["tech"; "ai"]) Sample.r2
  = is_relevant ["tech"; "ai"] Sample.r2.
Proof.
  apply (is_relevant_redundant_keyword ["tech"; "ai"] "tech" "technology").
  - apply (bool_decide_unpack _). vm_compute. exact I.
  - reflexivity.
Defined.

(** ** The bounding stage, continued *)

(** X7. Whatever the bounds, also a negative maximum, the bounding stage
    returns a prefix of its input and never raises; with a negative maximum
    it returns the input without its last [-max_articles] records. *)
Theorem bound_articles_prefix (min_articles max_articles : Z)
    (l : list article) :
  (∃ tr, FtScraper.bound_articles min_articles max_articles l
         = (tr, Returned (limited max_articles l))
         ∧ Extract.bound_articles min_articles max_articles l
           = (tr, Returned (limited max_articles l)))
  ∧ limited max_articles l `prefix_of` l
  ∧ (max_articles < 0 →
     limited max_articles l
     = take (length l - Z.to_nat (- max_articles)) l).
Proof.
  split; [|split].
  - eexists. split; exact (bound_articles_unfold _ _ _).
  - unfold limited, slice_to.
    destruct (llen l >? max_articles); [|done].
    destruct (0 <=? max_articles); apply prefix_take.
  - intros Hneg. unfold limited, slice_to, llen.
    rewrite (proj2 (Z.gtb_gt _ _)) by lia.
    rewrite (proj2 (Z.leb_gt _ _)) by lia. f_equal. lia.
Qed.

Lemma bound_articles_prefix_witness :
  limited (-2) [Sample.r1; Sample.r2; Sample.r3] = [Sample.r1].
Proof.
  apply (bound_articles_prefix 0 (-2) [Sample.r1; Sample.r2; Sample.r3]).
  reflexivity.
Defined.

(** ** The retrying fetch, continued *)

Lemma sleeps_app (t1 t2 : list event) :
  sleeps (t1 ++ t2) = (sleeps t1 + sleeps t2)%nat.
Proof. unfold sleeps. by rewrite filter_app, length_app. Qed.

Lemma selenium_gets_app (t1 t2 : list event) :
  selenium_gets (t1 ++ t2) = (selenium_gets t1 + selenium_gets t2)%nat.
Proof. unfold selenium_gets. by rewrite filter_app, length_app. Qed.

Lemma session_gets_cons (ev : event) (t : list event) :
  session_gets (ev :: t)
  = ((if is_SessionGet ev then 1 else 0) + session_gets t)%nat.
Proof. unfold session_gets. by destruct ev. Qed.

Lemma selenium_gets_cons (ev : event) (t : list event) :
  selenium_gets (ev :: t)
  = ((if is_SeleniumGet ev then 1 else 0) + selenium_gets t)%nat.
Proof. unfold selenium_gets. by destruct ev. Qed.

Lemma sleeps_cons (ev : event) (t : list event) :
  sleeps (ev :: t) = ((if is_Sleep ev then 1 else 0) + sleeps t)%nat.
Proof. unfold sleeps. by destruct ev. Qed.

Lemma warnings_app (t1 t2 : list event) :
  warnings (t1 ++ t2) = warnings t1 ++ warnings t2.
Proof. apply omap_app. Qed.

Lemma errors_app (t1 t2 : list event) :
  errors (t1 ++ t2) = errors t1 ++ errors t2.
Proof. apply omap_app. Qed.

Lemma bind_trace {A B} (m : M A) (k : A → M B) (a : A) :
  m.2 = Returned a → (m ≫= k).1 = m.1 ++ (k a).1.
Proof. unfold mbind, M_bind, bind. by intros ->. Qed.

Lemma backoffs_app (t1 t2 : list event) :
  backoffs (t1 ++ t2) = (backoffs t1 + backoffs t2)%nat.
Proof. unfold backoffs. by rewrite filter_app, length_app. Qed.

Lemma backoffs_cons (ev : event) (t : list event) :
  backoffs (ev :: t) = ((if is_backoff ev then 1 else 0) + backoffs t)%nat.
Proof.
  unfold backoffs. destruct (is_backoff ev) eqn:Hev.
  - by rewrite filter_cons_True.
  - rewrite filter_cons_False; [done | by rewrite Hev].
Qed.

Lemma fetch_errors_app (t1 t2 : list event) :
  fetch_errors (t1 ++ t2) = fetch_errors t1 ++ fetch_errors t2.
Proof. unfold fetch_errors. by rewrite errors_app, filter_app. Qed.

Section FetchMore.

Import FtScraper.

Variable E : env.
Variable u : str.

(** What the trace of one attempt holds. *)
Lemma attempt_body_trace (use_selenium : bool) (k : nat) :
  (session_gets (attempt_body E u use_selenium k).1 ≤ 1)%nat
  ∧ selenium_gets (attempt_body E u use_selenium k).1
    = (if use_selenium then 1 else 0)%nat
  ∧ backoffs (attempt_body E u use_selenium k).1 = 0%nat
  ∧ (sleeps (attempt_body E u use_selenium k).1
     ≤ if use_selenium then 1 else 0)%nat
  ∧ warnings (attempt_body E u use_selenium k).1 = []
  ∧ fetch_errors (attempt_body E u use_selenium k).1 = []
  ∧ (use_selenium = false →
     sleeps (attempt_body E u use_selenium k).1 = 0%nat
     ∧ errors (attempt_body E u use_selenium k).1 = []).
Proof.
  rewrite attempt_body_unfold, get_page_with_selenium_unfold.
  unfold page_source.
  destruct use_selenium; simpl;
    [destruct (driver E); simpl;
     [destruct (driver_get E u k) as [[]|e]; simpl;
      [destruct (driver_page_source E u k) as [[|c page]|e]; simpl|]|]|];
    repeat split; try reflexivity; try discriminate; cbv; lia.
Qed.

Lemma get_page_loop_requests (use_selenium : bool) (max_retries : Z)
    (attempts : list nat) :
  (session_gets (get_page_loop E u use_selenium max_retries attempts).1
   ≤ length attempts)%nat
  ∧ (selenium_gets (get_page_loop E u use_selenium max_retries attempts).1
     ≤ (if use_selenium then 1 else 0) * length attempts)%nat.
Proof.
  induction attempts as [|i rest [IHs IHb]];
    [split; [done | by rewrite Nat.mul_0_r]|].
  destruct (attempt_body_trace use_selenium i) as (Hs & Hb & _).
  revert Hb IHb. generalize (if use_selenium then 1 else 0)%nat.
  intros c Hb IHb.
  destruct (attempt_body E u use_selenium i).2 as [r|e] eqn:Hi.
  - rewrite (get_page_loop_returned _ _ _ _ _ _ _ Hi). simpl.
    rewrite Hb. split; lia.
  - rewrite (get_page_loop_raised _ _ _ _ _ _ _ Hi).
    destruct (is_RequestException e);
      [destruct (Z.of_nat i <? max_retries - 1)|]; cbn [fst];
      rewrite session_gets_app, selenium_gets_app, Hb,
        ?session_gets_cons, ?selenium_gets_cons; cbn [is_SessionGet
        is_SeleniumGet length];
      change (session_gets []) with 0%nat;
      change (selenium_gets []) with 0%nat;
      split; lia.
Qed.

Lemma get_page_loop_sleeps (use_selenium : bool) (max_retries : Z) :
  ∀ m i, (i + m = Z.to_nat max_retries)%nat →
    (backoffs (get_page_loop E u use_selenium max_retries (seq i m)).1
     ≤ m - 1)%nat
    ∧ (sleeps (get_page_loop E u use_selenium max_retries (seq i m)).1
       ≤ (m - 1) + (if use_selenium then 1 else 0) * m)%nat.
Proof.
  intros m. induction m as [|m IH]; intros i Him;
    [split; apply Nat.le_0_l|].
  rewrite <- cons_seq.
  destruct (attempt_body_trace use_selenium i) as (_ & _ & Hb & Hz & _).
  revert Hz IH. generalize (if use_selenium then 1 else 0)%nat.
  intros c Hz IH.
  destruct (attempt_body E u use_selenium i).2 as [r|e] eqn:Hi.
  - rewrite (get_page_loop_returned _ _ _ _ _ _ _ Hi). rewrite Hb. lia.
  - rewrite (get_page_loop_raised _ _ _ _ _ _ _ Hi).
    destruct (is_RequestException e);
      [destruct (Z.ltb_spec (Z.of_nat i) (max_retries - 1)) as [Hlt|Hge]|];
      cbn [fst]; rewrite backoffs_app, sleeps_app, Hb,
        ?backoffs_cons, ?sleeps_cons; cbn [is_backoff is_Sleep];
      change (backoffs []) with 0%nat; change (sleeps []) with 0%nat;
      [destruct (IH (S i)) as [IH1 IH2]; [lia|]; simpl; lia
      | simpl; lia | simpl; lia].
Qed.

(** Without the browser every sleep is a back-off and every error is one
    of the fetch. *)
Lemma get_page_loop_plain (max_retries : Z) (attempts : list nat) :
  sleeps (get_page_loop E u false max_retries attempts).1
  = backoffs (get_page_loop E u false max_retries attempts).1
  ∧ errors (get_page_loop E u false max_retries attempts).1
    = fetch_errors (get_page_loop E u false max_retries attempts).1.
Proof.
  induction attempts as [|i rest [IHs IHe]]; [by split|].
  destruct (attempt_body_trace false i) as (_ & _ & Hb & _ & _ & Hf & Hp).
  destruct (Hp eq_refl) as [Hz He].
  destruct (attempt_body E u false i).2 as [r|e] eqn:Hi.
  - rewrite (get_page_loop_returned _ _ _ _ _ _ _ Hi).
    by rewrite Hz, Hb, He, Hf.
  - rewrite (get_page_loop_raised _ _ _ _ _ _ _ Hi).
    destruct (is_RequestException e);
      [destruct (Z.of_nat i <? max_retries - 1)|]; cbn [fst];
      rewrite sleeps_app, backoffs_app, errors_app, fetch_errors_app,
        Hz, Hb, He, Hf, ?sleeps_cons, ?backoffs_cons; cbn [is_Sleep is_backoff];
      simpl; unfold fetch_errors; simpl; rewrite ?IHs; split; done.
Qed.

Lemma get_page_loop_success (use_selenium : bool) (max_retries : Z)
    (k : nat) (r : option str) :
  (attempt_body E u use_selenium k).2 = Returned r →
  (∀ j, (j < k)%nat → raises_RequestException E u use_selenium j) →
  ∀ m i, (i ≤ k < i + m)%nat → (i + m = Z.to_nat max_retries)%nat →
    (get_page_loop E u use_selenium max_retries (seq i m)).2 = Returned r
    ∧ backoffs (get_page_loop E u use_selenium max_retries (seq i m)).1
      = (k - i)%nat
    ∧ length (warnings
                (get_page_loop E u use_selenium max_retries (seq i m)).1)
      = (k - i)%nat
    ∧ fetch_errors (get_page_loop E u use_selenium max_retries (seq i m)).1
      = [].
Proof.
  intros Hk Hbefore m.
  induction m as [|m IH]; intros i Hik Him; [lia|].
  rewrite <- cons_seq. destruct (decide (i = k)) as [->|Hne].
  - rewrite (get_page_loop_returned _ _ _ _ _ _ _ Hk).
    destruct (attempt_body_trace use_selenium k)
      as (_ & _ & Hb & _ & Hw & Hf & _).
    rewrite Hb, Hw, Hf, Nat.sub_diag. by repeat split.
  - destruct (Hbefore i) as (e & He & Hreq); [lia|].
    rewrite (get_page_loop_raised _ _ _ _ _ _ _ He), Hreq.
    rewrite (proj2 (Z.ltb_lt (Z.of_nat i) (max_retries - 1))) by lia.
    cbn [fst snd].
    destruct (IH (S i)) as (Hres & Hba & Hwa & Hfe); [lia | lia |].
    destruct (attempt_body_trace use_selenium i)
      as (_ & _ & Hb & _ & Hw & Hf & _).
    split; [done|].
    rewrite backoffs_app, warnings_app, fetch_errors_app, Hb, Hw, Hf,
      !backoffs_cons. cbn [is_backoff]. simpl.
    unfold fetch_errors at 1. simpl. fold (fetch_errors
      (get_page_loop E u use_selenium max_retries (seq (S i) m)).1).
    rewrite Hba, Hwa, Hfe. repeat split; lia.
Qed.

Lemma get_page_loop_exhausted (use_selenium : bool) (max_retries : Z) :
  (∀ k, (k < Z.to_nat max_retries)%nat →
        raises_RequestException E u use_selenium k) →
  ∀ m i, (0 < m)%nat → (i + m = Z.to_nat max_retries)%nat →
    backoffs (get_page_loop E u use_selenium max_retries (seq i m)).1
    = (m - 1)%nat
    ∧ length (warnings
                (get_page_loop E u use_selenium max_retries (seq i m)).1)
      = m
    ∧ fetch_errors (get_page_loop E u use_selenium max_retries (seq i m)).1
      = [AllAttemptsFailed u].
Proof.
  intros Hfail m. induction m as [|m IH]; intros i Hm Him; [lia|].
  destruct (Hfail i) as (e & He & Hreq); [lia|].
  rewrite <- cons_seq, (get_page_loop_raised _ _ _ _ _ _ _ He), Hreq.
  destruct (attempt_body_trace use_selenium i)
    as (_ & _ & Hb & _ & Hw & Hf & _).
  destruct (Z.ltb_spec (Z.of_nat i) (max_retries - 1)) as [Hlt|Hge];
    cbn [fst snd];
    rewrite backoffs_app, warnings_app, fetch_errors_app, Hb, Hw, Hf,
      !backoffs_cons; cbn [is_backoff]; simpl.
  - destruct (IH (S i)) as (Hba & Hwa & Hfe); [lia | lia |].
    unfold fetch_errors at 1. simpl. fold (fetch_errors
      (get_page_loop E u use_selenium max_retries (seq (S i) m)).1).
    rewrite Hba, Hwa, Hfe. repeat split; lia.
  - assert (m = 0%nat) as -> by lia. by repeat split.
Qed.

End FetchMore.

(** X8. Whatever the network and the browser answer, [get_page_content]
    asks the session at most [max_retries] times, calls the browser at
    most [max_retries] times and not at all without [use_selenium], and
    backs off, [time.sleep(random.uniform(1, 3))], at most
    [max_retries - 1] times; counting the two seconds each call of the
    browser may sleep, it sleeps at most [max_retries - 1] times without
    [use_selenium] and [2 * max_retries - 1] times with it.  With a
    [max_retries] of zero or less it does nothing and returns [None]. *)
Theorem get_page_content_effort (E : env) (u : str) (use_selenium : bool)
    (max_retries : Z) :
  (session_gets (FtScraper.get_page_content E u use_selenium max_retries).1
   ≤ Z.to_nat max_retries)%nat
  ∧ (selenium_gets (FtScraper.get_page_content E u use_selenium max_retries).1
     ≤ if use_selenium then Z.to_nat max_retries else 0)%nat
  ∧ (backoffs (FtScraper.get_page_content E u use_selenium max_retries).1
     ≤ Z.to_nat max_retries - 1)%nat
  ∧ (sleeps (FtScraper.get_page_content E u use_selenium max_retries).1
     ≤ (Z.to_nat max_retries - 1)
       + if use_selenium then Z.to_nat max_retries else 0)%nat
  ∧ (max_retries ≤ 0 →
     FtScraper.get_page_content E u use_selenium max_retries
     = ([], Returned None)).
Proof.
  unfold FtScraper.get_page_content, range.
  destruct (get_page_loop_requests E u use_selenium max_retries
              (seq 0 (Z.to_nat max_retries))) as [Hs Hb].
  rewrite length_seq in Hs, Hb.
  destruct (get_page_loop_sleeps E u use_selenium max_retries
              (Z.to_nat max_retries) 0%nat) as [Hba Hsl]; [done|].
  split; [done|]. split; [destruct use_selenium; lia|].
  split; [done|]. split; [destruct use_selenium; lia|].
  intros Hn. by rewrite Z2Nat.nonpos.
Qed.

(** X9. When the attempts before number [k] fail with a
    [RequestException] and attempt [k] returns, [get_page_content] returns
    what that attempt returned, having backed off once after each failed
    attempt and logged one warning for each; the fetch itself logs no
    error.  Without [use_selenium] these are all the sleeps and there is
    no error at all; with it, each call of the browser may sleep two
    seconds or log an error of its own. *)
Theorem get_page_content_retry_succeeds (E : env) (u : str)
    (use_selenium : bool) (max_retries : Z) (k : nat) (r : option str) :
  (k < Z.to_nat max_retries)%nat →
  (∀ j, (j < k)%nat → FtScraper.raises_RequestException E u use_selenium j) →
  (FtScraper.attempt_body E u use_selenium k).2 = Returned r →
  (FtScraper.get_page_content E u use_selenium max_retries).2 = Returned r
  ∧ backoffs (FtScraper.get_page_content E u use_selenium max_retries).1 = k
  ∧ length (warnings
              (FtScraper.get_page_content E u use_selenium max_retries).1) = k
  ∧ fetch_errors (FtScraper.get_page_content E u use_selenium max_retries).1
    = []
  ∧ (use_selenium = false →
     sleeps (FtScraper.get_page_content E u use_selenium max_retries).1 = k
     ∧ errors (FtScraper.get_page_content E u use_selenium max_retries).1
       = []).
Proof.
  intros Hk Hbefore Hr. unfold FtScraper.get_page_content, range.
  destruct (get_page_loop_success E u use_selenium max_retries k r Hr Hbefore
              (Z.to_nat max_retries) 0%nat) as (H1 & H2 & H3 & H4);
    [lia | lia |].
  rewrite Nat.sub_0_r in H2, H3. repeat split; try done.
  - subst use_selenium.
    by rewrite (proj1 (get_page_loop_plain E u max_retries _)).
  - subst use_selenium.
    by rewrite (proj2 (get_page_loop_plain E u max_retries _)).
Qed.

Lemma get_page_content_retry_succeeds_witness :
  (FtScraper.get_page_content Fixture.failing_browser "u" true 3).2
  = Returned (Some "<html>")
  ∧ backoffs (FtScraper.get_page_content Fixture.failing_browser "u" true 3).1
    = 2%nat
  ∧ length (warnings (FtScraper.get_page_content Fixture.failing_browser
                        "u" true 3).1) = 2%nat
  ∧ fetch_errors (FtScraper.get_page_content Fixture.failing_browser
                    "u" true 3).1 = []
  ∧ (true = false →
     sleeps (FtScraper.get_page_content Fixture.failing_browser "u" true 3).1
     = 2%nat
     ∧ errors (FtScraper.get_page_content Fixture.failing_browser
                 "u" true 3).1 = []).
Proof.
  apply (get_page_content_retry_succeeds Fixture.failing_browser "u" true 3
           2 (Some "<html>")).
  - simpl. lia.
  - intros j Hj. exists Timeout.
    destruct j as [|[|j]]; [by split | by split | lia].
  - reflexivity.
Defined.

(** The same run in full: the browser fails at each attempt and logs its
    error, the session is asked each time, and the third request answers. *)
Example get_page_content_browser_errors :
  FtScraper.get_page_content Fixture.failing_browser "u" true 3
  = ([SeleniumGet "u"; Log ERROR (SeleniumError "u" WebDriverException);
      SessionGet "u"; Log WARNING (AttemptFailed 1 "u" Timeout); Sleep 1 3;
      SeleniumGet "u"; Log ERROR (SeleniumError "u" WebDriverException);
      SessionGet "u"; Log WARNING (AttemptFailed 2 "u" Timeout); Sleep 1 3;
      SeleniumGet "u"; Log ERROR (SeleniumError "u" WebDriverException);
      SessionGet "u"],
     Returned (Some "<html>")).
Proof. reflexivity. Qed.

(** Without the browser, the run that succeeds at the third attempt. *)
Example get_page_content_plain_retry :
  FtScraper.get_page_content Fixture.third_time_lucky "u" false 3
  = ([SessionGet "u"; Log WARNING (AttemptFailed 1 "u" Timeout); Sleep 1 3;
      SessionGet "u"; Log WARNING (AttemptFailed 2 "u" Timeout); Sleep 1 3;
      SessionGet "u"],
     Returned (Some "<html>")).
Proof. reflexivity. Qed.

(** X10. When every attempt fails with a [RequestException] and
    [max_retries] is at least 1, [get_page_content] backs off between the
    attempts only, [max_retries - 1] times and not after the last attempt,
    logs one warning for each attempt, and the fetch logs the one error
    that all attempts failed.  Without [use_selenium] these are all the
    sleeps and all the errors; with it, each call of the browser may sleep
    two seconds or log an error of its own. *)
Theorem get_page_content_exhausted (E : env) (u : str)
    (use_selenium : bool) (max_retries : Z) :
  1 ≤ max_retries →
  (∀ k, (k < Z.to_nat max_retries)%nat →
        FtScraper.raises_RequestException E u use_selenium k) →
  backoffs (FtScraper.get_page_content E u use_selenium max_retries).1
  = (Z.to_nat max_retries - 1)%nat
  ∧ length (warnings
              (FtScraper.get_page_content E u use_selenium max_retries).1)
    = Z.to_nat max_retries
  ∧ fetch_errors (FtScraper.get_page_content E u use_selenium max_retries).1
    = [AllAttemptsFailed u]
  ∧ (use_selenium = false →
     sleeps (FtScraper.get_page_content E u use_selenium max_retries).1
     = (Z.to_nat max_retries - 1)%nat
     ∧ errors (FtScraper.get_page_content E u use_selenium max_retries).1
       = [AllAttemptsFailed u]).
Proof.
  intros Hn Hfail. unfold FtScraper.get_page_content, range.
  destruct (get_page_loop_exhausted E u use_selenium max_retries Hfail
              (Z.to_nat max_retries) 0%nat) as (H1 & H2 & H3); [lia | lia |].
  repeat split; try done.
  - subst use_selenium.
    by rewrite (proj1 (get_page_loop_plain E u max_retries _)).
  - subst use_selenium.
    by rewrite (proj2 (get_page_loop_plain E u max_retries _)).
Qed.

Lemma get_page_content_exhausted_witness :
  backoffs (FtScraper.get_page_content Fixture.nothing_works "u" true 3).1
  = (Z.to_nat 3 - 1)%nat
  ∧ length (warnings (FtScraper.get_page_content Fixture.nothing_works
                        "u" true 3).1) = Z.to_nat 3
  ∧ fetch_errors (FtScraper.get_page_content Fixture.nothing_works
                    "u" true 3).1 = [AllAttemptsFailed "u"]
  ∧ (true = false →
     sleeps (FtScraper.get_page_content Fixture.nothing_works "u" true 3).1
     = (Z.to_nat 3 - 1)%nat
     ∧ errors (FtScraper.get_page_content Fixture.nothing_works "u" true 3).1
       = [AllAttemptsFailed "u"]).
Proof.
  apply (get_page_content_exhausted Fixture.nothing_works "u" true 3); [lia|].
  intros k _. exists ConnectionError. by split.
Defined.

(** The bounds on the sleeps are reached: a browser that renders an empty
    page sleeps its two seconds at each of the three attempts, and the two
    back-offs come between them. *)
Example get_page_content_sleeps_most :
  FtScraper.get_page_content Fixture.blank_browser "u" true 3
  = ([SeleniumGet "u"; Sleep 2 2; SessionGet "u";
      Log WARNING (AttemptFailed 1 "u" ConnectionError); Sleep 1 3;
      SeleniumGet "u"; Sleep 2 2; SessionGet "u";
      Log WARNING (AttemptFailed 2 "u" ConnectionError); Sleep 1 3;
      SeleniumGet "u"; Sleep 2 2; SessionGet "u";
      Log WARNING (AttemptFailed 3 "u" ConnectionError);
      Log ERROR (AllAttemptsFailed "u")],
     Returned None)
  ∧ sleeps (FtScraper.get_page_content Fixture.blank_browser "u" true 3).1
    = 5%nat
  ∧ backoffs (FtScraper.get_page_content Fixture.blank_browser "u" true 3).1
    = 2%nat.
Proof. by repeat split. Qed.

(** With the browser failing, the run that fails throughout logs one error
    of the browser for each attempt, and the error of the fetch last. *)
Example get_page_content_nothing_works :
  errors (FtScraper.get_page_content Fixture.nothing_works "u" true 3).1
  = [SeleniumError "u" WebDriverException;
     SeleniumError "u" WebDriverException;
     SeleniumError "u" WebDriverException;
     AllAttemptsFailed "u"].
Proof. reflexivity. Qed.

(** X11. With [use_selenium], a page rendered by the browser at the first
    attempt is returned as it is and the session is not asked at all. *)
Theorem get_page_content_browser_first (E : env) (u : str)
    (max_retries : Z) :
  1 ≤ max_retries →
  truthy (page_source E u 0) = true →
  FtScraper.get_page_content E u true max_retries
  = ([SeleniumGet u; Sleep 2 2], Returned (page_source E u 0)).
Proof.
  intros Hn Hpage. unfold FtScraper.get_page_content, range.
  destruct (Z.to_nat max_retries) as [|m] eqn:Hm; [lia|].
  rewrite <- cons_seq.
  assert (Ha : FtScraper.attempt_body E u true 0
               = ([SeleniumGet u; Sleep 2 2], Returned (page_source E u 0))).
  { rewrite attempt_body_unfold, get_page_with_selenium_unfold, Hpage.
    cbn [andb fst]. do 2 f_equal.
    unfold page_source in Hpage.
    destruct (driver E); [|discriminate].
    destruct (driver_get E u 0) as [[]|e]; [|discriminate].
    by destruct (driver_page_source E u 0). }
  rewrite (get_page_loop_returned E u true max_retries 0
             (seq 1 m) (page_source E u 0)); [done|].
  by rewrite Ha.
Qed.

Lemma get_page_content_browser_first_witness :
  FtScraper.get_page_content Fixture.rendered "https://www.ft.com/technology"
    true 3
  = ([SeleniumGet "https://www.ft.com/technology"; Sleep 2 2],
     Returned (Some "<html>https://www.ft.com/technology")).
Proof.
  apply (get_page_content_browser_first Fixture.rendered
           "https://www.ft.com/technology" 3); [lia | reflexivity].
Defined.

Lemma extract_attempt_body_unfold (E : env) (u : str) (use_selenium : bool) :
  Extract.attempt_body E u use_selenium
  = if use_selenium && truthy (page_source E u 0)
    then ((Extract.get_page_with_selenium E u 0).1,
          Returned (page_source E u 0))
    else ((if use_selenium then (Extract.get_page_with_selenium E u 0).1
           else []) ++ [SessionGet u],
          match response E u 0 with
          | Returned text => Returned (Some text)
          | Raised e => Raised e
          end).
Proof.
  assert (Hsel : (Extract.get_page_with_selenium E u 0).2
                 = Returned (page_source E u 0)).
  { unfold Extract.get_page_with_selenium, page_source, catch, log,
      mbind, M_bind, bind, mret, M_ret, ret, emit, lift.
    destruct (driver E); simpl; [|done].
    destruct (driver_get E u 0) as [[]|e]; simpl; [|done].
    by destruct (driver_page_source E u 0). }
  unfold Extract.attempt_body. destruct use_selenium.
  - destruct (Extract.get_page_with_selenium E u 0) as [tr r].
    simpl in Hsel. subst r.
    unfold mbind, M_bind, bind, mret, M_ret, ret, emit, lift. simpl.
    destruct (truthy (page_source E u 0)); simpl; [by rewrite app_nil_r|].
    by destruct (response E u 0).
  - unfold mbind, M_bind, bind, mret, M_ret, ret, emit, lift. simpl.
    by destruct (response E u 0).
Qed.

Lemma extract_get_page_with_selenium_trace (E : env) (u : str) :
  session_gets (Extract.get_page_with_selenium E u 0).1 = 0%nat
  ∧ fetch_errors (Extract.get_page_with_selenium E u 0).1 = [].
Proof.
  unfold Extract.get_page_with_selenium, catch, log,
    mbind, M_bind, bind, mret, M_ret, ret, emit, lift.
  destruct (driver E); simpl; [|done].
  destruct (driver_get E u 0) as [[]|e]; simpl; [|done].
  by destruct (driver_page_source E u 0).
Qed.

(** X12. The fetch of [extract.py] has no retry: it never raises, asks the
    session at most once, and a request that raises, whatever it raises,
    gives [None], the fetch logging that one error; without [use_selenium]
    it is the only error logged, with it the browser may have logged one
    of its own before. *)
Theorem extract_get_page_content_once (E : env) (u : str)
    (use_selenium : bool) :
  (∃ r, (Extract.get_page_content E u use_selenium).2 = Returned r)
  ∧ (session_gets (Extract.get_page_content E u use_selenium).1 ≤ 1)%nat
  ∧ (∀ e, (Extract.attempt_body E u use_selenium).2 = Raised e →
          (Extract.get_page_content E u use_selenium).2 = Returned None
          ∧ fetch_errors (Extract.get_page_content E u use_selenium).1
            = [ErrorFetching u e]
          ∧ last (errors (Extract.get_page_content E u use_selenium).1)
            = Some (ErrorFetching u e)
          ∧ (use_selenium = false →
             errors (Extract.get_page_content E u use_selenium).1
             = [ErrorFetching u e])).
Proof.
  unfold Extract.get_page_content, catch.
  destruct (extract_get_page_with_selenium_trace E u) as [Hs0 Hf0].
  rewrite extract_attempt_body_unfold.
  destruct (use_selenium && truthy (page_source E u 0)); cbn [fst snd].
  { split; [by eexists|]. split; [rewrite Hs0; lia|]. intros e [=]. }
  assert (Hpre :
    session_gets (if use_selenium
                  then (Extract.get_page_with_selenium E u 0).1 else [])
    = 0%nat
    ∧ fetch_errors (if use_selenium
                    then (Extract.get_page_with_selenium E u 0).1 else [])
      = []) by (by destruct use_selenium).
  destruct Hpre as [Hs Hf].
  destruct (response E u 0) as [text|e]; cbn [fst snd].
  { split; [by eexists|]. split; [|intros e [=]].
    rewrite session_gets_app, Hs. cbv. lia. }
  split; [by eexists|]. split.
  { rewrite !session_gets_app, Hs. cbv. lia. }
  intros e' [= <-]. split; [done|].
  unfold log, mbind, M_bind, bind, mret, M_ret, ret, emit. cbn [fst snd].
  rewrite !fetch_errors_app, !errors_app, Hf. split; [done|]. split.
  - change (errors [Log ERROR (ErrorFetching u e)] ++ errors [])
      with [ErrorFetching u e].
    by rewrite last_snoc.
  - by intros ->.
Qed.

(** The fetch of [extract.py] with the browser failing and the request
    failing: the error of the browser, then the error of the fetch. *)
Example extract_get_page_content_nothing_works :
  Extract.get_page_content Fixture.nothing_works "u" true
  = ([SeleniumGet "u"; Log ERROR (SeleniumError "u" WebDriverException);
      SessionGet "u"; Log ERROR (ErrorFetching "u" ConnectionError)],
     Returned None)
  ∧ Extract.get_page_content Fixture.nothing_works "u" false
    = ([SessionGet "u"; Log ERROR (ErrorFetching "u" ConnectionError)],
       Returned None).
Proof. by split. Qed.

(** ** Extraction *)

Section Extraction.

Import FtScraper.

Variable E : env.

(** The records [extract_ft_articles] builds from the elements of a page. *)
Local Abbreviation built source_name cat :=
  (omap (λ '(link, ttl, summ, dt),
           if PyStr.startswith link "https://www.ft.com/"
              && negb (PyStr.len ttl <? 10)
           then Some (Article source_name ttl link summ dt cat (now E))
           else None)).

Lemma extract_ft_articles_result (u source_name cat : str) :
  (extract_ft_articles E u source_name cat).2
  = match (get_page_content E u true 3).2 with
    | Returned content =>
        if truthy content then
          match select_elements E (default "" content) with
          | Returned elements => Returned (built source_name cat elements)
          | Raised e => Raised e
          end
        else Returned []
    | Raised e => Raised e
    end.
Proof.
  unfold extract_ft_articles. rewrite log_bind.
  destruct (get_page_content E u true 3).2 as [c|e] eqn:Hc.
  - rewrite (bind_returned _ _ _ Hc).
    destruct (truthy c); [|done]. simpl.
    by destruct (select_elements E (default "" c)).
  - by rewrite (bind_raised _ _ _ Hc).
Qed.

Lemma extract_ft_articles_trace (u source_name cat : str) :
  (extract_ft_articles E u source_name cat).1
  = Log INFO (Scraping source_name u) :: (get_page_content E u true 3).1.
Proof.
  unfold extract_ft_articles, log. rewrite emit_bind. simpl. f_equal.
  destruct (get_page_loop_result E u true 3 (range 3)) as (r & Hr & _).
  fold (get_page_content E u true 3) in Hr.
  rewrite (bind_trace _ _ _ Hr).
  destruct (truthy r); simpl; [|by rewrite app_nil_r].
  destruct (select_elements E (default "" r)); simpl; by rewrite app_nil_r.
Qed.

End Extraction.

(** X13. [extract_ft_articles] asks for the page with the default of three
    attempts: it never makes more than three requests, and a page that
    cannot be fetched, every attempt ending in a [RequestException], gives
    an empty list after exactly three requests, not an exception. *)
Theorem extract_ft_articles_unreachable (E : env) (u source_name cat : str) :
  (session_gets (FtScraper.extract_ft_articles E u source_name cat).1 ≤ 3)%nat
  ∧ ((∀ k, (k < 3)%nat → FtScraper.raises_RequestException E u true k) →
     (FtScraper.extract_ft_articles E u source_name cat).2 = Returned []
     ∧ session_gets (FtScraper.extract_ft_articles E u source_name cat).1
       = 3%nat).
Proof.
  rewrite extract_ft_articles_trace, session_gets_cons,
    extract_ft_articles_result. simpl.
  unfold FtScraper.get_page_content, range. split.
  - destruct (get_page_loop_requests E u true 3 (seq 0 (Z.to_nat 3)))
      as [Hs _]. exact Hs.
  - intros Hfail.
    destruct (get_page_loop_all_fail E u true 3 Hfail 3%nat 0%nat)
      as [Hres Hcount]; [done|].
    change (Z.to_nat 3) with 3%nat. by rewrite Hres, Hcount.
Qed.

(** X14. Every record [extract_ft_articles] returns bears the name and the
    category of its source, has a title of at least 10 characters and a URL
    under ['https://www.ft.com/']: on such records the two quality checks of
    [filter_articles] always pass and the filter decides on the keywords
    alone. *)
Theorem extract_ft_articles_wellformed (E : env) (u source_name cat : str)
    (articles : list article) (a : article) :
  (FtScraper.extract_ft_articles E u source_name cat).2 = Returned articles →
  a ∈ articles →
  source a = source_name ∧ category a = cat
  ∧ has_minimum_length a = true
  ∧ has_valid_url "https://www.ft.com/" a = true
  ∧ retained FtScraper.RELEVANT_KEYWORDS "https://www.ft.com/" a
    = is_relevant FtScraper.RELEVANT_KEYWORDS a.
Proof.
  rewrite extract_ft_articles_result. intros Hres Ha.
  assert (Hin : ∃ elements : list (str * str * str * str),
            a ∈ omap (λ '(link, ttl, summ, dt),
                        if PyStr.startswith link "https://www.ft.com/"
                           && negb (PyStr.len ttl <? 10)
                        then Some (Article source_name ttl link summ dt cat
                                     (now E))
                        else None) elements).
  { destruct (FtScraper.get_page_content E u true 3).2 as [c|e];
      [|discriminate].
    destruct (truthy c).
    - destruct (select_elements E (default "" c)) as [els|e];
        [|discriminate].
      exists els. by injection Hres as ->.
    - injection Hres as <-. by apply elem_of_nil in Ha. }
  destruct Hin as (els & Hin).
  apply list_elem_of_omap in Hin as ([[[link ttl] summ] dt] & _ & Hbuilt).
  destruct (PyStr.startswith link "https://www.ft.com/") eqn:Hlink;
    [|discriminate].
  destruct (PyStr.len ttl <? 10) eqn:Hlen; [discriminate|].
  injection Hbuilt as <-.
  assert (Hmin : has_minimum_length
                   (Article source_name ttl link summ dt cat (now E)) = true).
  { unfold has_minimum_length. simpl.
    apply Z.ltb_ge in Hlen. by apply Z.leb_le. }
  unfold retained, has_valid_url. rewrite Hmin. simpl. rewrite Hlink.
  by rewrite !andb_true_r.
Qed.

Lemma extract_ft_articles_wellformed_witness :
  source Sample.r1 = "Financial Times AI"
  ∧ category Sample.r1 = "Artificial Intelligence"
  ∧ has_minimum_length Sample.r1 = true
  ∧ has_valid_url "https://www.ft.com/" Sample.r1 = true
  ∧ retained FtScraper.RELEVANT_KEYWORDS "https://www.ft.com/" Sample.r1
    = is_relevant FtScraper.RELEVANT_KEYWORDS Sample.r1.
Proof.
  apply (extract_ft_articles_wellformed Fixture.third_time_lucky "u"
           "Financial Times AI" "Artificial Intelligence" [Sample.r1]).
  - reflexivity.
  - by left.
Defined.

(** ** The runs as a whole *)

Lemma limited_sublist (max_articles : Z) (l : list article) :
  limited max_articles l `sublist_of` l.
Proof.
  unfold limited, slice_to. destruct (llen l >? max_articles); [|done].
  destruct (0 <=? max_articles); apply sublist_take.
Qed.

Lemma limited_length (max_articles : Z) (l : list article) :
  0 ≤ max_articles → llen (limited max_articles l) ≤ max_articles.
Proof.
  intros Hmax. unfold limited, llen.
  destruct (Z.gtb_spec (Z.of_nat (length l)) max_articles); [|lia].
  rewrite slice_to_nonneg, length_take by done. lia.
Qed.

(** What holds of a list that went through deduplication, a filter and the
    cut. *)
Lemma pipeline_invariants (keywords : list str) (required_prefix : str)
    (max_articles : Z) (all_articles : list article) :
  let out :=
    limited max_articles
      (filter_articles_with keywords required_prefix
         (remove_duplicates all_articles)) in
  NoDup (url <$> out)
  ∧ (∀ a, a ∈ out → retained keywords required_prefix a = true)
  ∧ out `sublist_of` all_articles
  ∧ (0 ≤ max_articles → llen out ≤ max_articles).
Proof.
  intros out.
  assert (H1 : out `sublist_of`
                 filter_articles_with keywords required_prefix
                   (remove_duplicates all_articles))
    by apply limited_sublist.
  assert (H2 : filter_articles_with keywords required_prefix
                 (remove_duplicates all_articles)
               `sublist_of` remove_duplicates all_articles).
  { rewrite filter_articles_with_filter. apply sublist_filter. }
  assert (H3 : remove_duplicates all_articles `sublist_of` all_articles).
  { rewrite remove_duplicates_dedup_from. apply dedup_from_sublist. }
  split; [|split; [|split]].
  - apply (sublist_NoDup _ (url <$> remove_duplicates all_articles)).
    + rewrite remove_duplicates_dedup_from. apply dedup_from_urls.
    + apply fmap_sublist. by etrans.
  - intros a Ha. apply (sublist_subseteq _ _ H1) in Ha.
    rewrite filter_articles_with_filter in Ha.
    by apply list_elem_of_filter in Ha as [Ha _].
  - etrans; [exact H1|]. by etrans.
  - apply limited_length.
Qed.

Lemma scrape_all_sources_result (E : env) (min_articles max_articles : Z)
    (main_source : option source_config)
    (sources_to_scrape completed : list source_config) :
  (FtScraper.scrape_all_sources E min_articles max_articles main_source
     sources_to_scrape completed).2
  = match (FtScraper.scrape_main E main_source).2 with
    | Returned main_articles =>
        Returned
          (limited max_articles
             (filter_articles_with FtScraper.RELEVANT_KEYWORDS
                "https://www.ft.com/"
                (remove_duplicates
                   (main_articles
                    ++ match sources_to_scrape with
                       | [] => []
                       | _ :: _ =>
                           mjoin (FtScraper.task_result E <$> completed)
                       end))))
    | Raised e => Raised e
    end.
Proof.
  destruct (FtScraper.scrape_main E main_source).2 as [m|e] eqn:Hm.
  - unfold FtScraper.scrape_all_sources.
    pose proof (unique_articles_result E main_source sources_to_scrape
                  completed) as Hu.
    rewrite gather_result, Hm in Hu.
    rewrite (bind_returned _ _ _ Hu), log_bind.
    erewrite bind_returned by reflexivity.
    by rewrite bound_articles_unfold.
  - by apply scrape_all_sources_raises.
Qed.

Lemma task_result_raised (E : env) (sc : source_config) (u : str)
    (e : exn) :
  sc_url sc = Some u →
  (FtScraper.extract_ft_articles E u (sc_name sc) (sc_category sc)).2
  = Raised e →
  FtScraper.task_result E sc = [].
Proof.
  intros Hu He. unfold FtScraper.task_result.
  by rewrite (scrape_source_parallel_isolated E sc u e Hu He).
Qed.

(** X15. In the pool a source whose extraction raises is as if it were not
    there: the loop over the completed tasks does not raise and gathers
    what it gathers without that source, wherever its task completes. *)
Theorem pool_failure_isolated (E : env) (sc : source_config) (u : str)
    (e : exn) (before after : list source_config)
    (all_articles : list article) :
  sc_url sc = Some u →
  (FtScraper.extract_ft_articles E u (sc_name sc) (sc_category sc)).2
  = Raised e →
  (FtScraper.collect_completed E (before ++ sc :: after) all_articles).2
  = Returned (all_articles
              ++ mjoin (FtScraper.task_result E <$> before)
              ++ mjoin (FtScraper.task_result E <$> after))
  ∧ (FtScraper.collect_completed E (before ++ sc :: after) all_articles).2
    = (FtScraper.collect_completed E (before ++ after) all_articles).2.
Proof.
  intros Hu He. rewrite !collect_completed_returns.
  rewrite !fmap_app, fmap_cons, !join_app. simpl.
  by rewrite (task_result_raised E sc u e Hu He).
Qed.

Lemma pool_failure_isolated_witness :
  (FtScraper.collect_completed Sample.rejected_markup
     ([Sample.ft_ai] ++ Sample.ft_tech_sector :: []) [Sample.r1]).2
  = Returned ([Sample.r1]
              ++ mjoin (FtScraper.task_result Sample.rejected_markup
                          <$> [Sample.ft_ai])
              ++ mjoin (FtScraper.task_result Sample.rejected_markup <$> []))
  ∧ (FtScraper.collect_completed Sample.rejected_markup
       ([Sample.ft_ai] ++ Sample.ft_tech_sector :: []) [Sample.r1]).2
    = (FtScraper.collect_completed Sample.rejected_markup
         ([Sample.ft_ai] ++ []) [Sample.r1]).2.
Proof.
  apply (pool_failure_isolated Sample.rejected_markup Sample.ft_tech_sector
           "https://www.ft.com/tech-sector" ParserRejectedMarkup);
    by vm_compute.
Defined.

(** X16. The run of [ft_scraper.py] is the composition of its stages: it
    raises exactly what the extraction of the main source raises, and
    otherwise returns the cut of the filter of the deduplication of the
    records of the main source followed by those of the pool in the order
    of completion. *)
Theorem scrape_all_sources_composition (E : env)
    (min_articles max_articles : Z) (main_source : option source_config)
    (sources_to_scrape completed : list source_config) :
  (FtScraper.scrape_all_sources E min_articles max_articles main_source
     sources_to_scrape completed).2
  = match (FtScraper.scrape_main E main_source).2 with
    | Returned main_articles =>
        Returned
          (limited max_articles
             (filter_articles_with FtScraper.RELEVANT_KEYWORDS
                "https://www.ft.com/"
                (remove_duplicates
                   (main_articles
                    ++ match sources_to_scrape with
                       | [] => []
                       | _ :: _ =>
                           mjoin (FtScraper.task_result E <$> completed)
                       end))))
    | Raised e => Raised e
    end.
Proof. apply scrape_all_sources_result. Qed.

(** X17. Whatever the run of [ft_scraper.py] returns holds no two records
    with the same URL, only records the filter retains, and, for a maximum
    that is not negative, at most [max_articles] records. *)
Theorem scrape_all_sources_output (E : env) (min_articles max_articles : Z)
    (main_source : option source_config)
    (sources_to_scrape completed : list source_config)
    (out : list article) :
  (FtScraper.scrape_all_sources E min_articles max_articles main_source
     sources_to_scrape completed).2 = Returned out →
  NoDup (url <$> out)
  ∧ (∀ a, a ∈ out →
          retained FtScraper.RELEVANT_KEYWORDS "https://www.ft.com/" a = true)
  ∧ (0 ≤ max_articles → llen out ≤ max_articles).
Proof.
  rewrite scrape_all_sources_result.
  destruct (FtScraper.scrape_main E main_source).2 as [m|e]; [|discriminate].
  intros [= <-].
  match goal with
  | |- context [remove_duplicates ?l] =>
      destruct (pipeline_invariants FtScraper.RELEVANT_KEYWORDS
                  "https://www.ft.com/" max_articles l) as (H1 & H2 & _ & H4)
  end.
  by repeat split.
Qed.

Lemma scrape_all_sources_output_witness :
  NoDup (url <$> [Sample.r1])
  ∧ (∀ a, a ∈ [Sample.r1] →
          retained FtScraper.RELEVANT_KEYWORDS "https://www.ft.com/" a = true)
  ∧ (0 ≤ 150 → llen [Sample.r1] ≤ 150).
Proof.
  apply (scrape_all_sources_output Sample.two_views 50 150 None
           [Sample.ft_ai; Sample.ft_tech_sector]
           [Sample.ft_ai; Sample.ft_tech_sector]).
  by vm_compute.
Defined.

Lemma extract_scrape_main_sources_result
    (sources : list (str * M (list article))) :
  ∀ all_articles,
    (Extract.scrape_main_sources sources all_articles).2
    = Returned (all_articles ++ mjoin ((extractor_result ∘ snd) <$> sources)).
Proof.
  induction sources as [|[u call] rest IH]; intros all_articles; simpl.
  - by rewrite app_nil_r.
  - match goal with
    | |- (catch ?m ?h ≫= _).2 = _ =>
        assert (Hc : (catch m h).2
                     = Returned (all_articles ++ extractor_result call))
    end.
    { unfold extractor_result. destruct (call.2) as [l|e] eqn:Hcall.
      - apply catch_returned. by rewrite (bind_returned _ _ _ Hcall).
      - erewrite catch_raised by (by apply bind_raised).
        simpl. by rewrite app_nil_r. }
    rewrite (bind_returned _ _ _ Hc), IH. by rewrite <- app_assoc.
Qed.

Lemma extract_scrape_all_sources_result (min_articles max_articles : Z)
    (sources : list (str * M (list article)))
    (rss_articles : list article) :
  (Extract.scrape_all_sources min_articles max_articles sources
     rss_articles).2
  = Returned
      (limited max_articles
         (Extract.filter_articles
            (remove_duplicates
               (mjoin ((extractor_result ∘ snd) <$> sources)
                ++ rss_articles)))).
Proof.
  unfold Extract.scrape_all_sources.
  rewrite (bind_returned _ _ _ (extract_scrape_main_sources_result sources [])).
  rewrite log_bind. simpl.
  change (Extract.bound_articles ?a ?b ?c) with (FtScraper.bound_articles a b c).
  by rewrite bound_articles_unfold.
Qed.

(** X18. The run of [extract.py] never raises, whatever its extractors do:
    it returns the cut of the filter of the deduplication of what the
    extractors that returned gave, in the order of the sources, followed by
    the records of the feeds; an extractor that raises gives nothing. *)
Theorem extract_scrape_all_sources_composition (min_articles max_articles : Z)
    (sources : list (str * M (list article)))
    (rss_articles : list article) :
  (Extract.scrape_all_sources min_articles max_articles sources
     rss_articles).2
  = Returned
      (limited max_articles
         (Extract.filter_articles
            (remove_duplicates
               (mjoin ((extractor_result ∘ snd) <$> sources)
                ++ rss_articles)))).
Proof. apply extract_scrape_all_sources_result. Qed.

(** X19. What the run of [extract.py] returns holds no two records with
    the same URL, only records its filter retains, only records that an
    extractor or a feed gave, and, for a maximum that is not negative, at
    most [max_articles] records. *)
Theorem extract_scrape_all_sources_output (min_articles max_articles : Z)
    (sources : list (str * M (list article)))
    (rss_articles : list article) :
  ∃ out,
    (Extract.scrape_all_sources min_articles max_articles sources
       rss_articles).2 = Returned out
    ∧ NoDup (url <$> out)
    ∧ (∀ a, a ∈ out → retained Extract.relevant_keywords "http" a = true)
    ∧ out `sublist_of` (mjoin ((extractor_result ∘ snd) <$> sources)
                        ++ rss_articles)
    ∧ (0 ≤ max_articles → llen out ≤ max_articles).
Proof.
  eexists. split; [apply extract_scrape_all_sources_result|].
  apply (pipeline_invariants Extract.relevant_keywords "http").
Qed.

(** X20. A source without a ['url'] costs the main call a [KeyError], which
    ends the run, and costs a task of the pool nothing: the task returns no
    record and makes no request. *)
Theorem missing_url (E : env) (min_articles max_articles : Z)
    (sc : source_config)
    (sources_to_scrape completed : list source_config) :
  sc_url sc = None →
  (FtScraper.scrape_all_sources E min_articles max_articles (Some sc)
     sources_to_scrape completed).2 = Raised KeyError
  ∧ FtScraper.scrape_source_parallel E sc
    = ([Log INFO (FoundFrom 0 (sc_name sc))], Returned []).
Proof.
  intros Hu. split.
  - apply scrape_all_sources_raises. unfold FtScraper.scrape_main.
    apply bind_raised. unfold FtScraper.getitem_url. by rewrite Hu.
  - unfold FtScraper.scrape_source_parallel. by rewrite Hu.
Qed.

Lemma missing_url_witness :
  (FtScraper.scrape_all_sources Sample.two_views 50 150 (Some Fixture.no_url)
     [Sample.ft_ai] [Sample.ft_ai]).2 = Raised KeyError
  ∧ FtScraper.scrape_source_parallel Sample.two_views Fixture.no_url
    = ([Log INFO (FoundFrom 0 (sc_name Fixture.no_url))], Returned []).
Proof.
  apply (missing_url Sample.two_views 50 150 Fixture.no_url). reflexivity.
Defined.

(** X21. When no URL occurs twice among the records of the main source and
    of the pool, the order of completion moves records and does nothing
    else: two runs hold the same records after deduplication, and the same
    records after the filter. *)
Theorem completion_order_permutes (E : env)
    (main_source : option source_config)
    (sources_to_scrape completed1 completed2 : list source_config)
    (main_articles : list article) :
  completed1 ≡ₚ sources_to_scrape →
  completed2 ≡ₚ sources_to_scrape →
  (FtScraper.scrape_main E main_source).2 = Returned main_articles →
  NoDup (url <$> (main_articles
                  ++ mjoin (FtScraper.task_result E <$> sources_to_scrape))) →
  ∃ l1 l2,
    (FtScraper.unique_articles E main_source sources_to_scrape completed1).2
    = Returned l1
    ∧ (FtScraper.unique_articles E main_source sources_to_scrape completed2).2
      = Returned l2
    ∧ l1 ≡ₚ l2
    ∧ filter_articles_with FtScraper.RELEVANT_KEYWORDS "https://www.ft.com/" l1
      ≡ₚ filter_articles_with FtScraper.RELEVANT_KEYWORDS
           "https://www.ft.com/" l2.
Proof.
  intros H1 H2 Hm Hnd.
  rewrite !unique_articles_result, !gather_result, Hm.
  eexists _, _. split; [reflexivity|]. split; [reflexivity|].
  assert (Hperm : ∀ completed, completed ≡ₚ sources_to_scrape →
            remove_duplicates
              (main_articles
               ++ match sources_to_scrape with
                  | [] => []
                  | _ :: _ => mjoin (FtScraper.task_result E <$> completed)
                  end)
            ≡ₚ main_articles
               ++ mjoin (FtScraper.task_result E <$> sources_to_scrape)).
  { intros completed Hc.
    assert (Hall : main_articles
                   ++ match sources_to_scrape with
                      | [] => []
                      | _ :: _ =>
                          mjoin (FtScraper.task_result E <$> completed)
                      end
                   ≡ₚ main_articles
                      ++ mjoin (FtScraper.task_result E
                                  <$> sources_to_scrape)).
    { destruct sources_to_scrape as [|sc rest]; [done | by rewrite Hc]. }
    rewrite remove_duplicates_dedup_from, dedup_from_NoDup; [done | |set_solver].
    by rewrite Hall. }
  assert (Hl : remove_duplicates
                 (main_articles
                  ++ match sources_to_scrape with
                     | [] => []
                     | _ :: _ => mjoin (FtScraper.task_result E <$> completed1)
                     end)
               ≡ₚ remove_duplicates
                    (main_articles
                     ++ match sources_to_scrape with
                        | [] => []
                        | _ :: _ =>
                            mjoin (FtScraper.task_result E <$> completed2)
                        end)).
  { by rewrite (Hperm _ H1), (Hperm _ H2). }
  split; [done|]. rewrite !filter_articles_with_filter. by rewrite Hl.
Qed.

Lemma completion_order_permutes_witness :
  (FtScraper.unique_articles Fixture.two_pages None
     [Sample.ft_ai; Sample.ft_tech_sector]
     [Sample.ft_ai; Sample.ft_tech_sector]).2
  = Returned
      [Sample.r1;
       Article "Financial Times Tech Sector" "Chip makers race for capacity"
         "https://www.ft.com/content/b" "" "" "Tech Sector" ""]
  ∧ (FtScraper.unique_articles Fixture.two_pages None
       [Sample.ft_ai; Sample.ft_tech_sector]
       [Sample.ft_tech_sector; Sample.ft_ai]).2
    = Returned
        [Article "Financial Times Tech Sector" "Chip makers race for capacity"
           "https://www.ft.com/content/b" "" "" "Tech Sector" "";
         Sample.r1]
  ∧ ∃ l1 l2,
      (FtScraper.unique_articles Fixture.two_pages None
         [Sample.ft_ai; Sample.ft_tech_sector]
         [Sample.ft_ai; Sample.ft_tech_sector]).2
      = Returned l1
      ∧ (FtScraper.unique_articles Fixture.two_pages None
           [Sample.ft_ai; Sample.ft_tech_sector]
           [Sample.ft_tech_sector; Sample.ft_ai]).2
        = Returned l2
      ∧ l1 ≡ₚ l2
      ∧ filter_articles_with FtScraper.RELEVANT_KEYWORDS
          "https://www.ft.com/" l1
        ≡ₚ filter_articles_with FtScraper.RELEVANT_KEYWORDS
             "https://www.ft.com/" l2.
Proof.
  split; [reflexivity|]. split; [reflexivity|].
  apply (completion_order_permutes Fixture.two_pages None
           [Sample.ft_ai; Sample.ft_tech_sector]
           [Sample.ft_ai; Sample.ft_tech_sector]
           [Sample.ft_tech_sector; Sample.ft_ai] []).
  - reflexivity.
  - apply perm_swap.
  - reflexivity.
  - apply (bool_decide_unpack _). vm_compute. exact I.
Defined.

(** X22. The main source comes first and wins: whatever the pool brings
    and in whatever order, the deduplicated list starts with the
    deduplicated records of the main source, and no record after them bears
    a URL of the main source. *)
Theorem main_source_precedence (E : env)
    (main_source : option source_config)
    (sources_to_scrape completed : list source_config)
    (main_articles : list article) :
  (FtScraper.scrape_main E main_source).2 = Returned main_articles →
  ∃ rest,
    (FtScraper.unique_articles E main_source sources_to_scrape completed).2
    = Returned (remove_duplicates main_articles ++ rest)
    ∧ ∀ a, a ∈ rest → url a ∉ url <$> main_articles.
Proof.
  intros Hm. rewrite unique_articles_result, gather_result, Hm.
  rewrite remove_duplicates_app_filter. eexists. split; [reflexivity|].
  intros a Ha.
  match type of Ha with
  | a ∈ remove_duplicates ?l =>
      assert (Hin : a ∈ l)
        by (eapply sublist_subseteq; [|exact Ha];
            rewrite remove_duplicates_dedup_from; apply dedup_from_sublist)
  end.
  by apply list_elem_of_filter in Hin as [Hin _].
Qed.

Lemma main_source_precedence_witness :
  ∃ rest,
    (FtScraper.unique_articles Sample.two_views (Some Sample.ft_ai)
       [Sample.ft_tech_sector] [Sample.ft_tech_sector]).2
    = Returned (remove_duplicates [Sample.r1] ++ rest)
    ∧ ∀ a, a ∈ rest → url a ∉ url <$> [Sample.r1].
Proof.
  apply (main_source_precedence Sample.two_views (Some Sample.ft_ai)
           [Sample.ft_tech_sector] [Sample.ft_tech_sector] [Sample.r1]).
  reflexivity.
Defined.

(** ** The RSS feeds *)

Lemma append_entries_spec (entries : list Rss.rss_entry) :
  ∀ articles,
    (Rss.append_entries entries articles).1
    = articles ++ Rss.entries_until_error entries
    ∧ ((Rss.append_entries entries articles).2 = None
       ↔ existsb (λ en, match Rss.entry_article en with
                        | Raised _ => true
                        | Returned _ => false
                        end) entries = false).
Proof.
  induction entries as [|en rest IH]; intros articles; simpl.
  - by rewrite app_nil_r.
  - destruct (Rss.entry_article en) as [a|e]; simpl.
    + destruct (IH (articles ++ [a])) as [H1 H2].
      rewrite H1, H2. by rewrite <- app_assoc.
    + by rewrite app_nil_r.
Qed.

Lemma feed_failed_unfold (parse : str → outcome (list Rss.rss_entry))
    (f : str) :
  Rss.feed_failed parse f
  = match parse f with
    | Raised _ => true
    | Returned entries =>
        existsb (λ en, match Rss.entry_article en with
                       | Raised _ => true
                       | Returned _ => false
                       end) entries
    end.
Proof. reflexivity. Qed.

Lemma scrape_feeds_spec (parse : str → outcome (list Rss.rss_entry))
    (feeds : list str) :
  ∀ articles,
    (Rss.scrape_feeds parse feeds articles).2
    = Returned (articles ++ mjoin (Rss.feed_articles parse <$> feeds))
    ∧ length (errors (Rss.scrape_feeds parse feeds articles).1)
      = length (filter (λ f, Rss.feed_failed parse f = true) feeds).
Proof.
  induction feeds as [|f rest IH]; intros articles.
  - simpl. by rewrite app_nil_r.
  - cbn [Rss.scrape_feeds]. unfold log. rewrite emit_bind.
    cbn [fst snd fmap list_fmap mjoin list_join].
    change (errors (Log INFO ?m :: ?t)) with (errors t).
    pose proof (feed_failed_unfold parse f) as Hff.
    unfold Rss.feed_articles at 1.
    destruct (parse f) as [entries|e].
    + destruct (append_entries_spec entries articles) as [H1 H2].
      destruct (Rss.append_entries entries articles) as [articles' [e|]];
        simpl in H1, H2; subst articles';
        destruct (IH (articles ++ Rss.entries_until_error entries))
          as [E1 E2].
      * rewrite emit_bind. cbn [fst snd].
        change (errors (Log ERROR ?m :: ?t)) with (m :: errors t).
        rewrite E1. cbn [length]. rewrite E2.
        destruct (existsb _ entries);
          [|destruct H2 as [_ H2]; discriminate (H2 eq_refl)].
        rewrite filter_cons_True by done. by rewrite <- app_assoc.
      * rewrite E1, E2, (proj1 H2 eq_refl) in *.
        rewrite filter_cons_False by (by rewrite Hff).
        by rewrite <- app_assoc.
    + rewrite emit_bind. cbn [fst snd].
      change (errors (Log ERROR ?m :: ?t)) with (m :: errors t).
      destruct (IH articles) as [E1 E2]. rewrite E1. cbn [length].
      rewrite E2. by rewrite filter_cons_True by done.
Qed.

(** X23. [scrape_rss_feeds] never raises.  Each feed gives the records of
    its entries up to the first entry that cannot be read, and nothing when
    the feed cannot be parsed; what a feed gives does not depend on the
    other feeds; one error is logged for each feed that failed. *)
Theorem scrape_rss_feeds_partial
    (parse : str → outcome (list Rss.rss_entry)) :
  (Rss.scrape_rss_feeds parse).2
  = Returned (mjoin (Rss.feed_articles parse <$> Rss.rss_feeds))
  ∧ length (errors (Rss.scrape_rss_feeds parse).1)
    = length (filter (λ f, Rss.feed_failed parse f = true) Rss.rss_feeds).
Proof. apply (scrape_feeds_spec parse Rss.rss_feeds []). Qed.

(** A feed whose second entry has no title gives its first entry, and the
    next feed is read. *)
Example scrape_rss_feeds_gap :
  (Rss.scrape_feeds
     (λ f, if bool_decide (f = "https://www.ft.com/rss/home")
           then Returned Fixture.feed_with_gap
           else Returned [Rss.RssEntry (Returned "Banks test quantum security")
                            (Returned "https://www.ft.com/content/d")
                            None None])
     ["https://www.ft.com/rss/home"; "https://www.ft.com/rss/markets"] []).2
  = Returned
      [Article "Financial Times (RSS)" "Markets rally on chip demand"
         "https://www.ft.com/content/m" "" "" "Technology" "";
       Article "Financial Times (RSS)" "Banks test quantum security"
         "https://www.ft.com/content/d" "" "" "Technology" ""].
Proof. reflexivity. Qed.

(** ** The counts of print_summary *)

Lemma get_incr (d : list (str * Z)) (k k' : str) :
  Summary.get (Summary.incr d k) k'
  = if decide (k = k') then Summary.get d k + 1 else Summary.get d k'.
Proof.
  induction d as [|[k0 v] d IH]; simpl.
  - by destruct (decide (k = k')).
  - destruct (decide (k0 = k)) as [->|Hne]; simpl.
    + by destruct (decide (k = k')).
    + rewrite IH. destruct (decide (k0 = k')) as [->|]; [|done].
      by rewrite decide_False by done.
Qed.

Lemma total_incr (d : list (str * Z)) (k : str) :
  Summary.total (Summary.incr d k) = Summary.total d + 1.
Proof.
  unfold Summary.total. induction d as [|[k0 v] d IH]; [done|].
  cbn [Summary.incr]. destruct (decide (k0 = k));
    rewrite !fmap_cons; cbn [foldr snd]; rewrite ?IH; lia.
Qed.

Lemma keys_incr (d : list (str * Z)) (k : str) :
  (Summary.incr d k).*1 = if decide (k ∈ d.*1) then d.*1 else d.*1 ++ [k].
Proof.
  induction d as [|[k0 v] d IH]; [done|].
  cbn [Summary.incr]. destruct (decide (k0 = k)) as [->|Hne];
    rewrite !fmap_cons; cbn [fst].
  - rewrite decide_True; [done | by left].
  - rewrite IH. destruct (decide (k ∈ d.*1)).
    + rewrite decide_True; [done | by right].
    + rewrite decide_False; [done|]. rewrite elem_of_cons. naive_solver.
Qed.

Lemma counts_fold (key : article → str) (articles : list article) :
  ∀ d,
    NoDup d.*1 →
    let d' := foldl (λ d a, Summary.incr d (key a)) d articles in
    NoDup d'.*1
    ∧ Summary.total d' = Summary.total d + llen articles
    ∧ (∀ k, Summary.get d' k
            = Summary.get d k
              + llen (filter (λ a, key a = k) articles))
    ∧ (∀ k, k ∈ d'.*1 ↔ k ∈ d.*1 ∨ k ∈ key <$> articles).
Proof.
  unfold llen. induction articles as [|a l IH]; intros d Hd; simpl.
  - split; [done|]. split; [lia|]. split; [intros k; lia|].
    intros k. split; [by left|].
    intros [?|Hn]; [done | by apply elem_of_nil in Hn].
  - assert (Hd' : NoDup (Summary.incr d (key a)).*1).
    { rewrite keys_incr. destruct (decide (key a ∈ d.*1)); [done|].
      apply NoDup_app. repeat split; [done | | apply NoDup_singleton].
      intros x Hx ->%list_elem_of_singleton. done. }
    destruct (IH _ Hd') as (H1 & H2 & H3 & H4).
    split; [done|]. split; [rewrite H2, total_incr; lia|]. split.
    + intros k. rewrite H3, get_incr.
      destruct (decide (key a = k)) as [Hk|Hk].
      * rewrite filter_cons_True by done. subst k. simpl. lia.
      * by rewrite filter_cons_False by done.
    + intros k. rewrite H4, keys_incr, elem_of_cons.
      destruct (decide (key a ∈ d.*1)) as [Hin|Hin].
      * split; [tauto|]. intros [?|[->|?]]; tauto.
      * rewrite elem_of_app, list_elem_of_singleton. naive_solver.
Qed.

(** X24. The counts of [print_summary] count every record once: each
    source that occurs is listed once, with the number of the records that
    bear it, no other source is listed, and the counts add up to the number
    of records.  The same holds of the counts by category. *)
Theorem counts_exact (key : article → str) (articles : list article) :
  NoDup (Summary.counts key articles).*1
  ∧ (∀ k, k ∈ (Summary.counts key articles).*1 ↔ k ∈ key <$> articles)
  ∧ (∀ k, Summary.get (Summary.counts key articles) k
          = llen (filter (λ a, key a = k) articles))
  ∧ Summary.total (Summary.counts key articles) = llen articles.
Proof.
  destruct (counts_fold key articles [] (NoDup_nil_2))
    as (H1 & H2 & H3 & H4).
  unfold Summary.counts. split; [done|]. split.
  - intros k. rewrite H4. split; [intros [Hn|?]; [by apply elem_of_nil in Hn|done] | by right].
  - split; [intros k; by rewrite H3 | by rewrite H2].
Qed.
